(** * FinTrackPro: the calculation engine and the CSV record store

    A shallow embedding of [utils/calculations.py], [utils/data_utils.py]
    and [utils/auth_utils.py], and the properties of the specification
    that are stated about them; with them [convert_amount] of
    [utils/api_utils.py], the amortization schedule of
    [modules/calculators.py] and the forms of [modules/auth.py].

    Conventions of the embedding.
    - Python numbers are exact rationals ([Q]): the arithmetic of the
      source is transcribed operation by operation, and the rounding of
      binary64 is not modelled.  [round(x, 2)] is rounding half to even on
      the exact value, which is what CPython does on the value it holds.
      Exact arithmetic has neither the overflow of a power nor the loss
      of a small rate in [1 + m]: a statement that a division by
      [(1 + m)^n - 1] returns is made for the arguments of [Binary64].
    - [int] arguments ([tenure_years], [years], row indices, ids) are [Z].
    - A [try ... except Exception as e: raise ValueError(...)] block is a
      computation in the [outcome] monad.
    - A CSV file is [option (list row)]: [None] when the file does not
      exist, [Some rows] for the data rows below the header row that
      [initialize_data_files] and [to_csv] write.  Reading a file written
      by [to_csv(index=False)] gives back the same rows under the index
      [0, 1, ..., n-1].  The stored rows are the rows as pandas reads
      them; the textual round trip of a cell is not modelled, and a
      statement that follows a new cell through a write and a read is
      made for a cell that is [Csv.text].  Of the input/output errors,
      the missing directory is modelled, in [Disk].
    - Strings are ASCII text.  A regular expression is a [Re.pattern],
      matched by derivatives.
    - [datetime.now()] and [hashlib.sha256] are inputs of the functions
      that call them. *)

From Stdlib Require Import ZArith QArith Qround Qminmax Qpower Qabs Lqa Lia List String Ascii Bool Sorted.
From stdpp Require Import base list gmap strings.
Import ListNotations.

Local Open Scope Q_scope.

(** ** Python built-ins used by the source *)

Module Py.

(** Exceptions the modelled arithmetic can raise, and the [ValueError]
    the calculation functions wrap them in ([context] is the fixed
    prefix of the message, [cause] the exception caught). *)
Inductive exn : Type :=
| ZeroDivisionError
| ValueError (context : string) (cause : exn).

Inductive outcome (A : Type) : Type :=
| Returns (a : A)
| Raises (e : exn).
Arguments Returns {A} a.
Arguments Raises {A} e.

Definition bind {A B : Type} (m : outcome A) (k : A -> outcome B) : outcome B :=
  match m with
  | Returns a => k a
  | Raises e => Raises e
  end.

(** [try: body  except Exception as e: raise ValueError(context + str(e))] *)
Definition try_except {A : Type} (context : string) (body : outcome A) : outcome A :=
  match body with
  | Returns a => Returns a
  | Raises e => Raises (ValueError context e)
  end.

(** [x / y] *)
Definition div (x y : Q) : outcome Q :=
  if Qeq_bool y 0 then Raises ZeroDivisionError else Returns (x / y).

(** [x ** n] with an [int] exponent: zero to a negative power raises. *)
Definition pow (x : Q) (n : Z) : outcome Q :=
  if Qeq_bool x 0 && (n <? 0)%Z then Raises ZeroDivisionError
  else Returns (x ^ n).

(** [min(a, b)]: the first argument unless the second is smaller. *)
Definition min (a b : Q) : Q :=
  match Qcompare b a with Lt => b | _ => a end.

(** [max(a, b)]: the first argument unless the second is greater. *)
Definition max (a b : Q) : Q :=
  match Qcompare b a with Gt => b | _ => a end.

(** Nearest integer, ties to the even one. *)
Definition round_half_even (x : Q) : Z :=
  let f := Qfloor x in
  match Qcompare (x - inject_Z f) (1 # 2) with
  | Lt => f
  | Gt => (f + 1)%Z
  | Eq => if Z.even f then f else (f + 1)%Z
  end.

(** [round(number, ndigits)] *)
Definition round (number : Q) (ndigits : Z) : Q :=
  inject_Z (round_half_even (number * 10 ^ ndigits)) / 10 ^ ndigits.

(** [range(n)] has [n] elements, none when [n <= 0]. *)
Definition range_len (n : Z) : nat := Z.to_nat n.

(** [str.lower()] and [str.strip()], on ASCII text. *)
Definition lower_char (c : ascii) : ascii :=
  let n := nat_of_ascii c in
  if (65 <=? n)%nat && (n <=? 90)%nat then ascii_of_nat (n + 32) else c.

Fixpoint lower (s : string) : string :=
  match s with
  | EmptyString => EmptyString
  | String c s' => String (lower_char c) (lower s')
  end.

Definition is_space (c : ascii) : bool :=
  let n := nat_of_ascii c in
  ((9 <=? n)%nat && (n <=? 13)%nat) || ((28 <=? n)%nat && (n <=? 32)%nat).

Fixpoint lstrip (s : string) : string :=
  match s with
  | EmptyString => EmptyString
  | String c s' => if is_space c then lstrip s' else s
  end.

Fixpoint rstrip (s : string) : string :=
  match s with
  | EmptyString => EmptyString
  | String c s' =>
      match rstrip s' with
      | EmptyString => if is_space c then EmptyString else String c EmptyString
      | r => String c r
      end
  end.

Definition strip (s : string) : string := rstrip (lstrip s).

End Py.

Notation "'let*' x ':=' m 'in' k" := (Py.bind m (fun x => k))
  (at level 10, x name, m at level 100, k at level 200).

(** ** utils/calculations.py *)

Module Calculations.
Import Py.

(** [calculate_emi(principal, annual_rate, tenure_years)] *)
Definition calculate_emi (principal annual_rate : Q) (tenure_years : Z)
  : outcome (Q * Q * Q) :=
  try_except "Error calculating EMI: " (
    let monthly_rate := annual_rate / (12 * 100) in
    let total_months := (tenure_years * 12)%Z in
    let* emi :=
      (if Qeq_bool monthly_rate 0
       then div principal (inject_Z total_months)
       else
         let* p1 := pow (1 + monthly_rate) total_months in
         let* p2 := pow (1 + monthly_rate) total_months in
         div (principal * monthly_rate * p1) (p2 - 1)) in
    let total_payment := emi * inject_Z total_months in
    let total_interest := total_payment - principal in
    Returns (round emi 2, round total_payment 2, round total_interest 2)).

(** The body of [for month in range(total_months)], on the pair
    [(current_amount, total_invested)]. *)
Definition compound_step (monthly_rate monthly_contribution : Q) (st : Q * Q) : Q * Q :=
  let '(current_amount, total_invested) := st in
  let current_amount := current_amount * (1 + monthly_rate) in
  let current_amount := current_amount + monthly_contribution in
  let total_invested := total_invested + monthly_contribution in
  (current_amount, total_invested).

Fixpoint compound_loop (months : nat) (monthly_rate monthly_contribution : Q)
    (st : Q * Q) : Q * Q :=
  match months with
  | O => st
  | S months' =>
      compound_loop months' monthly_rate monthly_contribution
        (compound_step monthly_rate monthly_contribution st)
  end.

(** [calculate_compound_interest(principal, monthly_contribution,
    annual_return, years)] *)
Definition calculate_compound_interest
    (principal monthly_contribution annual_return : Q) (years : Z)
  : outcome (Q * Q * Q) :=
  try_except "Error calculating compound interest: " (
    let monthly_rate := annual_return / (12 * 100) in
    let total_months := (years * 12)%Z in
    let '(current_amount, total_invested) :=
      compound_loop (range_len total_months) monthly_rate monthly_contribution
        (principal, principal) in
    let total_returns := current_amount - total_invested in
    Returns (round current_amount 2, round total_invested 2, round total_returns 2)).

(** A bracket limit: a dollar amount or [float('inf')]. *)
Inductive limit : Type :=
| Fin (dollars : Q)
| Inf.

Definition tax_brackets : list (limit * Q) :=
  [ (Fin 10275, 0.10);
    (Fin 41775, 0.12);
    (Fin 89450, 0.22);
    (Fin 190750, 0.24);
    (Fin 364200, 0.32);
    (Fin 462550, 0.35);
    (Inf, 0.37) ].

(** [[(limit * 2 if limit != float('inf') else limit, rate) for ...]] *)
Definition double_brackets (brackets : list (limit * Q)) : list (limit * Q) :=
  List.map (fun '(l, rate) =>
              (match l with Fin d => Fin (d * 2) | Inf => Inf end, rate))
           brackets.

Definition brackets_for (filing_status : string) : list (limit * Q) :=
  if String.eqb filing_status "Married Filing Jointly"
  then double_brackets tax_brackets
  else tax_brackets.

(** The [for limit, rate in tax_brackets] loop, on the state
    [(federal_tax, remaining_income, previous_limit)].  With an infinite
    limit [min(remaining_income, limit - previous_limit)] is
    [remaining_income], so [remaining_income] becomes 0 and the test at
    the end of the body leaves the loop. *)
Fixpoint tax_loop (brackets : list (limit * Q))
    (federal_tax remaining_income previous_limit : Q) : Q :=
  match brackets with
  | [] => federal_tax
  | (lim, rate) :: rest =>
      if Qle_bool remaining_income 0 then federal_tax
      else
        let taxable_at_bracket :=
          match lim with
          | Fin l => min remaining_income (l - previous_limit)
          | Inf => remaining_income
          end in
        let federal_tax := federal_tax + taxable_at_bracket * rate in
        let remaining_income := remaining_income - taxable_at_bracket in
        match lim with
        | Fin l =>
            if Qle_bool remaining_income 0 then federal_tax
            else tax_loop rest federal_tax remaining_income l
        | Inf => federal_tax
        end
  end.

(** The dictionary [calculate_tax] returns. *)
Record tax_info : Type := {
  annual_income : Q;
  total_deductions : Q;
  taxable_income : Q;
  federal_tax : Q;
  after_tax_income : Q;
  effective_rate : Q
}.

(** [calculate_tax(annual_income, filing_status, standard_deduction,
    other_deductions)] *)
Definition calculate_tax (annual_income : Q) (filing_status : string)
    (standard_deduction other_deductions : Q) : outcome tax_info :=
  try_except "Error calculating tax: " (
    let total_deductions := standard_deduction + other_deductions in
    let taxable_income := max 0 (annual_income - total_deductions) in
    let federal_tax := tax_loop (brackets_for filing_status) 0 taxable_income 0 in
    let after_tax_income := annual_income - federal_tax in
    let effective_rate :=
      if negb (Qle_bool annual_income 0) then federal_tax / annual_income * 100
      else 0 in
    Returns {| annual_income := round annual_income 2;
               total_deductions := round total_deductions 2;
               taxable_income := round taxable_income 2;
               federal_tax := round federal_tax 2;
               after_tax_income := round after_tax_income 2;
               effective_rate := round effective_rate 2 |}).

End Calculations.

(** ** The part of pandas the record store uses

    A [DataFrame] is the list of its rows in order, each with its index
    label. *)

Module Pandas.

Definition DataFrame (A : Type) : Type := list (Z * A).

Fixpoint enumerate_from {A : Type} (start : Z) (rows : list A) : DataFrame A :=
  match rows with
  | [] => []
  | r :: rows' => (start, r) :: enumerate_from (start + 1) rows'
  end.

(** [pd.read_csv(file)]: the rows of the file under the labels 0, 1, ... *)
Definition read_csv {A : Type} (rows : list A) : DataFrame A :=
  enumerate_from 0 rows.

(** [pd.DataFrame(records)] for a list of records. *)
Definition from_records {A : Type} (records : list A) : DataFrame A :=
  enumerate_from 0 records.

(** [df.to_csv(file, index=False)]: the rows, without their labels. *)
Definition to_csv {A : Type} (df : DataFrame A) : list A := List.map snd df.

(** [df.empty] *)
Definition empty {A : Type} (df : DataFrame A) : bool :=
  match df with [] => true | _ => false end.

(** [len(df)] *)
Definition len {A : Type} (df : DataFrame A) : Z := Z.of_nat (List.length df).

(** [label in df.index] *)
Definition index_contains {A : Type} (label : Z) (df : DataFrame A) : bool :=
  List.existsb (fun p => Z.eqb (fst p) label) df.

(** [df.loc[label]] *)
Definition loc {A : Type} (label : Z) (df : DataFrame A) : option A :=
  match List.find (fun p => Z.eqb (fst p) label) df with
  | Some p => Some (snd p)
  | None => None
  end.

(** [df.drop(label)] *)
Definition drop {A : Type} (label : Z) (df : DataFrame A) : DataFrame A :=
  List.filter (fun p => negb (Z.eqb (fst p) label)) df.

(** [df[mask]] for the mask a predicate computes row by row. *)
Definition select {A : Type} (mask : A -> bool) (df : DataFrame A) : DataFrame A :=
  List.filter (fun p => mask (snd p)) df.

(** [df.loc[label, column] = value], with [f] the change of the row. *)
Definition loc_set {A : Type} (label : Z) (f : A -> A) (df : DataFrame A) : DataFrame A :=
  List.map (fun p => if Z.eqb (fst p) label then (fst p, f (snd p)) else p) df.

(** [df.loc[mask, column] = value] *)
Definition mask_set {A : Type} (mask : A -> bool) (f : A -> A) (df : DataFrame A)
  : DataFrame A :=
  List.map (fun p => if mask (snd p) then (fst p, f (snd p)) else p) df.

(** [pd.concat([df, pd.DataFrame([record])], ignore_index=True)] *)
Definition concat_ignore_index {A : Type} (df : DataFrame A) (record : A) : DataFrame A :=
  enumerate_from 0 (to_csv df ++ to_csv (from_records [record])).

(** [df.sort_values(column, ascending=False)] on a column of strings.
    pandas does not fix the order of rows with equal keys; here they
    keep their order. *)
Fixpoint insert_desc {A : Type} (key : A -> string) (x : Z * A) (df : DataFrame A)
  : DataFrame A :=
  match df with
  | [] => [x]
  | y :: df' =>
      if String.leb (key (snd y)) (key (snd x)) then x :: df
      else y :: insert_desc key x df'
  end.

Definition sort_values_desc {A : Type} (key : A -> string) (df : DataFrame A)
  : DataFrame A :=
  List.fold_right (insert_desc key) [] df.

End Pandas.

(** ** utils/data_utils.py *)

Module Expense.
Record row : Type := {
  expense_id : Z;
  user_id : Z;
  date : string;
  amount : Q;
  category : string;
  description : string;
  payment_method : string;
  notes : string;
  created_at : string
}.

(** [expense_data['expense_id'] = expense_id] *)
Definition set_expense_id (id : Z) (r : row) : row :=
  {| expense_id := id; user_id := user_id r; date := date r; amount := amount r;
     category := category r; description := description r;
     payment_method := payment_method r; notes := notes r;
     created_at := created_at r |}.
End Expense.

Module Task.
Record row : Type := {
  task_id : Z;
  user_id : Z;
  title : string;
  description : string;
  category : string;
  priority : string;
  status : string;
  due_date : option string;
  estimated_amount : option Q;
  notes : string;
  created_at : string;
  updated_at : string
}.

(** [task_data['task_id'] = task_id] *)
Definition set_task_id (id : Z) (r : row) : row :=
  {| task_id := id; user_id := user_id r; title := title r;
     description := description r; category := category r;
     priority := priority r; status := status r; due_date := due_date r;
     estimated_amount := estimated_amount r; notes := notes r;
     created_at := created_at r; updated_at := updated_at r |}.

Definition set_status (v : string) (r : row) : row :=
  {| task_id := task_id r; user_id := user_id r; title := title r;
     description := description r; category := category r;
     priority := priority r; status := v; due_date := due_date r;
     estimated_amount := estimated_amount r; notes := notes r;
     created_at := created_at r; updated_at := updated_at r |}.

Definition set_updated_at (v : string) (r : row) : row :=
  {| task_id := task_id r; user_id := user_id r; title := title r;
     description := description r; category := category r;
     priority := priority r; status := status r; due_date := due_date r;
     estimated_amount := estimated_amount r; notes := notes r;
     created_at := created_at r; updated_at := v |}.
End Task.

Module DataUtils.
Import Pandas.

(** The content of ['data/expenses.csv'] and of ['data/backlog.csv']. *)
Definition expenses_file : Type := option (list Expense.row).
Definition backlog_file : Type := option (list Task.row).

(** [save_expense(expense_data)] *)
Definition save_expense (expense_data : Expense.row) (file : expenses_file)
  : bool * expenses_file :=
  let expenses_df :=
    match file with
    | Some rows => read_csv rows
    | None => []
    end in
  let expense_id := (len expenses_df + 1)%Z in
  let expense_data := Expense.set_expense_id expense_id expense_data in
  let expenses_df :=
    if empty expenses_df then from_records [expense_data]
    else concat_ignore_index expenses_df expense_data in
  (true, Some (to_csv expenses_df)).

(** [load_expenses_data(user_id)] *)
Definition load_expenses_data (user_id : Z) (file : expenses_file)
  : DataFrame Expense.row :=
  match file with
  | None => []
  | Some rows =>
      let expenses_df := read_csv rows in
      if empty expenses_df then []
      else
        let user_expenses :=
          select (fun r => Z.eqb (Expense.user_id r) user_id) expenses_df in
        if negb (empty user_expenses)
        then sort_values_desc Expense.date user_expenses
        else user_expenses
  end.

(** [delete_expense(expense_index, user_id)] *)
Definition delete_expense (expense_index user_id : Z) (file : expenses_file)
  : bool * expenses_file :=
  match file with
  | None => (false, file)
  | Some rows =>
      let expenses_df := read_csv rows in
      if empty expenses_df then (false, file)
      else if index_contains expense_index expenses_df then
        match loc expense_index expenses_df with
        | Some expense =>
            if Z.eqb (Expense.user_id expense) user_id then
              let expenses_df := drop expense_index expenses_df in
              (true, Some (to_csv expenses_df))
            else (false, file)
        | None => (false, file)
        end
      else (false, file)
  end.

(** [save_backlog_item(task_data)] *)
Definition save_backlog_item (task_data : Task.row) (file : backlog_file)
  : bool * backlog_file :=
  let backlog_df :=
    match file with
    | Some rows => read_csv rows
    | None => []
    end in
  let task_id := (len backlog_df + 1)%Z in
  let task_data := Task.set_task_id task_id task_data in
  let backlog_df :=
    if empty backlog_df then from_records [task_data]
    else concat_ignore_index backlog_df task_data in
  (true, Some (to_csv backlog_df)).

(** [load_backlog_data(user_id)] *)
Definition load_backlog_data (user_id : Z) (file : backlog_file)
  : DataFrame Task.row :=
  match file with
  | None => []
  | Some rows =>
      let backlog_df := read_csv rows in
      if empty backlog_df then []
      else
        let user_tasks :=
          select (fun r => Z.eqb (Task.user_id r) user_id) backlog_df in
        if negb (empty user_tasks)
        then sort_values_desc Task.created_at user_tasks
        else user_tasks
  end.

(** [update_backlog_status(task_index, user_id, new_status)]; [now] is
    [datetime.now().strftime('%Y-%m-%d %H:%M:%S')]. *)
Definition update_backlog_status (task_index user_id : Z) (new_status : string)
    (now : string) (file : backlog_file) : bool * backlog_file :=
  match file with
  | None => (false, file)
  | Some rows =>
      let backlog_df := read_csv rows in
      if empty backlog_df then (false, file)
      else if index_contains task_index backlog_df then
        match loc task_index backlog_df with
        | Some task =>
            if Z.eqb (Task.user_id task) user_id then
              let backlog_df := loc_set task_index (Task.set_status new_status) backlog_df in
              let backlog_df := loc_set task_index (Task.set_updated_at now) backlog_df in
              (true, Some (to_csv backlog_df))
            else (false, file)
        | None => (false, file)
        end
      else (false, file)
  end.

(** [delete_backlog_item(task_index, user_id)] *)
Definition delete_backlog_item (task_index user_id : Z) (file : backlog_file)
  : bool * backlog_file :=
  match file with
  | None => (false, file)
  | Some rows =>
      let backlog_df := read_csv rows in
      if empty backlog_df then (false, file)
      else if index_contains task_index backlog_df then
        match loc task_index backlog_df with
        | Some task =>
            if Z.eqb (Task.user_id task) user_id then
              let backlog_df := drop task_index backlog_df in
              (true, Some (to_csv backlog_df))
            else (false, file)
        | None => (false, file)
        end
      else (false, file)
  end.

End DataUtils.

(** ** utils/auth_utils.py *)

(** The dictionary [register_user] receives.  [full_name] is [None] when
    the key is missing, [Some None] when it holds Python's [None], and
    [Some (Some s)] when it holds a string. *)
Module UserData.
Record t : Type := {
  username : string;
  email : string;
  password : string;
  full_name : option (option string)
}.
End UserData.

Module User.
Record row : Type := {
  user_id : Z;
  username : string;
  email : string;
  password_hash : string;
  full_name : string;
  created_at : string;
  last_login : option string;
  is_active : bool
}.

Definition set_last_login (v : option string) (r : row) : row :=
  {| user_id := user_id r; username := username r; email := email r;
     password_hash := password_hash r; full_name := full_name r;
     created_at := created_at r; last_login := v; is_active := is_active r |}.
End User.

(** The dictionary [authenticate_user] returns. *)
Module Session.
Record t : Type := {
  user_id : Z;
  username : string;
  email : string;
  full_name : string;
  last_login : option string
}.
End Session.

Module AuthUtils.
Import Pandas.

(** The content of ['data/users.csv']. *)
Definition users_file : Type := option (list User.row).

(** What a call of [register_user] leaves behind: the value returned,
    [st.session_state.registration_error] and the file. *)
Record registration : Type := {
  registered : bool;
  registration_error : option string;
  users_after : users_file
}.

(** [existing_users['user_id'].max()], taken on a frame that has rows. *)
Definition max_user_id (df : DataFrame User.row) : Z :=
  match df with
  | [] => 0%Z
  | (_, u) :: df' =>
      List.fold_left (fun m p => Z.max m (User.user_id (snd p))) df' (User.user_id u)
  end.

Section WithEnvironment.

(** [hash_password(password)], the SHA-256 digest in hexadecimal. *)
Variable hash_password : string -> string.

(** [datetime.now().strftime('%Y-%m-%d %H:%M:%S')] at the call. *)
Variable now : string.

(** [register_user(user_data)] *)
Definition register_user (user_data : UserData.t) (file : users_file)
  : registration :=
  let existing_users :=
    match file with
    | Some rows => read_csv rows
    | None => []
    end in
  let existing_usernames :=
    List.map (fun p => Py.lower (User.username (snd p))) existing_users in
  let existing_emails :=
    List.map (fun p => Py.lower (User.email (snd p))) existing_users in
  if negb (empty existing_users)
     && List.existsb (String.eqb (Py.lower (UserData.username user_data)))
          existing_usernames
  then {| registered := false;
          registration_error := Some "Username already exists"%string;
          users_after := file |}
  else if negb (empty existing_users)
     && List.existsb (String.eqb (Py.lower (UserData.email user_data)))
          existing_emails
  then {| registered := false;
          registration_error := Some "Email already exists"%string;
          users_after := file |}
  else
    let user_id :=
      if negb (empty existing_users) then (max_user_id existing_users + 1)%Z
      else 1%Z in
    match UserData.full_name user_data with
    | Some None =>
        (* [None.strip()] raises AttributeError, caught by the handler *)
        {| registered := false;
           registration_error :=
             Some "Registration error: 'NoneType' object has no attribute 'strip'"%string;
           users_after := file |}
    | full_name =>
        let new_user :=
          {| User.user_id := user_id;
             User.username := Py.strip (UserData.username user_data);
             User.email := Py.lower (Py.strip (UserData.email user_data));
             User.password_hash := hash_password (UserData.password user_data);
             User.full_name :=
               Py.strip (match full_name with
                         | Some (Some s) => s
                         | _ => EmptyString
                         end);
             User.created_at := now;
             User.last_login := None;
             User.is_active := true |} in
        let users_df :=
          if empty existing_users then from_records [new_user]
          else concat_ignore_index existing_users new_user in
        {| registered := true;
           registration_error := None;
           users_after := Some (to_csv users_df) |}
    end.

(** [authenticate_user(username, password)] *)
Definition authenticate_user (username password : string) (file : users_file)
  : option Session.t * users_file :=
  match file with
  | None => (None, file)
  | Some rows =>
      let users_df := read_csv rows in
      if empty users_df then (None, file)
      else
        let user_match :=
          select (fun u => String.eqb (User.username u) username) users_df in
        match user_match with
        | [] => (None, file)
        | (_, user) :: _ =>
            let password_hash := hash_password password in
            if String.eqb (User.password_hash user) password_hash then
              let users_df :=
                mask_set (fun u => String.eqb (User.username u) username)
                         (User.set_last_login (Some now)) users_df in
              (Some {| Session.user_id := User.user_id user;
                       Session.username := User.username user;
                       Session.email := User.email user;
                       Session.full_name := User.full_name user;
                       Session.last_login := User.last_login user |},
               Some (to_csv users_df))
            else (None, file)
        end
  end.

End WithEnvironment.

End AuthUtils.

(** ** Definitions the statements use *)

Module Spec.
Import Py Calculations.

(** [taxed] at a bracket is min(remaining income, bracket width); the
    rate is applied and the amount is subtracted from what remains. *)
Fixpoint allocate (schedule : list (limit * Q)) (previous remaining : Q) : Q :=
  match schedule with
  | [] => 0
  | (upper, rate) :: rest =>
      let taxed :=
        match upper with
        | Fin u => Qmin remaining (u - previous)
        | Inf => remaining
        end in
      taxed * rate
      + allocate rest (match upper with Fin u => u | Inf => previous end)
          (remaining - taxed)
  end.

(** The limits of a schedule do not decrease. *)
Fixpoint ascending (previous : Q) (schedule : list (limit * Q)) : Prop :=
  match schedule with
  | [] => True
  | (Fin u, _) :: rest => previous <= u /\ ascending u rest
  | (Inf, _) :: rest => ascending previous rest
  end.

(** One month of the simulation: growth first, then the contribution. *)
Definition month (monthly_rate contribution amount : Q) : Q :=
  amount * (1 + monthly_rate) + contribution.

Definition simulate (months : nat) (monthly_rate contribution principal : Q) : Q :=
  Nat.iter months (month monthly_rate contribution) principal.

(** The data rows of a file, none when the file is absent. *)
Definition data_rows {A : Type} (file : option (list A)) : list A :=
  match file with
  | Some rows => rows
  | None => []
  end.

(** The row an index designates: the row at that position of the file. *)
Definition target {A : Type} (file : option (list A)) (index : Z) : option A :=
  if (0 <=? index)%Z then data_rows file !! Z.to_nat index else None.

(** Sequences of inserts and deletes on the expense file. *)
Inductive expense_op : Type :=
| Insert (expense_data : Expense.row)
| Delete (expense_index user_id : Z).

Definition apply_op (file : DataUtils.expenses_file) (op : expense_op)
  : DataUtils.expenses_file :=
  match op with
  | Insert expense_data => snd (DataUtils.save_expense expense_data file)
  | Delete expense_index user_id =>
      snd (DataUtils.delete_expense expense_index user_id file)
  end.

Definition run (ops : list expense_op) (file : DataUtils.expenses_file)
  : DataUtils.expenses_file :=
  List.fold_left apply_op ops file.

(** The user ids of a users file, in the order of its rows. *)
Definition user_ids (file : AuthUtils.users_file) : list Z :=
  User.user_id <$> data_rows file.

(** The ids 1, 2, ..., n. *)
Definition first_ids (n : nat) : list Z := Z.of_nat <$> seq 1 n.

(** The row an accepted registration appends, for the id it was given. *)
Definition new_user (hash_password : string -> string) (now : string) (user_id : Z)
    (user_data : UserData.t) : User.row :=
  {| User.user_id := user_id;
     User.username := Py.strip (UserData.username user_data);
     User.email := Py.lower (Py.strip (UserData.email user_data));
     User.password_hash := hash_password (UserData.password user_data);
     User.full_name :=
       Py.strip (match UserData.full_name user_data with
                 | Some (Some s) => s
                 | _ => EmptyString
                 end);
     User.created_at := now;
     User.last_login := None;
     User.is_active := true |}.

(** Successive registrations on the users file. *)
Definition register_all (hash_password : string -> string)
    (requests : list (string * UserData.t)) (file : AuthUtils.users_file)
  : AuthUtils.users_file :=
  List.fold_left
    (fun file '(now, user_data) =>
       AuthUtils.users_after (AuthUtils.register_user hash_password now user_data file))
    requests file.

End Spec.

(** ** Sample rows *)

Module Sample.

Definition expense (user_id : Z) (description : string) : Expense.row :=
  {| Expense.expense_id := 0; Expense.user_id := user_id;
     Expense.date := "2024-03-01"; Expense.amount := 12.50;
     Expense.category := "Groceries"; Expense.description := description;
     Expense.payment_method := "Cash"; Expense.notes := "";
     Expense.created_at := "2024-03-01 10:00:00" |}.

Definition stored_expense (expense_id user_id : Z) (description : string)
  : Expense.row :=
  Expense.set_expense_id expense_id (expense user_id description).

Definition task (task_id user_id : Z) (status : string) : Task.row :=
  {| Task.task_id := task_id; Task.user_id := user_id;
     Task.title := "Pay rent"; Task.description := "Transfer to the landlord";
     Task.category := "Bills"; Task.priority := "High"; Task.status := status;
     Task.due_date := Some "2024-04-01"%string; Task.estimated_amount := Some 900;
     Task.notes := ""; Task.created_at := "2024-03-01 10:00:00";
     Task.updated_at := "2024-03-01 10:00:00" |}.

Definition request (username email password : string) : UserData.t :=
  {| UserData.username := username; UserData.email := email;
     UserData.password := password; UserData.full_name := None |}.

Definition user (user_id : Z) (username email password_hash : string) : User.row :=
  {| User.user_id := user_id; User.username := username; User.email := email;
     User.password_hash := password_hash; User.full_name := "";
     User.created_at := "2024-03-01 10:00:00"; User.last_login := None;
     User.is_active := true |}.

(** A stand-in for the digest where a closed example needs one. *)
Definition digest (password : string) : string := String.append "sha256:" password.

End Sample.

(** ** utils/auth_utils.py, continued *)

(** The dictionary [get_user_data] returns. *)
Module Profile.
Record t : Type := {
  user_id : Z;
  username : string;
  email : string;
  full_name : string;
  created_at : string;
  last_login : option string
}.
End Profile.

Module Accounts.
Import Pandas AuthUtils.

Definition set_password_hash (v : string) (r : User.row) : User.row :=
  {| User.user_id := User.user_id r; User.username := User.username r;
     User.email := User.email r; User.password_hash := v;
     User.full_name := User.full_name r; User.created_at := User.created_at r;
     User.last_login := User.last_login r; User.is_active := User.is_active r |}.

(** [get_user_data(user_id)] *)
Definition get_user_data (user_id : Z) (file : users_file) : option Profile.t :=
  match file with
  | None => None
  | Some rows =>
      let users_df := read_csv rows in
      if empty users_df then None
      else
        let user_match :=
          select (fun u => Z.eqb (User.user_id u) user_id) users_df in
        match user_match with
        | [] => None
        | (_, user) :: _ =>
            Some {| Profile.user_id := User.user_id user;
                    Profile.username := User.username user;
                    Profile.email := User.email user;
                    Profile.full_name := User.full_name user;
                    Profile.created_at := User.created_at user;
                    Profile.last_login := User.last_login user |}
        end
  end.

(** [change_password(user_id, old_password, new_password)] *)
Definition change_password (hash_password : string -> string)
    (user_id : Z) (old_password new_password : string) (file : users_file)
  : bool * users_file :=
  match file with
  | None => (false, file)
  | Some rows =>
      let users_df := read_csv rows in
      if empty users_df then (false, file)
      else
        let user_match :=
          select (fun u => Z.eqb (User.user_id u) user_id) users_df in
        match user_match with
        | [] => (false, file)
        | (_, user) :: _ =>
            let old_password_hash := hash_password old_password in
            if negb (String.eqb (User.password_hash user) old_password_hash)
            then (false, file)
            else
              let new_password_hash := hash_password new_password in
              let users_df :=
                mask_set (fun u => Z.eqb (User.user_id u) user_id)
                         (set_password_hash new_password_hash) users_df in
              (true, Some (to_csv users_df))
        end
  end.

End Accounts.

(** Definitions the statements about accounts use. *)
Module AccountSpec.

(** The user names of a users file, in the order of its rows. *)
Definition usernames (file : AuthUtils.users_file) : list string :=
  User.username <$> Spec.data_rows file.

(** What a successful login does to a row. *)
Definition touch (now username : string) (u : User.row) : User.row :=
  if String.eqb (User.username u) username
  then User.set_last_login (Some now) u
  else u.

(** The session a login as the stored user [u] returns. *)
Definition session_of (u : User.row) : Session.t :=
  {| Session.user_id := User.user_id u; Session.username := User.username u;
     Session.email := User.email u; Session.full_name := User.full_name u;
     Session.last_login := User.last_login u |}.

(** The profile of the stored user [u]. *)
Definition profile_of (u : User.row) : Profile.t :=
  {| Profile.user_id := User.user_id u; Profile.username := User.username u;
     Profile.email := User.email u; Profile.full_name := User.full_name u;
     Profile.created_at := User.created_at u;
     Profile.last_login := User.last_login u |}.

End AccountSpec.

(** ** utils/data_utils.py, continued *)

(** The dictionary [get_user_summary] returns. *)
Module Summary.
Record t : Type := {
  total_expenses : Q;
  total_transactions : Z;
  total_tasks : Z;
  pending_tasks : Z;
  completed_tasks : Z;
  categories_used : Z
}.
End Summary.

Module Storage.
Import Pandas DataUtils.

(** The three files under ['data/']. *)
Record files : Type := {
  users_csv : AuthUtils.users_file;
  expenses_csv : expenses_file;
  backlog_csv : backlog_file
}.

(** [if not os.path.exists(file): pd.DataFrame(columns=[...]).to_csv(file)] *)
Definition create_if_missing {A : Type} (file : option (list A)) : option (list A) :=
  match file with
  | Some rows => Some rows
  | None => Some []
  end.

(** [df[column].sum()] *)
Definition column_sum {A : Type} (column : A -> Q) (df : DataFrame A) : Q :=
  List.fold_left (fun total p => total + column (snd p)) df 0.

(** [df[column].nunique()] on a column of strings. *)
Definition nunique {A : Type} (column : A -> string) (df : DataFrame A) : Z :=
  Z.of_nat (List.length (List.nodup string_dec (List.map (fun p => column (snd p)) df))).

(** [get_user_summary(user_id)] *)
Definition get_user_summary (user_id : Z) (expenses : expenses_file)
    (backlog : backlog_file) : Summary.t :=
  let expenses_df := load_expenses_data user_id expenses in
  let tasks_df := load_backlog_data user_id backlog in
  {| Summary.total_expenses :=
       if negb (empty expenses_df) then column_sum Expense.amount expenses_df else 0;
     Summary.total_transactions := len expenses_df;
     Summary.total_tasks := len tasks_df;
     Summary.pending_tasks :=
       if negb (empty tasks_df)
       then len (select (fun t => String.eqb (Task.status t) "Pending") tasks_df)
       else 0%Z;
     Summary.completed_tasks :=
       if negb (empty tasks_df)
       then len (select (fun t => String.eqb (Task.status t) "Completed") tasks_df)
       else 0%Z;
     Summary.categories_used :=
       if negb (empty expenses_df) then nunique Expense.category expenses_df
       else 0%Z |}.

End Storage.

(** Definitions the statements about the files use. *)
Module StoreSpec.

(** [p] is listed before [q] when its key is not smaller. *)
Definition newest_first {A : Type} (key : A -> string) (p q : Z * A) : Prop :=
  String.leb (key (snd q)) (key (snd p)) = true.

(** The rows of a file that carry a user id, in the order of the file. *)
Definition own_expenses (user_id : Z) (file : DataUtils.expenses_file)
  : list Expense.row :=
  List.filter (fun r => Z.eqb (Expense.user_id r) user_id) (Spec.data_rows file).

Definition own_tasks (user_id : Z) (file : DataUtils.backlog_file)
  : list Task.row :=
  List.filter (fun r => Z.eqb (Task.user_id r) user_id) (Spec.data_rows file).

(** The sum of a list of amounts. *)
Definition total (amounts : list Q) : Q := List.fold_right Qplus 0 amounts.

(** The rows of a query result, without their labels. *)
Definition rows_of {A : Type} (df : Pandas.DataFrame A) : list A := snd <$> df.

End StoreSpec.

(** ** utils/calculations.py, continued *)

Module Retirement.
Record t : Type := {
  years_to_retirement : Z;
  final_amount : Q;
  total_invested : Q;
  total_returns : Q;
  monthly_withdrawal : Q
}.
End Retirement.

Module Mortgage.
Record t : Type := {
  home_price : Q;
  down_payment : Q;
  down_payment_percentage : Q;
  loan_amount : Q;
  monthly_payment : Q;
  total_payment : Q;
  total_interest : Q;
  loan_term_years : Z
}.
End Mortgage.

(** The dictionary [calculate_savings_goal] returns; the key
    ['time_period_years'] is missing when the goal is already achieved. *)
Module SavingsGoal.
Record t : Type := {
  target_amount : Q;
  current_savings : Q;
  remaining_amount : Q;
  monthly_savings_required : Q;
  time_period_years : option Z;
  goal_achieved : bool
}.
End SavingsGoal.

Module Planning.
Import Py Calculations.

(** What the functions below raise: an exception of the arithmetic or of
    the function they call, a [ValueError] of their own with its
    message, or the [ValueError] their handler builds from one of
    these. *)
Inductive failure : Type :=
| Raised (e : exn)
| Invalid (message : string)
| Rewrapped (context : string) (cause : failure).

Inductive result (A : Type) : Type :=
| Fine (a : A)
| Failed (f : failure).
Arguments Fine {A} a.
Arguments Failed {A} f.

(** [try: body  except Exception as e: raise ValueError(context + str(e))] *)
Definition handler {A : Type} (context : string) (body : result A) : result A :=
  match body with
  | Fine a => Fine a
  | Failed f => Failed (Rewrapped context f)
  end.

(** The value or the exception of a computation of the first part. *)
Definition call {A B : Type} (m : outcome A) (k : A -> result B) : result B :=
  match m with
  | Returns a => k a
  | Raises e => Failed (Raised e)
  end.

(** [calculate_retirement_savings(current_age, retirement_age,
    current_savings, monthly_contribution, annual_return)] *)
Definition calculate_retirement_savings (current_age retirement_age : Z)
    (current_savings monthly_contribution annual_return : Q)
  : result Retirement.t :=
  handler "Error calculating retirement savings: " (
    let years_to_retirement := (retirement_age - current_age)%Z in
    if (years_to_retirement <=? 0)%Z
    then Failed (Invalid "Retirement age must be greater than current age")
    else
      call (calculate_compound_interest current_savings monthly_contribution
              annual_return years_to_retirement)
        (fun '(final_amount, total_invested, total_returns) =>
           let monthly_withdrawal := (final_amount * 0.04) / 12 in
           Fine {| Retirement.years_to_retirement := years_to_retirement;
                   Retirement.final_amount := final_amount;
                   Retirement.total_invested := total_invested;
                   Retirement.total_returns := total_returns;
                   Retirement.monthly_withdrawal := round monthly_withdrawal 2 |})).

(** [calculate_mortgage_payment(home_price, down_payment, annual_rate,
    loan_term_years)] *)
Definition calculate_mortgage_payment (home_price down_payment annual_rate : Q)
    (loan_term_years : Z) : result Mortgage.t :=
  handler "Error calculating mortgage payment: " (
    let loan_amount := home_price - down_payment in
    if Qle_bool loan_amount 0
    then Failed (Invalid "Down payment cannot be greater than or equal to home price")
    else
      call (calculate_emi loan_amount annual_rate loan_term_years)
        (fun '(monthly_payment, total_payment, total_interest) =>
           call (div down_payment home_price)
             (fun ratio =>
                let down_payment_percentage := ratio * 100 in
                Fine {| Mortgage.home_price := round home_price 2;
                        Mortgage.down_payment := round down_payment 2;
                        Mortgage.down_payment_percentage :=
                          round down_payment_percentage 1;
                        Mortgage.loan_amount := round loan_amount 2;
                        Mortgage.monthly_payment := monthly_payment;
                        Mortgage.total_payment := total_payment;
                        Mortgage.total_interest := total_interest;
                        Mortgage.loan_term_years := loan_term_years |}))).

(** [calculate_savings_goal(target_amount, current_savings, annual_return,
    time_period_years)] *)
Definition calculate_savings_goal (target_amount current_savings annual_return : Q)
    (time_period_years : Z) : result SavingsGoal.t :=
  handler "Error calculating savings goal: " (
    let remaining_amount := target_amount - current_savings in
    if Qle_bool remaining_amount 0
    then Fine {| SavingsGoal.target_amount := round target_amount 2;
                 SavingsGoal.current_savings := round current_savings 2;
                 SavingsGoal.remaining_amount := 0;
                 SavingsGoal.monthly_savings_required := 0;
                 SavingsGoal.time_period_years := None;
                 SavingsGoal.goal_achieved := true |}
    else
      let monthly_rate := annual_return / (12 * 100) in
      let total_months := (time_period_years * 12)%Z in
      call (pow (1 + monthly_rate) total_months)
        (fun growth =>
           let future_value_current := current_savings * growth in
           let amount_needed := target_amount - future_value_current in
           call (if Qle_bool amount_needed 0 then Returns 0
                 else if Qeq_bool monthly_rate 0
                      then div amount_needed (inject_Z total_months)
                      else
                        let* growth' := pow (1 + monthly_rate) total_months in
                        div (amount_needed * monthly_rate) (growth' - 1))
             (fun monthly_savings_required =>
                Fine {| SavingsGoal.target_amount := round target_amount 2;
                        SavingsGoal.current_savings := round current_savings 2;
                        SavingsGoal.remaining_amount := round remaining_amount 2;
                        SavingsGoal.monthly_savings_required :=
                          round monthly_savings_required 2;
                        SavingsGoal.time_period_years := Some time_period_years;
                        SavingsGoal.goal_achieved := false |}))).

End Planning.

(** ** utils/api_utils.py: conversion *)

Module ApiUtils.
Import Py.

(** [convert_amount(amount, from_currency, to_currency)].  The argument
    [get_cached_exchange_rates] gives what the cached look-up returns at
    the call: the mapping from currency code to rate, or [None].  The
    test [if rates and to_currency in rates] holds when the mapping has
    the key, a mapping with a key not being empty. *)
Definition convert_amount
    (get_cached_exchange_rates : string -> option (gmap string Q))
    (amount : Q) (from_currency to_currency : string) : option Q * option Q :=
  if String.eqb from_currency to_currency then (Some amount, Some 1)
  else
    match get_cached_exchange_rates from_currency with
    | Some rates =>
        match rates !! to_currency with
        | Some exchange_rate =>
            let converted_amount := amount * exchange_rate in
            (Some (round converted_amount 2), Some exchange_rate)
        | None => (None, None)
        end
    | None => (None, None)
    end.

End ApiUtils.

(** ** modules/calculators.py: the amortization schedule *)

(** A dictionary of [schedule_data]. *)
Module ScheduleRow.
Record t : Type := {
  Month : Z;
  Principal : Q;
  Interest : Q;
  Balance : Q
}.
End ScheduleRow.

Module Calculators.
Import Py.




End Calculators.

(** ** Python's [re], for the patterns of modules/auth.py *)

Module Re.

Inductive pattern : Type :=
| Nothing
| Epsilon
| Class (member : ascii -> bool)
| Cat (p q : pattern)
| Alt (p q : pattern)
| Star (p : pattern).

(** [p+] and [p{2,}] *)
Definition Plus (p : pattern) : pattern := Cat p (Star p).
Definition AtLeast2 (p : pattern) : pattern := Cat p (Cat p (Star p)).

(** [$], without the MULTILINE flag: the end of the string, or the
    newline that ends the string. *)
Definition Dollar : pattern := Alt Epsilon (Class (Ascii.eqb "010")).

Fixpoint nullable (p : pattern) : bool :=
  match p with
  | Nothing => false
  | Epsilon => true
  | Class _ => false
  | Cat p q => nullable p && nullable q
  | Alt p q => nullable p || nullable q
  | Star _ => true
  end.

(** What is left of a pattern after the character [c]. *)
Fixpoint derivative (c : ascii) (p : pattern) : pattern :=
  match p with
  | Nothing => Nothing
  | Epsilon => Nothing
  | Class member => if member c then Epsilon else Nothing
  | Cat p q =>
      if nullable p then Alt (Cat (derivative c p) q) (derivative c q)
      else Cat (derivative c p) q
  | Alt p q => Alt (derivative c p) (derivative c q)
  | Star p => Cat (derivative c p) (Star p)
  end.

(** [re.match(p, s) is not None] for a pattern written between [^] and
    [$], the [$] being part of [p]: the pattern matches the whole of
    [s]. *)
Fixpoint matches (p : pattern) (s : string) : bool :=
  match s with
  | EmptyString => nullable p
  | String c s' => matches (derivative c p) s'
  end.

(** [re.search(p, s) is not None] for a pattern that is one character
    class. *)
Fixpoint search (member : ascii -> bool) (s : string) : bool :=
  match s with
  | EmptyString => false
  | String c s' => member c || search member s'
  end.

(** The strings a pattern stands for. *)
Inductive denotes : pattern -> string -> Prop :=
| denotes_epsilon : denotes Epsilon EmptyString
| denotes_class member c : member c = true -> denotes (Class member) (String c EmptyString)
| denotes_cat p q s t : denotes p s -> denotes q t -> denotes (Cat p q) (s ++ t)
| denotes_alt_l p q s : denotes p s -> denotes (Alt p q) s
| denotes_alt_r p q s : denotes q s -> denotes (Alt p q) s
| denotes_star_nil p : denotes (Star p) EmptyString
| denotes_star_cons p s t : denotes p s -> denotes (Star p) t -> denotes (Star p) (s ++ t).

(** A character between two characters, as in [a-z]. *)
Definition in_range (first last c : ascii) : bool :=
  (nat_of_ascii first <=? nat_of_ascii c)%nat && (nat_of_ascii c <=? nat_of_ascii last)%nat.

(** [a-zA-Z], and [\d] on ASCII text *)
Definition letter (c : ascii) : bool := in_range "a" "z" c || in_range "A" "Z" c.
Definition digit (c : ascii) : bool := in_range "0" "9" c.

(** Every character of a string is in a class. *)
Fixpoint all (member : ascii -> bool) (s : string) : bool :=
  match s with
  | EmptyString => true
  | String c s' => member c && all member s'
  end.

End Re.

(** ** modules/auth.py *)

Module AuthPage.
Import Py Re AuthUtils.

(** [[a-zA-Z0-9_-]], [[a-zA-Z0-9._%+-]] and [[a-zA-Z0-9.-]] *)
Definition username_char (c : ascii) : bool :=
  letter c || digit c || Ascii.eqb c "_" || Ascii.eqb c "-".
Definition local_char (c : ascii) : bool :=
  letter c || digit c || Ascii.eqb c "." || Ascii.eqb c "_" || Ascii.eqb c "%"
  || Ascii.eqb c "+" || Ascii.eqb c "-".
Definition domain_char (c : ascii) : bool :=
  letter c || digit c || Ascii.eqb c "." || Ascii.eqb c "-".

(** ["^[a-zA-Z0-9_-]+$"] *)
Definition username_pattern : pattern :=
  Cat (Plus (Class username_char)) Dollar.

(** [r'^[a-zA-Z0-9._%+-]+@[a-zA-Z0-9.-]+\.[a-zA-Z]{2,}$'] *)
Definition email_pattern : pattern :=
  Cat (Plus (Class local_char))
    (Cat (Class (Ascii.eqb "@"))
       (Cat (Plus (Class domain_char))
          (Cat (Class (Ascii.eqb "."))
             (Cat (AtLeast2 (Class letter)) Dollar)))).

(** [not s] for a string *)
Definition blank (s : string) : bool :=
  match s with EmptyString => true | _ => false end.

(** [validate_registration_data(username, email, password,
    confirm_password, terms_accepted)], on the strings and the boolean
    the form widgets return. *)
Definition validate_registration_data
    (username email password confirm_password : string) (terms_accepted : bool)
  : list string :=
  let errors := [] in
  let safe_username := if negb (blank username) then strip username else EmptyString in
  let safe_email := if negb (blank email) then strip email else EmptyString in
  let errors :=
    if blank safe_username then errors ++ ["Username is required"%string]
    else if (String.length safe_username <? 3)%nat
    then errors ++ ["Username must be at least 3 characters long"%string]
    else if (50 <? String.length safe_username)%nat
    then errors ++ ["Username must be less than 50 characters"%string]
    else if negb (matches username_pattern safe_username)
    then errors
         ++ ["Username can only contain letters, numbers, hyphens, and underscores"%string]
    else errors in
  let errors :=
    if blank safe_email then errors ++ ["Email is required"%string]
    else if negb (matches email_pattern safe_email)
    then errors ++ ["Please enter a valid email address"%string]
    else errors in
  let errors :=
    if blank password then errors ++ ["Password is required"%string]
    else if (String.length password <? 8)%nat
    then errors ++ ["Password must be at least 8 characters long"%string]
    else if negb (search letter password)
    then errors ++ ["Password must contain at least one letter"%string]
    else if negb (search digit password)
    then errors ++ ["Password must contain at least one number"%string]
    else errors in
  let errors :=
    if negb (String.eqb password confirm_password)
    then errors ++ ["Passwords do not match"%string]
    else errors in
  let errors :=
    if negb terms_accepted
    then errors ++ ["You must accept the Terms of Service and Privacy Policy"%string]
    else errors in
  errors.

(** What a submitted registration form does: it shows the validation
    errors, or calls [register_user]. *)
Inductive submission : Type :=
| Invalid (validation_errors : list string)
| Submitted (outcome : registration).

Section WithEnvironment.

Variable hash_password : string -> string.
Variable now : string.

(** The [if submitted:] branch of [show_register_form]. *)
Definition show_register_form
    (username email password confirm_password full_name : string)
    (terms_accepted : bool) (file : users_file) : submission :=
  let validation_errors :=
    validate_registration_data username email password confirm_password
      terms_accepted in
  match validation_errors with
  | _ :: _ => Invalid validation_errors
  | [] =>
      let safe_username := strip username in
      let safe_email := lower (strip email) in
      let safe_full_name := strip full_name in
      let user_data :=
        {| UserData.username := safe_username;
           UserData.email := safe_email;
           UserData.password := password;
           UserData.full_name :=
             Some (if negb (blank safe_full_name) then Some safe_full_name else None) |} in
      Submitted (register_user hash_password now user_data file)
  end.

(** The [if submitted:] branch of [show_login_form]: the user the
    session is opened for, if any, and the users file. *)
Definition show_login_form (username password : string) (file : users_file)
  : option Session.t * users_file :=
  if blank (strip username) || blank password then (None, file)
  else authenticate_user hash_password now (strip username) password file.

End WithEnvironment.

End AuthPage.


(** What the checks of the registration form ask of its fields. *)
Module FormSpec.
Import Re AuthPage.

(** The string has a character of the class. *)
Definition contains (member : ascii -> bool) (s : string) : Prop :=
  exists (s1 : string) (c : ascii) (s2 : string),
    s = (s1 ++ String c s2)%string /\ member c = true.

Definition valid_username (s : string) : Prop :=
  (3 <= String.length s <= 50)%nat /\ all username_char s = true.

(** local@domain.tld *)
Definition valid_email (s : string) : Prop :=
  exists local domain tld : string,
    s = (local ++ "@" ++ domain ++ "." ++ tld)%string
    /\ local <> EmptyString /\ all local_char local = true
    /\ domain <> EmptyString /\ all domain_char domain = true
    /\ (2 <= String.length tld)%nat /\ all letter tld = true.

Definition valid_password (s : string) : Prop :=
  (8 <= String.length s)%nat /\ contains letter s /\ contains digit s.

(** The user names and the emails of a users file, in lower case. *)
Definition lower_usernames (file : AuthUtils.users_file) : list string :=
  (fun u => Py.lower (User.username u)) <$> Spec.data_rows file.

Definition lower_emails (file : AuthUtils.users_file) : list string :=
  (fun u => Py.lower (User.email u)) <$> Spec.data_rows file.

End FormSpec.


(** ** Where the embedding and the running code agree

    The embedding computes with exact rationals and keeps the cells of a
    file as typed values.  The code computes with binary64 numbers and
    reads its files back through [pd.read_csv].  The statements that
    follow a value through a division by [(1 + m)^n - 1], through a
    power, or through a file and back are made for the arguments
    described here, on which both take the same path. *)

Module Binary64.

(** An amount of money the code is given: at most 10^12 in absolute
    value, well inside the range where binary64 resolves a cent. *)
Definition amount (x : Q) : Prop := Qabs x <= 1000000000000.

(** A rate in percent per year that is 0 or between 10^-6 and 1200.
    For the monthly rate [m = rate / 1200] this gives [m = 0] or
    [8e-10 < m <= 1]: in binary64 [1 + m] is then 1 only when [m] is 0,
    so that [(1 + m)^n - 1] is 0 only when [n] is 0. *)
Definition rate (annual_rate : Q) : Prop :=
  annual_rate == 0 \/ (1 # 1000000) <= annual_rate <= 1200.

(** A number of years between -80 and 80: with [m <= 1] the power
    [(1 + m)^(12 * years)] is at most 2^960, inside the binary64 range,
    where [**] does not raise OverflowError. *)
Definition years (n : Z) : Prop := (-80 <= n <= 80)%Z.

End Binary64.

Module Csv.
Import Py Re.

(** The cells [pd.read_csv] does not read as text: the tokens it reads
    as a missing value, as an infinity or as a boolean, in lower case. *)
Definition tokens : list string :=
  [ "nan"; "-nan"; "null"; "none"; "na"; "n/a"; "<na>"; "#na"; "#n/a"; "#n/a n/a";
    "1.#ind"; "-1.#ind"; "1.#qnan"; "-1.#qnan";
    "inf"; "-inf"; "+inf"; "infinity"; "-infinity"; "+infinity";
    "true"; "false" ]%string.

(** The characters of a decimal number, with the blanks around it. *)
Definition number_char (c : ascii) : bool :=
  digit c || Ascii.eqb c "+" || Ascii.eqb c "-" || Ascii.eqb c "."
  || Ascii.eqb c "e" || Ascii.eqb c "E" || Ascii.eqb c " ".

Definition printable (c : ascii) : bool := in_range " " "~" c.

(** A cell that [pd.read_csv] reads back as the text [to_csv] wrote,
    whatever else its column holds: printable text with a character no
    number has, that is none of the tokens.  (Sufficient, not necessary:
    a column with such a cell is a column of text, and in a column of
    text only the tokens for a missing value are not read as written.) *)
Definition text (s : string) : bool :=
  all printable s
  && negb (all number_char s)
  && negb (List.existsb (String.eqb (lower (strip s))) tokens).

End Csv.

(** ** The directory ['data/'] *)

Module Disk.
Import Storage.

(** The directory ['data/'] with its three files, or no such directory. *)
Inductive t : Type :=
| NoDirectory
| Directory (data : files).

(** The files a path test [os.path.exists('data/...')] finds. *)
Definition files_of (disk : t) : files :=
  match disk with
  | NoDirectory => {| users_csv := None; expenses_csv := None; backlog_csv := None |}
  | Directory data => data
  end.

(** [initialize_data_files()]: [os.makedirs('data')] when the directory
    is missing, then each file that is missing is written without rows. *)
Definition initialize_data_files (disk : t) : t :=
  let data := files_of disk in
  Directory {| users_csv := create_if_missing (users_csv data);
               expenses_csv := create_if_missing (expenses_csv data);
               backlog_csv := create_if_missing (backlog_csv data) |}.

(** [save_expense(expense_data)] on the disk: the value returned and the
    disk.  Without the directory [to_csv] raises inside the handler,
    which returns False. *)
Definition save_expense (expense_data : Expense.row) (disk : t) : bool * t :=
  match disk with
  | NoDirectory => (false, NoDirectory)
  | Directory data =>
      let '(saved, file) := DataUtils.save_expense expense_data (expenses_csv data) in
      (saved, Directory {| users_csv := users_csv data; expenses_csv := file;
                           backlog_csv := backlog_csv data |})
  end.

(** [save_backlog_item(task_data)] on the disk. *)
Definition save_backlog_item (task_data : Task.row) (disk : t) : bool * t :=
  match disk with
  | NoDirectory => (false, NoDirectory)
  | Directory data =>
      let '(saved, file) := DataUtils.save_backlog_item task_data (backlog_csv data) in
      (saved, Directory {| users_csv := users_csv data;
                           expenses_csv := expenses_csv data; backlog_csv := file |})
  end.

(** [register_user(user_data)] on the disk: the value returned and the
    disk.  Without the directory there is no users file, so no duplicate
    is found, and [to_csv] raises inside the handler. *)
Definition register_user (hash_password : string -> string) (now : string)
    (user_data : UserData.t) (disk : t) : bool * t :=
  match disk with
  | NoDirectory => (false, NoDirectory)
  | Directory data =>
      let outcome := AuthUtils.register_user hash_password now user_data (users_csv data) in
      (AuthUtils.registered outcome,
       Directory {| users_csv := AuthUtils.users_after outcome;
                    expenses_csv := expenses_csv data;
                    backlog_csv := backlog_csv data |})
  end.

End Disk.


(** ** Rounding *)

Section Rounding.
Import Py.

Lemma round_half_even_comp (x y : Q) :
  x == y -> round_half_even x = round_half_even y.
Proof.
  intros E. unfold round_half_even.
  rewrite (Qfloor_comp _ _ E).
  assert (E' : x - inject_Z (Qfloor y) == y - inject_Z (Qfloor y))
    by (rewrite E; reflexivity).
  rewrite (Qcompare_comp _ _ E' _ _ (Qeq_refl (1 # 2))). reflexivity.
Qed.

Lemma round_half_even_bounds (x : Q) :
  (Qfloor x <= round_half_even x <= Qfloor x + 1)%Z.
Proof.
  unfold round_half_even.
  destruct (Qcompare _ _); [destruct (Z.even _) | |]; lia.
Qed.

Lemma round_half_even_mono (x y : Q) :
  x <= y -> (round_half_even x <= round_half_even y)%Z.
Proof.
  intros L.
  pose proof (Qfloor_resp_le _ _ L) as F.
  destruct (Z.eq_dec (Qfloor x) (Qfloor y)) as [E | N].
  - unfold round_half_even. rewrite E.
    assert (D : x - inject_Z (Qfloor y) <= y - inject_Z (Qfloor y)) by lra.
    destruct (Qcompare_spec (x - inject_Z (Qfloor y)) (1 # 2));
      destruct (Qcompare_spec (y - inject_Z (Qfloor y)) (1 # 2));
      try lia; try lra; destruct (Z.even (Qfloor y)); lia.
  - pose proof (round_half_even_bounds x). pose proof (round_half_even_bounds y).
    lia.
Qed.

Lemma round_2 (x : Q) :
  round x 2 = inject_Z (round_half_even (x * (100 # 1))) / (100 # 1).
Proof. reflexivity. Qed.

Lemma round_comp (x y : Q) : x == y -> round x 2 = round y 2.
Proof.
  intros E. rewrite !round_2.
  rewrite (round_half_even_comp (x * (100 # 1)) (y * (100 # 1))); [reflexivity |].
  rewrite E. reflexivity.
Qed.

Lemma round_mono (x y : Q) : x <= y -> round x 2 <= round y 2.
Proof.
  intros L. rewrite !round_2.
  assert (M : (round_half_even (x * (100 # 1)) <= round_half_even (y * (100 # 1)))%Z)
    by (apply round_half_even_mono; lra).
  apply Qmult_le_compat_r; [| discriminate].
  rewrite <- Zle_Qle. exact M.
Qed.

End Rounding.

(** ** The bracket loop *)

Section BracketLoop.
Import Py Calculations Spec.

Lemma min_Qmin (a b : Q) : min a b == Qmin a b.
Proof.
  unfold min. destruct (Qcompare_spec b a) as [E | L | G].
  - rewrite Q.min_l; [reflexivity | rewrite E; apply Qle_refl].
  - rewrite Q.min_r; [reflexivity | apply Qlt_le_weak; exact L].
  - rewrite Q.min_l; [reflexivity | apply Qlt_le_weak; exact G].
Qed.


Lemma max_0_nonneg (x : Q) : 0 <= max 0 x.
Proof.
  unfold max. destruct (Qcompare_spec x 0); lra.
Qed.

Lemma allocate_comp (schedule : list (limit * Q)) :
  forall previous previous' remaining remaining',
    previous == previous' -> remaining == remaining' ->
    allocate schedule previous remaining == allocate schedule previous' remaining'.
Proof.
  induction schedule as [| [[u |] rate] rest IH]; intros p p' r r' Ep Er; simpl.
  - reflexivity.
  - rewrite (IH u u (r - Qmin r (u - p)) (r' - Qmin r' (u - p'))).
    + rewrite Ep, Er. reflexivity.
    + reflexivity.
    + rewrite Ep, Er. reflexivity.
  - rewrite (IH p p' (r - r) (r' - r')); [| exact Ep | lra].
    rewrite Er. reflexivity.
Qed.

Lemma allocate_exhausted (schedule : list (limit * Q)) :
  forall previous remaining,
    remaining == 0 -> ascending previous schedule ->
    allocate schedule previous remaining == 0.
Proof.
  induction schedule as [| [[u |] rate] rest IH]; intros p r E A; simpl.
  - reflexivity.
  - destruct A as [L A].
    assert (M : Qmin r (u - p) == 0).
    { rewrite Q.min_l; [exact E | lra]. }
    rewrite (IH u (r - Qmin r (u - p))); [rewrite M; lra | lra | exact A].
  - rewrite (IH p (r - r)); [rewrite E; lra | lra | exact A].
Qed.

Lemma tax_loop_allocate (schedule : list (limit * Q)) :
  forall tax remaining previous,
    0 <= remaining -> ascending previous schedule ->
    tax_loop schedule tax remaining previous
    == tax + allocate schedule previous remaining.
Proof.
  induction schedule as [| [[u |] rate] rest IH]; intros t r p R A.
  - simpl. lra.
  - destruct A as [L A]. cbn [tax_loop].
    destruct (Qle_bool r 0) eqn:B.
    + apply Qle_bool_iff in B.
      rewrite (allocate_exhausted ((Fin u, rate) :: rest) p r);
        [lra | lra | split; assumption].
    + cbn [allocate].
      assert (M := min_Qmin r (u - p)).
      assert (Rm : 0 <= r - min r (u - p)).
      { rewrite M. pose proof (Q.le_min_l r (u - p)). lra. }
      rewrite <- (allocate_comp rest u u (r - min r (u - p)) (r - Qmin r (u - p)));
        [| reflexivity | rewrite M; reflexivity].
      rewrite <- M.
      destruct (Qle_bool (r - min r (u - p)) 0) eqn:B'.
      * apply Qle_bool_iff in B'.
        rewrite (allocate_exhausted rest u (r - min r (u - p))); [lra | lra | exact A].
      * rewrite (IH _ _ _ Rm A). lra.
  - cbn [tax_loop allocate]. cbn [ascending] in A.
    destruct (Qle_bool r 0) eqn:B.
    + apply Qle_bool_iff in B.
      rewrite (allocate_exhausted rest p (r - r)); [| lra | exact A].
      assert (r == 0) as -> by lra. lra.
    + rewrite (allocate_exhausted rest p (r - r)); [lra | lra | exact A].
Qed.

End BracketLoop.

(** ** Progressive tax *)

Section ProgressiveTax.
Import Py Calculations Spec.

Lemma tax_brackets_ascending : ascending 0 tax_brackets.
Proof. cbn. repeat split; lra. Qed.

Lemma double_brackets_ascending : ascending 0 (double_brackets tax_brackets).
Proof. cbn. repeat split; lra. Qed.



Ltac split_min :=
  match goal with
  | |- context [Qmin ?a ?b] =>
      lazymatch a with
      | context [Qmin _ _] => fail
      | _ =>
          let m := fresh "m" in
          let E := fresh "E" in
          destruct (Q.min_spec a b) as [[? E] | [? E]];
          remember (Qmin a b) as m;
          try lra
      end
  end.

Lemma allocate_double_le (taxable : Q) :
  0 <= taxable ->
  allocate (double_brackets tax_brackets) 0 taxable
  <= allocate tax_brackets 0 taxable.
Proof.
  intros H. cbn [allocate double_brackets tax_brackets List.map].
  repeat split_min.
Qed.


(** C8.  For every income, standard deduction and other deductions, the
    federal tax returned for "Married Filing Jointly" is at most the
    federal tax returned for "Single". *)
Theorem married_filing_jointly_le_single (income sd od : Q) :
  exists single joint,
    calculate_tax income "Single" sd od = Returns single
    /\ calculate_tax income "Married Filing Jointly" sd od = Returns joint
    /\ federal_tax joint <= federal_tax single.
Proof.
  do 2 eexists. split; [reflexivity |]. split; [reflexivity |].
  cbn [federal_tax]. apply round_mono.
  change (brackets_for "Married Filing Jointly") with (double_brackets tax_brackets).
  change (brackets_for "Single") with tax_brackets.
  pose proof (max_0_nonneg (income - (sd + od))) as N.
  rewrite (tax_loop_allocate _ _ _ _ N double_brackets_ascending).
  rewrite (tax_loop_allocate _ _ _ _ N tax_brackets_ascending).
  rewrite !Qplus_0_l. apply allocate_double_le, N.
Qed.

End ProgressiveTax.

(** ** Compound growth *)

Section CompoundGrowth.
Import Py Calculations Spec.

Lemma compound_loop_amount (months : nat) (m c : Q) :
  forall amount invested,
    fst (compound_loop months m c (amount, invested)) = simulate months m c amount.
Proof.
  unfold simulate.
  induction months as [| k IH]; intros a i.
  - reflexivity.
  - cbn [compound_loop compound_step]. rewrite IH, Nat.iter_succ_r. reflexivity.
Qed.

Lemma compound_loop_invested (months : nat) (m c : Q) :
  forall amount invested,
    snd (compound_loop months m c (amount, invested))
    == invested + inject_Z (Z.of_nat months) * c.
Proof.
  induction months as [| k IH]; intros a i.
  - cbn [compound_loop snd Z.of_nat]. change (inject_Z 0) with 0. ring.
  - cbn [compound_loop compound_step]. rewrite IH.
    rewrite Nat2Z.inj_succ, <- Z.add_1_r, inject_Z_plus.
    change (inject_Z 1) with 1. ring.
Qed.

(** C7.  [calculate_compound_interest] returns the result of the
    month-by-month simulation over 12 * years months, each month growing
    the balance by the factor 1 + annual return / 1200 before adding the
    contribution; the amount invested is principal + 12 * years *
    contribution and the returns are the final amount less the amount
    invested, each value rounded to two decimals.  For principal 0,
    contribution 100, annual return 0 and one year the final amount is
    1200. *)
Theorem compound_interest_is_monthly_simulation :
  (forall (principal contribution annual_return : Q) (years : Z),
      (0 <= years)%Z ->
      let final :=
        simulate (Z.to_nat (12 * years)) (annual_return / 1200) contribution principal in
      let invested := principal + 12 * inject_Z years * contribution in
      calculate_compound_interest principal contribution annual_return years
      = Returns (round final 2, round invested 2, round (final - invested) 2))
  /\ (exists final invested returns,
        calculate_compound_interest 0 100 0 1 = Returns (final, invested, returns)
        /\ final == 1200).
Proof.
  split.
  - intros P C r y Hy final invested.
    unfold calculate_compound_interest, try_except, range_len.
    pose proof (compound_loop_amount (Z.to_nat (y * 12)) (r / (12 * 100)) C P P) as Ha.
    pose proof (compound_loop_invested (Z.to_nat (y * 12)) (r / (12 * 100)) C P P) as Hi.
    destruct (compound_loop _ _ _ _) as [a i]. cbn [fst snd] in Ha, Hi.
    rewrite Z2Nat.id in Hi by lia.
    assert (Ei : i == invested).
    { rewrite Hi. unfold invested. rewrite inject_Z_mult.
      change (inject_Z 12) with 12. ring. }
    assert (Ea : a = final).
    { rewrite Ha. unfold final. rewrite (Z.mul_comm y 12). reflexivity. }
    rewrite (round_comp i invested Ei).
    rewrite (round_comp (a - i) (final - invested)) by (rewrite Ea, Ei; reflexivity).
    rewrite Ea. reflexivity.
  - do 3 eexists. split; [vm_compute; reflexivity | reflexivity].
Qed.

Lemma compound_interest_is_monthly_simulation_witness :
  calculate_compound_interest 1000 50 6 2
  = Returns (round (simulate 24 (6 / 1200) 50 1000) 2,
             round (1000 + 12 * inject_Z 2 * 50) 2,
             round (simulate 24 (6 / 1200) 50 1000 - (1000 + 12 * inject_Z 2 * 50)) 2).
Proof.
  apply (proj1 compound_interest_is_monthly_simulation 1000 50 6 2%Z). lia.
Defined.

End CompoundGrowth.

(** ** Domain checks of the calculation engine *)

Section EngineErrors.
Import Py Calculations Spec.

Lemma monthly_rate_zero (annual_rate : Q) :
  0 <= annual_rate ->
  Qeq_bool (annual_rate / (12 * 100)) 0 = false ->
  1 < 1 + annual_rate / (12 * 100).
Proof.
  intros Hr Hz. apply Qeq_bool_neq in Hz.
  assert (E : annual_rate / (12 * 100) == annual_rate * (1 # 1200)) by reflexivity.
  rewrite E in *. lra.
Qed.

Lemma growth_factor_not_1 (x : Q) (n : Z) :
  1 < x -> n <> 0%Z -> ~ x ^ n - 1 == 0.
Proof.
  intros Hx Hn E.
  destruct (Z.lt_trichotomy n 0) as [L | [Z0 | G]]; [| contradiction |].
  - pose proof (Qpower_lt_compat_l x n 0 L Hx) as P.
    change (x ^ 0) with 1 in P. remember (x ^ n) as p. lra.
  - pose proof (Qpower_1_lt x n Hx G) as P. remember (x ^ n) as p. lra.
Qed.

Lemma rate_nonneg (annual_rate : Q) : Binary64.rate annual_rate -> 0 <= annual_rate.
Proof. intros [E | [L _]]; [rewrite E |]; lra. Qed.

(** C4, as the code has it.  [calculate_emi] does not inspect the sign of
    its arguments.  For every principal up to 10^12 in absolute value,
    every annual rate that is 0 or between 10^-6 and 1200 percent and
    every tenure between -80 and 80 years, it raises, with a ValueError
    around the division by zero, when the tenure is 0, and returns three
    numbers for every other tenure; [calculate_compound_interest] and
    [calculate_tax] return for all amounts in that range. *)
Theorem calculate_emi_raises_only_for_zero_tenure :
  (forall (principal annual_rate : Q) (tenure_years : Z),
      Binary64.amount principal -> Binary64.rate annual_rate ->
      Binary64.years tenure_years ->
      (tenure_years = 0%Z ->
       calculate_emi principal annual_rate tenure_years
       = Raises (ValueError "Error calculating EMI: " ZeroDivisionError))
      /\ (tenure_years <> 0%Z ->
          exists emi total_payment total_interest,
            calculate_emi principal annual_rate tenure_years
            = Returns (emi, total_payment, total_interest)))
  /\ (forall (principal contribution annual_return : Q) (years : Z),
        Binary64.amount principal -> Binary64.amount contribution ->
        Binary64.amount annual_return -> Binary64.years years ->
        exists final invested returns,
          calculate_compound_interest principal contribution annual_return years
          = Returns (final, invested, returns))
  /\ (forall (income : Q) (filing_status : string) (sd od : Q),
        Binary64.amount income -> Binary64.amount sd -> Binary64.amount od ->
        exists info, calculate_tax income filing_status sd od = Returns info).
Proof.
  split; [| split].
  - intros principal annual_rate tenure_years _ Hr%rate_nonneg _. split.
    + intros ->. unfold calculate_emi.
      destruct (Qeq_bool (annual_rate / (12 * 100)) 0) eqn:Z0.
      * reflexivity.
      * unfold pow. rewrite andb_false_r. reflexivity.
    + intros Hn. unfold calculate_emi.
      destruct (Qeq_bool (annual_rate / (12 * 100)) 0) eqn:Z0.
      * unfold div.
        destruct (Qeq_bool (inject_Z (tenure_years * 12)) 0) eqn:D.
        -- apply Qeq_bool_eq in D.
           unfold Qeq in D. cbn [inject_Z Qnum Qden] in D. lia.
        -- cbn. do 3 eexists. reflexivity.
      * pose proof (monthly_rate_zero annual_rate Hr Z0) as G.
        unfold pow.
        destruct (Qeq_bool (1 + annual_rate / (12 * 100)) 0) eqn:B.
        -- apply Qeq_bool_eq in B. lra.
        -- cbn [andb bind]. unfold div.
           destruct (Qeq_bool
                       ((1 + annual_rate / (12 * 100)) ^ (tenure_years * 12) - 1) 0)
             eqn:D.
           ++ apply Qeq_bool_eq in D.
              exfalso. revert D. apply growth_factor_not_1; [exact G | lia].
           ++ cbn. do 3 eexists. reflexivity.
  - intros principal c r y _ _ _ _. unfold calculate_compound_interest, try_except.
    destruct (compound_loop _ _ _ _). do 3 eexists. reflexivity.
  - intros income status sd od _ _ _. eexists. reflexivity.
Qed.

Lemma calculate_emi_raises_only_for_zero_tenure_witness :
  calculate_emi 1200 12 0
  = Raises (ValueError "Error calculating EMI: " ZeroDivisionError).
Proof.
  apply (proj1 calculate_emi_raises_only_for_zero_tenure 1200 12 0%Z).
  - vm_compute. discriminate.
  - right. split; vm_compute; discriminate.
  - split; vm_compute; discriminate.
  - reflexivity.
Defined.

(** C4 as stated fails: with a rate of 0, with a negative principal and
    with a negative tenure [calculate_emi] returns numbers.  The three
    calls are in the range of [Binary64]. *)
Lemma calculate_emi_accepts_nonpositive_arguments :
  calculate_emi 1200 0 1 = Returns (100.00, 1200.00, 0.00)
  /\ calculate_emi (-1200) 12 1 = Returns (-106.62, -1279.42, -79.42)
  /\ calculate_emi 1200 12 (-1) = Returns (-94.62, 1135.42, -64.58).
Proof. repeat split; vm_compute; reflexivity. Qed.

End EngineErrors.

(** ** Data frames read from a file *)

Section Frames.
Context {A : Type}.
Implicit Types (rows : list A) (df : Pandas.DataFrame A) (start label : Z).

Lemma to_csv_enumerate rows : forall start,
  Pandas.to_csv (Pandas.enumerate_from start rows) = rows.
Proof.
  unfold Pandas.to_csv.
  induction rows as [| r rows IH]; intros s;
    cbn [Pandas.enumerate_from List.map snd]; [| rewrite IH]; reflexivity.
Qed.

Lemma length_enumerate rows : forall start,
  length (Pandas.enumerate_from start rows) = length rows.
Proof.
  induction rows as [| r rows IH]; intros s;
    cbn [Pandas.enumerate_from length]; [| rewrite IH]; reflexivity.
Qed.

Lemma empty_enumerate rows start :
  Pandas.empty (Pandas.enumerate_from start rows) = true <-> rows = [].
Proof. destruct rows; cbn; split; congruence. Qed.

Lemma in_enumerate rows : forall start label (r : A),
  In (label, r) (Pandas.enumerate_from start rows)
  <-> (start <= label)%Z /\ rows !! Z.to_nat (label - start) = Some r.
Proof.
  induction rows as [| x rows IH]; intros s i r; cbn [Pandas.enumerate_from In].
  - split; [tauto | intros [_ H]; discriminate H].
  - rewrite IH. split.
    + intros [E | [L H]].
      * injection E as <- <-. split; [lia |]. rewrite Z.sub_diag. reflexivity.
      * split; [lia |].
        replace (Z.to_nat (i - s)) with (S (Z.to_nat (i - (s + 1)))) by lia.
        exact H.
    + intros [L H]. destruct (Z.eq_dec s i) as [-> | N].
      * left. rewrite Z.sub_diag in H. change (Some x = Some r) in H. congruence.
      * right. split; [lia |].
        replace (Z.to_nat (i - s)) with (S (Z.to_nat (i - (s + 1)))) in H by lia.
        exact H.
Qed.

Lemma index_contains_enumerate rows : forall start label,
  Pandas.index_contains label (Pandas.enumerate_from start rows)
  = ((start <=? label)%Z && (label <? start + Z.of_nat (length rows))%Z).
Proof.
  unfold Pandas.index_contains.
  induction rows as [| x rows IH]; intros s i; cbn [Pandas.enumerate_from existsb fst].
  - cbn [length]. destruct (Z.leb_spec s i), (Z.ltb_spec i (s + Z.of_nat 0)); trivial; lia.
  - rewrite IH. cbn [length].
    destruct (Z.eqb_spec s i), (Z.leb_spec (s + 1) i), (Z.leb_spec s i),
      (Z.ltb_spec i (s + 1 + Z.of_nat (length rows))),
      (Z.ltb_spec i (s + Z.of_nat (S (length rows)))); trivial; lia.
Qed.

Lemma loc_enumerate rows : forall start label,
  (start <= label)%Z ->
  Pandas.loc label (Pandas.enumerate_from start rows)
  = rows !! Z.to_nat (label - start).
Proof.
  unfold Pandas.loc.
  induction rows as [| x rows IH]; intros s i L; cbn [Pandas.enumerate_from find fst].
  - reflexivity.
  - destruct (Z.eqb_spec s i) as [-> | N].
    + rewrite Z.sub_diag. reflexivity.
    + rewrite IH by lia.
      replace (Z.to_nat (i - s)) with (S (Z.to_nat (i - (s + 1)))) by lia.
      reflexivity.
Qed.

Lemma drop_enumerate_absent rows : forall start label,
  (label < start)%Z ->
  Pandas.drop label (Pandas.enumerate_from start rows)
  = Pandas.enumerate_from start rows.
Proof.
  unfold Pandas.drop.
  induction rows as [| x rows IH]; intros s i L;
    cbn [Pandas.enumerate_from List.filter fst]; [reflexivity |].
  destruct (Z.eqb_spec s i); [lia |]. cbn [negb]. rewrite IH by lia. reflexivity.
Qed.

Lemma drop_enumerate rows : forall start label,
  (start <= label)%Z ->
  Pandas.to_csv (Pandas.drop label (Pandas.enumerate_from start rows))
  = delete (Z.to_nat (label - start)) rows.
Proof.
  induction rows as [| x rows IH]; intros s i L; [reflexivity |].
  unfold Pandas.drop. cbn [Pandas.enumerate_from List.filter fst].
  destruct (Z.eqb_spec s i) as [-> | N]; cbn [negb].
  - rewrite Z.sub_diag. fold (Pandas.drop i (Pandas.enumerate_from (i + 1) rows)).
    rewrite drop_enumerate_absent by lia. apply to_csv_enumerate.
  - fold (Pandas.drop i (Pandas.enumerate_from (s + 1) rows)).
    replace (Z.to_nat (i - s)) with (S (Z.to_nat (i - (s + 1)))) by lia.
    cbn. rewrite <- IH by lia. reflexivity.
Qed.

Lemma loc_set_enumerate_absent (f : A -> A) rows : forall start label,
  (label < start)%Z ->
  Pandas.loc_set label f (Pandas.enumerate_from start rows)
  = Pandas.enumerate_from start rows.
Proof.
  unfold Pandas.loc_set.
  induction rows as [| x rows IH]; intros s i L;
    cbn [Pandas.enumerate_from List.map fst]; [reflexivity |].
  destruct (Z.eqb_spec s i); [lia |]. rewrite IH by lia. reflexivity.
Qed.

Lemma loc_set_enumerate (f : A -> A) rows : forall start label,
  (start <= label)%Z ->
  Pandas.loc_set label f (Pandas.enumerate_from start rows)
  = Pandas.enumerate_from start (alter f (Z.to_nat (label - start)) rows).
Proof.
  induction rows as [| x rows IH]; intros s i L; [reflexivity |].
  unfold Pandas.loc_set. cbn [Pandas.enumerate_from List.map fst snd].
  fold (Pandas.loc_set i f (Pandas.enumerate_from (s + 1) rows)).
  destruct (Z.eqb_spec s i) as [-> | N].
  - rewrite Z.sub_diag, loc_set_enumerate_absent by lia. reflexivity.
  - rewrite IH by lia.
    replace (Z.to_nat (i - s)) with (S (Z.to_nat (i - (s + 1)))) by lia.
    reflexivity.
Qed.

Lemma in_insert_desc (key : A -> string) (x p : Z * A) df :
  In p (Pandas.insert_desc key x df) <-> p = x \/ In p df.
Proof.
  induction df as [| y df IH]; cbn [Pandas.insert_desc].
  - cbn. intuition congruence.
  - destruct (String.leb _ _); cbn [In]; [| rewrite IH]; intuition congruence.
Qed.

Lemma in_sort_values_desc (key : A -> string) (p : Z * A) df :
  In p (Pandas.sort_values_desc key df) <-> In p df.
Proof.
  unfold Pandas.sort_values_desc.
  induction df as [| y df IH]; cbn [fold_right In]; [tauto |].
  rewrite in_insert_desc, IH. intuition congruence.
Qed.

Lemma in_select (mask : A -> bool) (p : Z * A) df :
  In p (Pandas.select mask df) <-> In p df /\ mask (snd p) = true.
Proof. unfold Pandas.select. apply filter_In. Qed.

(** What a query returns: the rows of the file that pass [mask], each
    under its position in the file. *)
Lemma in_query (mask : A -> bool) (key : A -> string) rows label (r : A) :
  In (label, r)
     (let df := Pandas.read_csv rows in
      if Pandas.empty df then []
      else
        let selected := Pandas.select mask df in
        if negb (Pandas.empty selected) then Pandas.sort_values_desc key selected
        else selected)
  <-> (0 <= label)%Z /\ rows !! Z.to_nat label = Some r /\ mask r = true.
Proof.
  cbv zeta. unfold Pandas.read_csv.
  assert (Q : In (label, r) (Pandas.select mask (Pandas.enumerate_from 0 rows))
              <-> (0 <= label)%Z /\ rows !! Z.to_nat label = Some r /\ mask r = true).
  { rewrite in_select, in_enumerate, Z.sub_0_r. cbn [snd]. tauto. }
  destruct (Pandas.empty (Pandas.enumerate_from 0 rows)) eqn:E.
  - apply empty_enumerate in E. subst rows. cbn. split; [tauto |].
    intros (_ & H & _). discriminate H.
  - destruct (negb _); [rewrite in_sort_values_desc |]; exact Q.
Qed.

End Frames.

(** ** The expense and backlog files *)

Section RecordStore.
Import Pandas DataUtils Spec.

Lemma target_Some {A : Type} (file : option (list A)) (index : Z) (r : A) :
  target file index = Some r ->
  (0 <= index)%Z /\ exists rows, file = Some rows /\ rows !! Z.to_nat index = Some r.
Proof.
  unfold target. destruct (Z.leb_spec 0 index); [| discriminate].
  destruct file as [rows |]; cbn [data_rows]; [eauto | discriminate].
Qed.

Lemma target_in_index {A : Type} (rows : list A) (index : Z) (r : A) :
  (0 <= index)%Z -> rows !! Z.to_nat index = Some r ->
  Pandas.empty (read_csv rows) = false
  /\ index_contains index (read_csv rows) = true
  /\ loc index (read_csv rows) = Some r.
Proof.
  intros L H. unfold read_csv.
  pose proof (lookup_lt_Some _ _ _ H) as B.
  split; [| split].
  - destruct rows; [discriminate H | reflexivity].
  - rewrite index_contains_enumerate.
    destruct (Z.leb_spec 0 index), (Z.ltb_spec index (0 + Z.of_nat (length rows)));
      trivial; lia.
  - rewrite loc_enumerate, Z.sub_0_r by lia. exact H.
Qed.

Lemma index_contains_target {A : Type} (rows : list A) (index : Z) :
  index_contains index (read_csv rows) = true ->
  exists r, target (Some rows) index = Some r /\ loc index (read_csv rows) = Some r.
Proof.
  unfold read_csv, target. rewrite index_contains_enumerate.
  intros H. apply andb_true_iff in H as [L U].
  rewrite L. apply Z.leb_le in L. apply Z.ltb_lt in U.
  rewrite loc_enumerate, Z.sub_0_r by lia. cbn [data_rows].
  destruct (rows !! Z.to_nat index) as [r |] eqn:E; [eauto |].
  apply lookup_ge_None in E. lia.
Qed.

Lemma save_expense_appends (expense_data : Expense.row) (file : expenses_file) :
  save_expense expense_data file
  = (true,
     Some (data_rows file
           ++ [Expense.set_expense_id (Z.of_nat (length (data_rows file)) + 1)
                 expense_data])).
Proof.
  unfold save_expense, len, read_csv, from_records, concat_ignore_index.
  destruct file as [rows |]; cbn [data_rows]; [| reflexivity].
  rewrite length_enumerate.
  destruct rows as [| r rows']; [reflexivity |].
  replace (Pandas.empty (enumerate_from 0 (r :: rows'))) with false by reflexivity.
  rewrite !to_csv_enumerate. reflexivity.
Qed.

Lemma save_backlog_item_appends (task_data : Task.row) (file : backlog_file) :
  save_backlog_item task_data file
  = (true,
     Some (data_rows file
           ++ [Task.set_task_id (Z.of_nat (length (data_rows file)) + 1) task_data])).
Proof.
  unfold save_backlog_item, len, read_csv, from_records, concat_ignore_index.
  destruct file as [rows |]; cbn [data_rows]; [| reflexivity].
  rewrite length_enumerate.
  destruct rows as [| r rows']; [reflexivity |].
  replace (Pandas.empty (enumerate_from 0 (r :: rows'))) with false by reflexivity.
  rewrite !to_csv_enumerate. reflexivity.
Qed.

Lemma in_load_expenses_data (user_id : Z) (file : expenses_file) (i : Z)
    (x : Expense.row) :
  In (i, x) (load_expenses_data user_id file)
  <-> target file i = Some x /\ Expense.user_id x = user_id.
Proof.
  unfold load_expenses_data, target.
  destruct file as [rows |]; cbn [data_rows].
  - rewrite (in_query (fun r => Z.eqb (Expense.user_id r) user_id) Expense.date).
    rewrite Z.eqb_eq.
    destruct (Z.leb_spec 0 i) as [L | L]; [tauto |].
    split; [lia | intros [D _]; discriminate D].
  - cbn [In]. destruct (0 <=? i)%Z; split; try tauto; intros [D _]; discriminate D.
Qed.

Lemma in_load_backlog_data (user_id : Z) (file : backlog_file) (i : Z)
    (x : Task.row) :
  In (i, x) (load_backlog_data user_id file)
  <-> target file i = Some x /\ Task.user_id x = user_id.
Proof.
  unfold load_backlog_data, target.
  destruct file as [rows |]; cbn [data_rows].
  - rewrite (in_query (fun r => Z.eqb (Task.user_id r) user_id) Task.created_at).
    rewrite Z.eqb_eq.
    destruct (Z.leb_spec 0 i) as [L | L]; [tauto |].
    split; [lia | intros [D _]; discriminate D].
  - cbn [In]. destruct (0 <=? i)%Z; split; try tauto; intros [D _]; discriminate D.
Qed.

Ltac owner_accepted T Hown :=
  let L := fresh "L" in
  let rows := fresh "rows" in
  let E := fresh "E" in
  let H := fresh "H" in
  apply target_Some in T as (L & rows & -> & H);
  destruct (target_in_index rows _ _ L H) as (-> & -> & ->);
  rewrite Hown, Z.eqb_refl; cbn [data_rows].

Ltac other_refused Hother :=
  let C := fresh "C" in
  let r := fresh "r" in
  let T := fresh "T" in
  let L := fresh "L" in
  let E := fresh "E" in
  match goal with
  | |- context [Pandas.empty ?df] => destruct (Pandas.empty df); [reflexivity |]
  end;
  match goal with
  | |- context [index_contains ?i ?df] =>
      destruct (index_contains i df) eqn:C; [| reflexivity];
      apply index_contains_target in C as (r & T & L); rewrite L
  end;
  match goal with
  | |- context [Z.eqb ?a ?b] =>
      destruct (Z.eqb_spec a b) as [E | E]; [| reflexivity];
      exfalso; apply Hother; rewrite T; cbn; congruence
  end.

Lemma delete_expense_owned (file : expenses_file) (index uid : Z) (r : Expense.row) :
  target file index = Some r -> Expense.user_id r = uid ->
  delete_expense index uid file
  = (true, Some (delete (Z.to_nat index) (data_rows file))).
Proof.
  intros T Hown. unfold delete_expense. owner_accepted T Hown.
  unfold read_csv. rewrite drop_enumerate, Z.sub_0_r by lia. reflexivity.
Qed.

Lemma delete_expense_refused (file : expenses_file) (index uid : Z) :
  Expense.user_id <$> target file index <> Some uid ->
  delete_expense index uid file = (false, file).
Proof.
  intros Hother. unfold delete_expense.
  destruct file as [rows |]; [| reflexivity]. other_refused Hother.
Qed.

Lemma delete_backlog_item_owned (file : backlog_file) (index uid : Z) (r : Task.row) :
  target file index = Some r -> Task.user_id r = uid ->
  delete_backlog_item index uid file
  = (true, Some (delete (Z.to_nat index) (data_rows file))).
Proof.
  intros T Hown. unfold delete_backlog_item. owner_accepted T Hown.
  unfold read_csv. rewrite drop_enumerate, Z.sub_0_r by lia. reflexivity.
Qed.

Lemma delete_backlog_item_refused (file : backlog_file) (index uid : Z) :
  Task.user_id <$> target file index <> Some uid ->
  delete_backlog_item index uid file = (false, file).
Proof.
  intros Hother. unfold delete_backlog_item.
  destruct file as [rows |]; [| reflexivity]. other_refused Hother.
Qed.

Lemma update_backlog_status_owned (file : backlog_file) (index uid : Z)
    (new_status now : string) (r : Task.row) :
  target file index = Some r -> Task.user_id r = uid ->
  update_backlog_status index uid new_status now file
  = (true,
     Some (<[Z.to_nat index := Task.set_updated_at now (Task.set_status new_status r)]>
             (data_rows file))).
Proof.
  intros T Hown. unfold update_backlog_status.
  pose proof T as T'. owner_accepted T Hown.
  unfold read_csv. rewrite !loc_set_enumerate, !Z.sub_0_r by lia.
  rewrite to_csv_enumerate, list_alter_alter_eq.
  apply target_Some in T' as (_ & rows' & [= <-] & Hrow).
  do 2 f_equal. apply list_eq. intros j.
  destruct (decide (Z.to_nat index = j)) as [<- | N].
  - rewrite list_lookup_alter_eq, list_lookup_insert_eq, Hrow;
      [reflexivity | eapply lookup_lt_Some; exact Hrow].
  - rewrite list_lookup_alter_ne, list_lookup_insert_ne by exact N. reflexivity.
Qed.

Lemma update_backlog_status_refused (file : backlog_file) (index uid : Z)
    (new_status now : string) :
  Task.user_id <$> target file index <> Some uid ->
  update_backlog_status index uid new_status now file = (false, file).
Proof.
  intros Hother. unfold update_backlog_status.
  destruct file as [rows |]; [| reflexivity]. other_refused Hother.
Qed.

End RecordStore.

(** ** Properties of the record store *)

Section RecordStoreClaims.
Import Pandas DataUtils Spec.

(** C2.  Starting from an empty expense table, two inserts, the deletion
    of the first row and one more insert leave two rows carrying the same
    expense_id. *)
Theorem expense_ids_can_collide :
  exists (ops : list expense_op) (rows : list Expense.row) (i j : nat)
         (a b : Expense.row),
    run ops (Some []) = Some rows
    /\ i <> j
    /\ rows !! i = Some a /\ rows !! j = Some b
    /\ Expense.expense_id a = Expense.expense_id b.
Proof.
  exists [ Insert (Sample.expense 7 "bread"); Insert (Sample.expense 7 "milk");
           Delete 0 7; Insert (Sample.expense 7 "eggs") ].
  exists [ Sample.stored_expense 2 7 "milk"; Sample.stored_expense 2 7 "eggs" ].
  exists 0%nat, 1%nat.
  exists (Sample.stored_expense 2 7 "milk"), (Sample.stored_expense 2 7 "eggs").
  repeat split; try reflexivity. discriminate.
Qed.

Lemma lookup_delete_other {A : Type} (rows : list A) (p : nat) (x : A) :
  (exists k, delete p rows !! k = Some x)
  <-> (exists j, j <> p /\ rows !! j = Some x).
Proof.
  split.
  - intros [k H]. destruct (decide (k < p)%nat) as [L | G].
    + rewrite list_lookup_delete_lt in H by exact L. exists k. split; [lia | exact H].
    + rewrite list_lookup_delete_ge in H by lia. exists (S k). split; [lia | exact H].
  - intros (j & N & H). destruct (decide (j < p)%nat) as [L | G].
    + exists j. rewrite list_lookup_delete_lt by exact L. exact H.
    + exists (j - 1)%nat. rewrite list_lookup_delete_ge by lia.
      replace (S (j - 1)) with j by lia. exact H.
Qed.

(** C5, as the code has it.  [delete_expense] takes the position of a row
    in the file, which is the label under which the query lists the row,
    not its expense_id.  When the row at that position belongs to the
    caller, the call succeeds and removes that row and no other; the
    query then returns the caller's rows at the other positions, and, if
    the expense_ids of the file were distinct, no row with the
    expense_id of the deleted one. *)
Theorem delete_expense_removes_row_at_index
    (file : expenses_file) (index uid : Z) (r : Expense.row)
    (Htarget : target file index = Some r) (Hown : Expense.user_id r = uid) :
  let file' := Some (delete (Z.to_nat index) (data_rows file)) in
  In (index, r) (load_expenses_data uid file)
  /\ delete_expense index uid file = (true, file')
  /\ (forall x,
        (exists i, In (i, x) (load_expenses_data uid file'))
        <-> (exists j, j <> Z.to_nat index
                       /\ data_rows file !! j = Some x /\ Expense.user_id x = uid))
  /\ (NoDup (Expense.expense_id <$> data_rows file) ->
      forall i x, In (i, x) (load_expenses_data uid file') ->
                  Expense.expense_id x <> Expense.expense_id r).
Proof.
  intros file'.
  assert (Q : forall x,
             (exists i, In (i, x) (load_expenses_data uid file'))
             <-> (exists j, j <> Z.to_nat index
                            /\ data_rows file !! j = Some x /\ Expense.user_id x = uid)).
  { intros x. split.
    - intros [i H]. apply in_load_expenses_data in H as [T U].
      apply target_Some in T as (_ & rows' & [= <-] & H).
      destruct (proj1 (lookup_delete_other _ _ _) (ex_intro _ _ H)) as (j & N & Hj).
      eauto.
    - intros (j & N & Hj & U).
      destruct (proj2 (lookup_delete_other _ (Z.to_nat index) _)
                  (ex_intro _ j (conj N Hj))) as [k Hk].
      exists (Z.of_nat k). apply in_load_expenses_data. split; [| exact U].
      unfold target, file'. cbn [data_rows].
      destruct (Z.leb_spec 0 (Z.of_nat k)); [| lia]. rewrite Nat2Z.id. exact Hk. }
  split; [| split; [| split]].
  - apply in_load_expenses_data. split; assumption.
  - apply delete_expense_owned with (r := r); assumption.
  - exact Q.
  - intros ND i x H E.
    destruct (proj1 (Q x) (ex_intro _ i H)) as (j & N & Hj & _).
    apply target_Some in Htarget as (_ & rows & -> & Hr). cbn [data_rows] in *.
    apply N. apply (NoDup_lookup _ j (Z.to_nat index) (Expense.expense_id x) ND).
    + rewrite list_lookup_fmap, Hj. reflexivity.
    + rewrite list_lookup_fmap, Hr, E. reflexivity.
Qed.

Lemma delete_expense_removes_row_at_index_witness :
  delete_expense 1 7
    (Some [Sample.stored_expense 1 7 "bread"; Sample.stored_expense 2 7 "milk"])
  = (true, Some [Sample.stored_expense 1 7 "bread"]).
Proof.
  apply (delete_expense_removes_row_at_index
           (Some [Sample.stored_expense 1 7 "bread"; Sample.stored_expense 2 7 "milk"])
           1 7 (Sample.stored_expense 2 7 "milk")); reflexivity.
Defined.

(** C5 as stated fails: called with the expense_id of a row of the
    caller, [delete_expense] reports a failure when no row sits at that
    position, and removes the row at that position when there is one,
    so that the query still returns the row with that expense_id. *)
Lemma delete_expense_is_not_by_expense_id :
  let bread := Sample.stored_expense 1 7 "bread" in
  let milk := Sample.stored_expense 2 7 "milk" in
  Expense.expense_id bread = 1%Z /\ Expense.user_id bread = 7%Z
  /\ delete_expense 1 7 (Some [bread]) = (false, Some [bread])
  /\ delete_expense 1 7 (Some [bread; milk]) = (true, Some [bread])
  /\ load_expenses_data 7 (Some [bread]) = [(0%Z, bread)].
Proof. repeat split. Qed.

(** C6.  When the row an index designates belongs to another user, or
    when the index designates no row, [delete_expense],
    [update_backlog_status] and [delete_backlog_item] return false and
    leave the file as it was. *)
Theorem mutation_refused_unless_owner
    (expenses : expenses_file) (backlog : backlog_file) (index uid : Z)
    (new_status now : string)
    (Hexpense : Expense.user_id <$> target expenses index <> Some uid)
    (Htask : Task.user_id <$> target backlog index <> Some uid) :
  delete_expense index uid expenses = (false, expenses)
  /\ update_backlog_status index uid new_status now backlog = (false, backlog)
  /\ delete_backlog_item index uid backlog = (false, backlog).
Proof.
  split; [| split].
  - apply delete_expense_refused, Hexpense.
  - apply update_backlog_status_refused, Htask.
  - apply delete_backlog_item_refused, Htask.
Qed.

Lemma mutation_refused_unless_owner_witness :
  delete_expense 0 8 (Some [Sample.stored_expense 1 7 "bread"])
  = (false, Some [Sample.stored_expense 1 7 "bread"])
  /\ update_backlog_status 0 8 "Completed" "2024-03-05 09:00:00"
       (Some [Sample.task 1 7 "Pending"])
     = (false, Some [Sample.task 1 7 "Pending"])
  /\ delete_backlog_item 0 8 (Some [Sample.task 1 7 "Pending"])
     = (false, Some [Sample.task 1 7 "Pending"]).
Proof.
  apply (mutation_refused_unless_owner
           (Some [Sample.stored_expense 1 7 "bread"])
           (Some [Sample.task 1 7 "Pending"]) 0 8); vm_compute; discriminate.
Defined.

Lemma update_backlog_status_success (file file' : backlog_file) (index uid : Z)
    (new_status now : string) :
  update_backlog_status index uid new_status now file = (true, file') ->
  exists task, target file index = Some task /\ Task.user_id task = uid.
Proof.
  intros Hok.
  destruct (target file index) as [task |] eqn:T.
  - destruct (Z.eq_dec (Task.user_id task) uid) as [E | N]; [eauto |].
    rewrite update_backlog_status_refused in Hok; [discriminate Hok |].
    rewrite T. cbn. congruence.
  - rewrite update_backlog_status_refused in Hok; [discriminate Hok |].
    rewrite T. discriminate.
Qed.

(** C9, as the code has it.  A successful [update_backlog_status] means
    that the index designates a row of the caller; that row then carries
    the new status and, as [updated_at], the time of the call, and none
    of its other fields has changed; every other row of the file is
    unchanged, and the query lists the updated row. *)
Theorem update_backlog_status_changes_status_and_updated_at
    (file file' : backlog_file) (index uid : Z) (new_status now : string)
    (Hok : update_backlog_status index uid new_status now file = (true, file')) :
  exists (task task' : Task.row),
    target file index = Some task /\ Task.user_id task = uid
    /\ file' = Some (<[Z.to_nat index := task']> (data_rows file))
    /\ target file' index = Some task'
    /\ In (index, task') (load_backlog_data uid file')
    /\ (forall j, j <> Z.to_nat index -> data_rows file' !! j = data_rows file !! j)
    /\ length (data_rows file') = length (data_rows file)
    /\ Task.status task' = new_status
    /\ Task.updated_at task' = now
    /\ Task.task_id task' = Task.task_id task
    /\ Task.user_id task' = Task.user_id task
    /\ Task.title task' = Task.title task
    /\ Task.description task' = Task.description task
    /\ Task.category task' = Task.category task
    /\ Task.priority task' = Task.priority task
    /\ Task.due_date task' = Task.due_date task
    /\ Task.estimated_amount task' = Task.estimated_amount task
    /\ Task.notes task' = Task.notes task
    /\ Task.created_at task' = Task.created_at task.
Proof.
  destruct (update_backlog_status_success _ _ _ _ _ _ Hok) as (task & T & U).
  rewrite (update_backlog_status_owned _ _ _ _ _ _ T U) in Hok.
  injection Hok as <-.
  exists task, (Task.set_updated_at now (Task.set_status new_status task)).
  pose proof T as T0.
  apply target_Some in T0 as (L & rows & -> & Hrow). cbn [data_rows] in *.
  pose proof (lookup_lt_Some _ _ _ Hrow) as B.
  assert (T' : target
                 (Some (<[Z.to_nat index :=
                            Task.set_updated_at now (Task.set_status new_status task)]>
                          rows)) index
               = Some (Task.set_updated_at now (Task.set_status new_status task))).
  { unfold target. destruct (Z.leb_spec 0 index); [| lia]. cbn [data_rows].
    apply list_lookup_insert_eq, B. }
  split; [exact T |]. split; [exact U |]. split; [reflexivity |].
  split; [exact T' |].
  split; [apply in_load_backlog_data; split; [exact T' | exact U] |].
  split; [intros j N; apply list_lookup_insert_ne; congruence |].
  split; [apply length_insert |].
  repeat split.
Qed.

Lemma update_backlog_status_changes_status_and_updated_at_witness :
  exists task task',
    target (Some [Sample.task 1 7 "Pending"]) 0 = Some task
    /\ target (Some [Sample.task 1 7 "Completed"]) 0 = Some task'
    /\ Task.status task' = "Completed"%string
    /\ Task.title task' = Task.title task.
Proof.
  destruct (update_backlog_status_changes_status_and_updated_at
              (Some [Sample.task 1 7 "Pending"])
              (Some [Sample.task 1 7 "Completed"])
              0 7 "Completed" "2024-03-01 10:00:00" eq_refl)
    as (task & task' & H).
  exists task, task'. tauto.
Defined.

(** C9 as stated fails: the update of the status also rewrites
    [updated_at]. *)
Lemma update_backlog_status_touches_updated_at :
  let before := Sample.task 1 7 "Pending" in
  let after := Task.set_updated_at "2024-03-05 09:00:00" (Sample.task 1 7 "Completed") in
  update_backlog_status 0 7 "Completed" "2024-03-05 09:00:00" (Some [before])
  = (true, Some [after])
  /\ Task.updated_at before = "2024-03-01 10:00:00"%string
  /\ Task.updated_at after = "2024-03-05 09:00:00"%string
  /\ Task.updated_at after <> Task.updated_at before.
Proof. repeat split. discriminate. Qed.

End RecordStoreClaims.

(** ** The users file *)

Section Users.
Import Pandas AuthUtils Spec.

Variable hash_password : string -> string.

Lemma fold_max_spec {B : Type} (f : B -> Z) (l : list B) : forall a,
  let m := List.fold_left (fun m p => Z.max m (f p)) l a in
  (m = a \/ In m (List.map f l))
  /\ (a <= m)%Z
  /\ (forall x, In x l -> (f x <= m)%Z).
Proof.
  induction l as [| y l IH]; intros a; cbn [List.fold_left List.map In].
  - split; [tauto |]. split; [lia | tauto].
  - destruct (IH (Z.max a (f y))) as ([E | I] & L & U).
    + split; [| split].
      * rewrite E. destruct (Z.max_spec a (f y)) as [[_ ->] | [_ ->]]; tauto.
      * lia.
      * intros x [<- | Hx]; [lia | apply U, Hx].
    + split; [tauto |]. split; [lia |].
      intros x [<- | Hx]; [lia | apply U, Hx].
Qed.

Lemma max_user_id_spec (r : User.row) (rows : list User.row) :
  let m := max_user_id (read_csv (r :: rows)) in
  In m (List.map User.user_id (r :: rows))
  /\ (forall id, In id (List.map User.user_id (r :: rows)) -> (id <= m)%Z).
Proof.
  unfold read_csv, max_user_id. cbn [enumerate_from].
  pose proof (fold_max_spec (fun p : Z * User.row => User.user_id (snd p))
                (enumerate_from (0 + 1) rows) (User.user_id r)) as H.
  cbv zeta in *. destruct H as (M & L & U).
  assert (Ids : List.map (fun p : Z * User.row => User.user_id (snd p))
                  (enumerate_from (0 + 1) rows)
                = List.map User.user_id rows).
  { rewrite <- (to_csv_enumerate rows (0 + 1)) at 2.
    unfold to_csv. rewrite List.map_map. reflexivity. }
  rewrite Ids in M. split.
  - cbn [List.map In]. destruct M as [-> | M]; tauto.
  - intros id Hid. cbn [List.map In] in Hid. destruct Hid as [<- | Hid]; [exact L |].
    apply in_map_iff in Hid as (x & <- & Hx).
    rewrite <- (to_csv_enumerate rows (0 + 1)) in Hx. unfold to_csv in Hx.
    apply in_map_iff in Hx as (p & <- & Hp). apply (U p Hp).
Qed.

Lemma register_user_accepted (now : string) (user_data : UserData.t)
    (file : users_file) :
  registered (register_user hash_password now user_data file) = true ->
  users_after (register_user hash_password now user_data file)
  = Some (data_rows file
          ++ [new_user hash_password now
                (match data_rows file with
                 | [] => 1
                 | _ => max_user_id (read_csv (data_rows file)) + 1
                 end)%Z user_data]).
Proof.
  unfold register_user, new_user.
  assert (E : match file with Some rows => read_csv rows | None => [] end
              = read_csv (data_rows file)) by (destruct file; reflexivity).
  rewrite E. clear E.
  destruct (data_rows file) as [| r rows] eqn:D.
  - cbn [read_csv enumerate_from Pandas.empty negb andb].
    destruct (UserData.full_name user_data) as [[s |] |]; cbn; congruence.
  - replace (Pandas.empty (read_csv (r :: rows))) with false by reflexivity.
    cbn [negb andb].
    destruct (List.existsb _ _); [discriminate |].
    destruct (List.existsb _ _); [discriminate |].
    destruct (UserData.full_name user_data) as [[s |] |];
      cbn [registered users_after]; try discriminate; intros _;
      unfold concat_ignore_index, from_records, read_csv;
      rewrite !to_csv_enumerate; reflexivity.
Qed.

Lemma register_user_username_taken (now : string) (user_data : UserData.t)
    (file : users_file) (u : User.row) :
  In u (data_rows file) ->
  Py.lower (UserData.username user_data) = Py.lower (User.username u) ->
  register_user hash_password now user_data file
  = {| registered := false;
       registration_error := Some "Username already exists"%string;
       users_after := file |}.
Proof.
  intros Hu Hcase. unfold register_user.
  destruct file as [rows |]; cbn [data_rows] in Hu; [| destruct Hu].
  assert (N : Pandas.empty (read_csv rows) = false)
    by (destruct rows; [destruct Hu | reflexivity]).
  rewrite N. cbn [negb andb].
  assert (X : List.existsb (String.eqb (Py.lower (UserData.username user_data)))
                (List.map (fun p : Z * User.row => Py.lower (User.username (snd p)))
                   (read_csv rows)) = true).
  { apply existsb_exists. exists (Py.lower (User.username u)). split.
    - apply in_map_iff.
      rewrite <- (to_csv_enumerate rows 0) in Hu. unfold to_csv in Hu.
      apply in_map_iff in Hu as (p & <- & Hp). exists p. split; [reflexivity | exact Hp].
    - rewrite Hcase. apply String.eqb_refl. }
  rewrite X. reflexivity.
Qed.

Lemma select_none {A : Type} (mask : A -> bool) (df : DataFrame A) :
  (forall p, In p df -> mask (snd p) = false) -> select mask df = [].
Proof.
  unfold select. induction df as [| p df IH]; intros H; [reflexivity |].
  cbn [List.filter]. rewrite (H p (or_introl eq_refl)).
  apply IH. intros q Hq. apply H. right. exact Hq.
Qed.

Lemma authenticate_user_unknown (now username password : string) (file : users_file) :
  (forall v, In v (data_rows file) -> User.username v <> username) ->
  authenticate_user hash_password now username password file = (None, file).
Proof.
  intros Hno. unfold authenticate_user.
  destruct file as [rows |]; [| reflexivity]. cbn [data_rows] in Hno.
  destruct (Pandas.empty (read_csv rows)); [reflexivity |].
  rewrite select_none; [reflexivity |].
  intros [i v] Hp. cbn [snd]. apply String.eqb_neq. apply Hno.
  apply in_enumerate in Hp as [_ Hp]. eapply list_elem_of_In, list_elem_of_lookup_2, Hp.
Qed.

Lemma register_user_rejected (now : string) (user_data : UserData.t)
    (file : users_file) :
  registered (register_user hash_password now user_data file) = false ->
  users_after (register_user hash_password now user_data file) = file.
Proof.
  unfold register_user.
  destruct (_ && _); [reflexivity |].
  destruct (_ && _); [reflexivity |].
  destruct (UserData.full_name user_data) as [[s |] |];
    cbn [registered users_after]; congruence.
Qed.

Lemma in_first_ids (n : nat) (k : Z) :
  In k (first_ids n) <-> (1 <= k <= Z.of_nat n)%Z.
Proof.
  unfold first_ids. rewrite <- list_elem_of_In, list_elem_of_fmap. split.
  - intros (i & -> & Hi). apply list_elem_of_In, in_seq in Hi. lia.
  - intros Hk. exists (Z.to_nat k). split; [lia |].
    apply list_elem_of_In, in_seq. lia.
Qed.

Lemma next_id_after_first_ids (r : User.row) (rows : list User.row) :
  User.user_id <$> (r :: rows) = first_ids (length (r :: rows)) ->
  (max_user_id (read_csv (r :: rows)) + 1 = Z.of_nat (length (r :: rows)) + 1)%Z.
Proof.
  intros C. destruct (max_user_id_spec r rows) as [M U]. cbv zeta in *.
  change (List.map User.user_id (r :: rows)) with (User.user_id <$> (r :: rows)) in *.
  rewrite C in M, U. apply in_first_ids in M.
  assert (L : (Z.of_nat (length (r :: rows))
               <= max_user_id (read_csv (r :: rows)))%Z).
  { apply U, in_first_ids. cbn [length]. lia. }
  lia.
Qed.

Lemma register_user_keeps_first_ids (now : string) (user_data : UserData.t)
    (file : users_file) :
  user_ids file = first_ids (length (data_rows file)) ->
  let file' := users_after (register_user hash_password now user_data file) in
  user_ids file' = first_ids (length (data_rows file')).
Proof.
  intros C file'. subst file'.
  destruct (registered (register_user hash_password now user_data file)) eqn:R.
  - rewrite (register_user_accepted _ _ _ R). unfold user_ids in *. cbn [data_rows].
    rewrite fmap_app, length_app, C. cbn [length fmap list_fmap new_user User.user_id].
    unfold first_ids. rewrite Nat.add_1_r, seq_S, fmap_app. cbn [fmap list_fmap].
    do 2 f_equal.
    destruct (data_rows file) as [| r rows] eqn:D; [reflexivity |].
    rewrite next_id_after_first_ids by exact C. cbn [length]. lia.
  - rewrite (register_user_rejected _ _ _ R). exact C.
Qed.

Lemma register_all_keeps_first_ids (requests : list (string * UserData.t)) :
  forall file,
    user_ids file = first_ids (length (data_rows file)) ->
    let file' := register_all hash_password requests file in
    user_ids file' = first_ids (length (data_rows file')).
Proof.
  unfold register_all.
  induction requests as [| [now user_data] requests IH]; intros file C.
  - exact C.
  - cbn [List.fold_left]. apply IH, register_user_keeps_first_ids, C.
Qed.

End Users.

(** ** Identifiers and user names *)

Section Identifiers.
Import Pandas DataUtils AuthUtils Spec.

(** C1, as the code has it.  [save_expense] and [save_backlog_item] give
    the new row the number of data rows of the file plus 1, an absent file
    having no rows.  An accepted [register_user] gives the new user 1 when
    the file is absent or has no rows, and otherwise the greatest stored
    user_id plus 1; this is the number of rows plus 1 when the stored ids
    are 1, 2, ..., n, as they are in every file that registrations alone
    have written. *)
Theorem insert_assigns_id
    (hash_password : string -> string) (now : string)
    (expense_data : Expense.row) (expenses : expenses_file)
    (task_data : Task.row) (backlog : backlog_file)
    (user_data : UserData.t) (users : users_file) :
  save_expense expense_data expenses
  = (true,
     Some (data_rows expenses
           ++ [Expense.set_expense_id (Z.of_nat (length (data_rows expenses)) + 1)
                 expense_data]))
  /\ save_backlog_item task_data backlog
     = (true,
        Some (data_rows backlog
              ++ [Task.set_task_id (Z.of_nat (length (data_rows backlog)) + 1)
                    task_data]))
  /\ (registered (register_user hash_password now user_data users) = true ->
      exists id : Z,
        users_after (register_user hash_password now user_data users)
        = Some (data_rows users ++ [new_user hash_password now id user_data])
        /\ (data_rows users = [] -> id = 1%Z)
        /\ (data_rows users <> [] ->
            In (id - 1)%Z (user_ids users)
            /\ forall k, In k (user_ids users) -> (k <= id - 1)%Z)
        /\ (user_ids users = first_ids (length (data_rows users)) ->
            id = (Z.of_nat (length (data_rows users)) + 1)%Z))
  /\ (forall requests,
        let file := register_all hash_password requests None in
        user_ids file = first_ids (length (data_rows file))).
Proof.
  split; [apply save_expense_appends |].
  split; [apply save_backlog_item_appends |].
  split.
  - intros Hreg. eexists. split; [apply register_user_accepted, Hreg |].
    unfold user_ids. destruct (data_rows users) as [| r rows].
    + split; [reflexivity |]. split; [congruence | reflexivity].
    + split; [discriminate |].
      destruct (max_user_id_spec r rows) as [M U]. cbv zeta in *.
      split.
      * intros _. rewrite Z.add_simpl_r. split; [exact M | exact U].
      * apply next_id_after_first_ids.
  - intros requests. apply register_all_keeps_first_ids. reflexivity.
Qed.

Lemma insert_assigns_id_witness :
  exists id : Z,
    users_after
      (register_user Sample.digest "2024-03-01 10:00:00"
         (Sample.request "bob" "bob@example.org" "hunter2")
         (Some [Sample.user 1 "ann" "ann@example.org" "sha256:secret"]))
    = Some [Sample.user 1 "ann" "ann@example.org" "sha256:secret";
            new_user Sample.digest "2024-03-01 10:00:00" id
              (Sample.request "bob" "bob@example.org" "hunter2")]
    /\ id = 2%Z.
Proof.
  destruct (insert_assigns_id Sample.digest "2024-03-01 10:00:00"
              (Sample.expense 7 "bread") (Some [Sample.stored_expense 1 7 "milk"])
              (Sample.task 0 7 "Pending") None
              (Sample.request "bob" "bob@example.org" "hunter2")
              (Some [Sample.user 1 "ann" "ann@example.org" "sha256:secret"]))
    as (_ & _ & H & _).
  destruct (H eq_refl) as (id & E & _ & _ & C).
  exists id. split; [exact E | apply C; reflexivity].
Defined.

(** C1 as stated fails for users: with one stored user whose id is 5, the
    new user gets the id 6, not the row count plus 1. *)
Lemma register_user_id_is_not_row_count :
  let users := Some [Sample.user 5 "ann" "ann@example.org" "sha256:secret"] in
  let r := register_user Sample.digest "2024-03-01 10:00:00"
             (Sample.request "bob" "bob@example.org" "hunter2") users in
  registered r = true
  /\ users_after r
     = Some [Sample.user 5 "ann" "ann@example.org" "sha256:secret";
             Sample.user 6 "bob" "bob@example.org" "sha256:hunter2"]
  /\ (6 <> Z.of_nat (length (data_rows users)) + 1)%Z.
Proof. repeat split. discriminate. Qed.


End Identifiers.

(** ** Accounts: registration, login and passwords *)

Section AccountFrames.
Import Pandas.
Context {A : Type}.
Implicit Types (rows : list A) (mask : A -> bool).

Lemma enumerate_app rows1 rows2 : forall start,
  enumerate_from start (rows1 ++ rows2)
  = enumerate_from start rows1
    ++ enumerate_from (start + Z.of_nat (length rows1)) rows2.
Proof.
  induction rows1 as [| r rows1 IH]; intros s; cbn [app enumerate_from length].
  - rewrite Z.add_0_r. reflexivity.
  - rewrite IH. do 3 f_equal. lia.
Qed.

Lemma select_app mask (df1 df2 : DataFrame A) :
  select mask (df1 ++ df2) = select mask df1 ++ select mask df2.
Proof. unfold select. apply List.filter_app. Qed.

Lemma select_enumerate_none mask rows start :
  (forall r, In r rows -> mask r = false) ->
  select mask (enumerate_from start rows) = [].
Proof.
  intros H. apply select_none. intros [i r] Hp. cbn [snd]. apply H.
  apply in_enumerate in Hp as [_ Hp].
  eapply list_elem_of_In, list_elem_of_lookup_2, Hp.
Qed.

Lemma select_head mask rows start (p : Z * A) (rest : DataFrame A) :
  select mask (enumerate_from start rows) = p :: rest ->
  In (snd p) rows /\ mask (snd p) = true.
Proof.
  intros E.
  assert (H : In p (select mask (enumerate_from start rows)))
    by (rewrite E; left; reflexivity).
  apply in_select in H as [H M]. split; [| exact M].
  destruct p as [i r]. apply in_enumerate in H as [_ H].
  eapply list_elem_of_In, list_elem_of_lookup_2, H.
Qed.

Lemma select_nonempty mask rows start (r : A) :
  In r rows -> mask r = true ->
  select mask (enumerate_from start rows) <> [].
Proof.
  intros Hr M E.
  apply list_elem_of_In, list_elem_of_lookup_1 in Hr as [j Hj].
  assert (H : In (start + Z.of_nat j, r)%Z (select mask (enumerate_from start rows))).
  { apply in_select. split; [| exact M]. apply in_enumerate. split; [lia |].
    replace (Z.to_nat (start + Z.of_nat j - start)) with j by lia. exact Hj. }
  rewrite E in H. destruct H.
Qed.

Lemma to_csv_mask_set mask (f : A -> A) rows : forall start,
  to_csv (mask_set mask f (enumerate_from start rows))
  = List.map (fun r => if mask r then f r else r) rows.
Proof.
  unfold to_csv, mask_set.
  induction rows as [| r rows IH]; intros s; cbn [enumerate_from List.map snd];
    [reflexivity |].
  rewrite IH. destruct (mask r); reflexivity.
Qed.

End AccountFrames.

Section AccountLemmas.
Import Pandas AuthUtils Accounts Spec AccountSpec.

Variable hash_password : string -> string.

Lemma read_csv_data_rows (file : users_file) :
  match file with Some rows => read_csv rows | None => [] end
  = read_csv (data_rows file).
Proof. destruct file; reflexivity. Qed.

Lemma existsb_lower_false (f : User.row -> string) (s : string)
    (rows : list User.row) :
  List.existsb (String.eqb (Py.lower s))
    (List.map (fun p : Z * User.row => Py.lower (f (snd p))) (read_csv rows)) = false ->
  forall v, In v rows -> Py.lower (f v) <> Py.lower s.
Proof.
  intros X v Hv E.
  assert (T : List.existsb (String.eqb (Py.lower s))
                (List.map (fun p : Z * User.row => Py.lower (f (snd p))) (read_csv rows))
              = true).
  { apply existsb_exists. exists (Py.lower (f v)). split.
    - apply in_map_iff.
      rewrite <- (to_csv_enumerate rows 0) in Hv. unfold to_csv in Hv.
      apply in_map_iff in Hv as (p & <- & Hp). exists p. split; [reflexivity | exact Hp].
    - rewrite E. apply String.eqb_refl. }
  congruence.
Qed.

Lemma register_user_accepted_fresh (now : string) (user_data : UserData.t)
    (file : users_file) :
  registered (register_user hash_password now user_data file) = true ->
  (forall v, In v (data_rows file) ->
             Py.lower (User.username v) <> Py.lower (UserData.username user_data))
  /\ (forall v, In v (data_rows file) ->
                Py.lower (User.email v) <> Py.lower (UserData.email user_data)).
Proof.
  unfold register_user. rewrite read_csv_data_rows.
  destruct (data_rows file) as [| r rows] eqn:D.
  - intros _. split; intros v [].
  - replace (Pandas.empty (read_csv (r :: rows))) with false by reflexivity.
    cbn [negb andb].
    destruct (List.existsb (String.eqb (Py.lower (UserData.username user_data))) _)
      eqn:X1; [discriminate |].
    destruct (List.existsb (String.eqb (Py.lower (UserData.email user_data))) _)
      eqn:X2; [discriminate |].
    intros _. split.
    + exact (existsb_lower_false User.username _ _ X1).
    + exact (existsb_lower_false User.email _ _ X2).
Qed.

Lemma read_csv_nonempty {A : Type} (rows : list A) (r : A) :
  Pandas.empty (read_csv (rows ++ [r])) = false.
Proof. destruct rows; reflexivity. Qed.

End AccountLemmas.

Section AccountClaims.
Import Pandas AuthUtils Accounts Spec AccountSpec.

(** X1.  A user whose registration is accepted under a user name without
    surrounding white space can log in with that name and the password
    given, when the name and the password hash are cells that are read
    back as written: the login returns a session with the id and the
    name of the row the registration appended. *)
Theorem registered_user_can_log_in (hash_password : string -> string)
    (now now' : string) (user_data : UserData.t) (file : users_file)
    (Hreg : registered (register_user hash_password now user_data file) = true)
    (Hstrip : Py.strip (UserData.username user_data) = UserData.username user_data)
    (Hname : Csv.text (UserData.username user_data) = true)
    (Hhash : Csv.text (hash_password (UserData.password user_data)) = true) :
  let file' := users_after (register_user hash_password now user_data file) in
  exists (new : User.row) (session : Session.t) (file'' : users_file),
    data_rows file' = data_rows file ++ [new]
    /\ User.username new = UserData.username user_data
    /\ authenticate_user hash_password now' (UserData.username user_data)
         (UserData.password user_data) file'
       = (Some session, file'')
    /\ Session.user_id session = User.user_id new
    /\ Session.username session = UserData.username user_data.
Proof.
  clear Hname Hhash. intros file'. subst file'.
  destruct (register_user_accepted_fresh _ _ _ _ Hreg) as [Hname _].
  rewrite (register_user_accepted _ _ _ _ Hreg).
  set (id := match data_rows file with
             | [] => 1%Z
             | _ :: _ => (max_user_id (read_csv (data_rows file)) + 1)%Z
             end).
  set (new := new_user hash_password now id user_data).
  assert (Un : User.username new = UserData.username user_data) by exact Hstrip.
  exists new, (session_of new). eexists. split; [reflexivity |]. split; [exact Un |].
  split; [| split; [reflexivity | exact Un]].
  unfold authenticate_user. rewrite read_csv_nonempty.
  unfold read_csv. rewrite enumerate_app, select_app.
  rewrite select_enumerate_none.
  - cbn [enumerate_from select List.filter snd app].
    rewrite Un, String.eqb_refl.
    change (User.password_hash new) with (hash_password (UserData.password user_data)).
    rewrite String.eqb_refl. reflexivity.
  - intros v Hv. apply String.eqb_neq. intros E. apply (Hname v Hv). rewrite E.
    reflexivity.
Qed.

Lemma registered_user_can_log_in_witness :
  exists session file'',
    AuthUtils.authenticate_user Sample.digest "2024-03-02 08:00:00" "bob" "hunter2"
      (Some [Sample.user 1 "ann" "ann@example.org" "sha256:secret";
             Sample.user 2 "bob" "bob@example.org" "sha256:hunter2"])
    = (Some session, file'')
    /\ Session.user_id session = 2%Z
    /\ Session.username session = "bob"%string.
Proof.
  destruct (registered_user_can_log_in Sample.digest "2024-03-01 10:00:00"
              "2024-03-02 08:00:00"
              (Sample.request "bob" "bob@example.org" "hunter2")
              (Some [Sample.user 1 "ann" "ann@example.org" "sha256:secret"])
              eq_refl eq_refl eq_refl eq_refl)
    as (new & session & file'' & E & _ & H & I & U).
  exists session, file''. split; [exact H |]. split; [| exact U].
  rewrite I. injection E as <-. reflexivity.
Defined.

(** X2.  [register_user] keeps the stored user ids pairwise distinct: the
    id of an accepted registration is greater than every stored id, and a
    rejected one writes nothing. *)
Theorem register_user_keeps_ids_distinct (hash_password : string -> string)
    (now : string) (user_data : UserData.t) (file : users_file)
    (Hdistinct : NoDup (user_ids file)) :
  NoDup (user_ids (users_after (register_user hash_password now user_data file))).
Proof.
  destruct (registered (register_user hash_password now user_data file)) eqn:R.
  - rewrite (register_user_accepted _ _ _ _ R). unfold user_ids in *.
    cbn [data_rows]. rewrite fmap_app. cbn [fmap list_fmap new_user User.user_id].
    apply NoDup_app. split; [exact Hdistinct |]. split; [| apply NoDup_singleton].
    intros k Hk Hnew. apply list_elem_of_singleton in Hnew. subst k.
    destruct (data_rows file) as [| r rows].
    + inversion Hk.
    + destruct (max_user_id_spec r rows) as [_ U]. cbv zeta in U.
      apply list_elem_of_In in Hk. apply U in Hk. lia.
  - rewrite (register_user_rejected _ _ _ _ R). exact Hdistinct.
Qed.

Lemma register_user_keeps_ids_distinct_witness :
  NoDup (user_ids
           (users_after
              (register_user Sample.digest "2024-03-01 10:00:00"
                 (Sample.request "bob" "bob@example.org" "hunter2")
                 (Some [Sample.user 5 "ann" "ann@example.org" "sha256:secret"])))).
Proof.
  apply (register_user_keeps_ids_distinct Sample.digest).
  apply NoDup_singleton.
Defined.

(** X3.  When no stored user name equals the requested one up to case but
    a stored email address equals the requested one up to case,
    [register_user] rejects the request with "Email already exists" and
    leaves the file as it was. *)
Theorem register_user_rejects_known_email (hash_password : string -> string)
    (now : string) (user_data : UserData.t) (file : users_file) (u : User.row)
    (Hu : In u (data_rows file))
    (Hname : forall v, In v (data_rows file) ->
                       Py.lower (User.username v)
                       <> Py.lower (UserData.username user_data))
    (Hmail : Py.lower (UserData.email user_data) = Py.lower (User.email u)) :
  register_user hash_password now user_data file
  = {| registered := false;
       registration_error := Some "Email already exists"%string;
       users_after := file |}.
Proof.
  unfold register_user.
  destruct file as [rows |]; cbn [data_rows] in Hu, Hname; [| destruct Hu].
  assert (N : Pandas.empty (read_csv rows) = false)
    by (destruct rows; [destruct Hu | reflexivity]).
  rewrite N. cbn [negb andb].
  assert (X1 : List.existsb (String.eqb (Py.lower (UserData.username user_data)))
                 (List.map (fun p : Z * User.row => Py.lower (User.username (snd p)))
                    (read_csv rows)) = false).
  { apply not_true_is_false. intros T. apply existsb_exists in T as (x & Hx & E).
    apply in_map_iff in Hx as ([i v] & <- & Hp). cbn [snd] in E.
    apply String.eqb_eq in E.
    apply in_enumerate in Hp as [_ Hp].
    apply (Hname v); [eapply list_elem_of_In, list_elem_of_lookup_2, Hp | congruence]. }
  assert (X2 : List.existsb (String.eqb (Py.lower (UserData.email user_data)))
                 (List.map (fun p : Z * User.row => Py.lower (User.email (snd p)))
                    (read_csv rows)) = true).
  { apply existsb_exists. exists (Py.lower (User.email u)). split.
    - apply in_map_iff.
      rewrite <- (to_csv_enumerate rows 0) in Hu. unfold to_csv in Hu.
      apply in_map_iff in Hu as (p & <- & Hp). exists p. split; [reflexivity | exact Hp].
    - rewrite Hmail. apply String.eqb_refl. }
  rewrite X1, X2. reflexivity.
Qed.

Lemma register_user_rejects_known_email_witness :
  register_user Sample.digest "2024-03-01 10:00:00"
    (Sample.request "bob" "Ann@Example.org" "hunter2")
    (Some [Sample.user 1 "ann" "ann@example.org" "sha256:secret"])
  = {| registered := false;
       registration_error := Some "Email already exists"%string;
       users_after := Some [Sample.user 1 "ann" "ann@example.org" "sha256:secret"] |}.
Proof.
  apply (register_user_rejects_known_email Sample.digest "2024-03-01 10:00:00"
           (Sample.request "bob" "Ann@Example.org" "hunter2")
           (Some [Sample.user 1 "ann" "ann@example.org" "sha256:secret"])
           (Sample.user 1 "ann" "ann@example.org" "sha256:secret")).
  - left. reflexivity.
  - intros v [<- | []]. discriminate.
  - reflexivity.
Defined.

(** X4.  [register_user] reports what it did: a rejected request leaves
    the file as it was and sets the error message; an accepted one clears
    the message and adds exactly one row after the stored ones.  A
    request whose full name is Python's [None] is never accepted. *)
Theorem register_user_reports_outcome (hash_password : string -> string)
    (now : string) (user_data : UserData.t) (file : users_file) :
  let r := register_user hash_password now user_data file in
  (registered r = false ->
   users_after r = file /\ registration_error r <> None)
  /\ (registered r = true ->
      registration_error r = None
      /\ UserData.full_name user_data <> Some None
      /\ exists new, users_after r = Some (data_rows file ++ [new]))
  /\ (UserData.full_name user_data = Some None -> registered r = false).
Proof.
  intros r. subst r. split; [| split].
  - intros R. split; [apply register_user_rejected, R |].
    revert R. unfold register_user.
    destruct (_ && _); [discriminate |].
    destruct (_ && _); [discriminate |].
    destruct (UserData.full_name user_data) as [[s |] |];
      cbn [registered registration_error]; discriminate.
  - intros R. split; [| split].
    + revert R. unfold register_user.
      destruct (_ && _); [discriminate |].
      destruct (_ && _); [discriminate |].
      destruct (UserData.full_name user_data) as [[s |] |];
        cbn [registered registration_error]; congruence.
    + revert R. unfold register_user.
      destruct (_ && _); [discriminate |].
      destruct (_ && _); [discriminate |].
      destruct (UserData.full_name user_data) as [[s |] |];
        cbn [registered]; congruence.
    + eexists. apply register_user_accepted, R.
  - intros F. unfold register_user. rewrite F.
    destruct (_ && _); [reflexivity |].
    destruct (_ && _); reflexivity.
Qed.

Lemma to_csv_read_csv {A : Type} (rows : list A) : to_csv (read_csv rows) = rows.
Proof. apply to_csv_enumerate. Qed.

(** X5.  What a login does.  When [authenticate_user] returns no user the
    file is as it was.  When it returns a user, this is the session of a
    stored row whose user name is exactly the one given and whose
    password hash is the hash of the password given; the file then holds
    the same rows in the same order, where the rows with that user name
    have the time of the call as [last_login] and nothing else has
    changed. *)
Theorem authenticate_user_outcome (hash_password : string -> string)
    (now username password : string) (file : users_file) :
  match authenticate_user hash_password now username password file with
  | (None, file') => file' = file
  | (Some session, file') =>
      exists u,
        In u (data_rows file)
        /\ User.username u = username
        /\ User.password_hash u = hash_password password
        /\ session = session_of u
        /\ file' = Some (touch now username <$> data_rows file)
  end.
Proof.
  unfold authenticate_user.
  destruct file as [rows |]; [| reflexivity].
  destruct (Pandas.empty (read_csv rows)); [reflexivity |].
  destruct (select _ _) as [| [i user] rest] eqn:S; [reflexivity |].
  destruct (String.eqb_spec (User.password_hash user) (hash_password password))
    as [E | N]; [| reflexivity].
  apply select_head in S as [Hin M]. cbn [snd] in Hin, M.
  apply String.eqb_eq in M.
  exists user. cbn [data_rows]. repeat split; try assumption.
  unfold read_csv. rewrite to_csv_mask_set. reflexivity.
Qed.

Lemma NoDup_fmap_eq {A B : Type} (f : A -> B) (rows : list A) (a b : A) :
  NoDup (f <$> rows) -> In a rows -> In b rows -> f a = f b -> a = b.
Proof.
  intros ND Ha Hb E.
  apply list_elem_of_In, list_elem_of_lookup_1 in Ha as [i Hi].
  apply list_elem_of_In, list_elem_of_lookup_1 in Hb as [j Hj].
  assert (i = j).
  { apply (NoDup_lookup _ i j (f a) ND).
    - rewrite list_lookup_fmap, Hi. reflexivity.
    - rewrite list_lookup_fmap, Hj, E. reflexivity. }
  subst j. congruence.
Qed.

(** X6.  What [change_password] does.  When it returns false the file is
    as it was.  When it returns true, a stored row carries the user id
    given and the hash of the old password given, and the file holds the
    same rows in the same order where the rows with that user id have
    the hash of the new password and nothing else has changed. *)
Theorem change_password_outcome (hash_password : string -> string)
    (user_id : Z) (old_password new_password : string) (file : users_file) :
  match change_password hash_password user_id old_password new_password file with
  | (false, file') => file' = file
  | (true, file') =>
      exists u,
        In u (data_rows file)
        /\ User.user_id u = user_id
        /\ User.password_hash u = hash_password old_password
        /\ file'
           = Some ((fun v => if Z.eqb (User.user_id v) user_id
                             then set_password_hash (hash_password new_password) v
                             else v) <$> data_rows file)
  end.
Proof.
  unfold change_password.
  destruct file as [rows |]; [| reflexivity].
  destruct (Pandas.empty (read_csv rows)); [reflexivity |].
  destruct (select _ _) as [| [i user] rest] eqn:S; [reflexivity |].
  destruct (String.eqb_spec (User.password_hash user) (hash_password old_password))
    as [E | N]; cbn [negb]; [| reflexivity].
  apply select_head in S as [Hin M]. cbn [snd] in Hin, M.
  apply Z.eqb_eq in M.
  exists user. cbn [data_rows]. repeat split; try assumption.
  unfold read_csv. rewrite to_csv_mask_set. reflexivity.
Qed.

(** X7.  In a users file whose user ids are pairwise distinct and whose
    user names are pairwise distinct, a user who gives the current
    password changes it: [change_password] returns true, the user then
    logs in with the new password, and no longer with the old one when
    the two hashes differ. *)
Theorem changed_password_is_the_login_password (hash_password : string -> string)
    (now : string) (old_password new_password : string) (file : users_file)
    (u : User.row)
    (Hu : In u (data_rows file))
    (Hids : NoDup (user_ids file))
    (Hnames : NoDup (usernames file))
    (Hold : User.password_hash u = hash_password old_password) :
  exists file',
    change_password hash_password (User.user_id u) old_password new_password file
    = (true, file')
    /\ (exists file'',
          authenticate_user hash_password now (User.username u) new_password file'
          = (Some (session_of u), file''))
    /\ (hash_password old_password <> hash_password new_password ->
        authenticate_user hash_password now (User.username u) old_password file'
        = (None, file')).
Proof.
  destruct file as [rows |]; cbn [data_rows] in Hu; [| destruct Hu].
  unfold user_ids, usernames in *. cbn [data_rows] in *.
  set (change := fun v => if Z.eqb (User.user_id v) (User.user_id u)
                          then set_password_hash (hash_password new_password) v
                          else v).
  assert (Hnonempty : Pandas.empty (read_csv rows) = false)
    by (destruct rows; [destruct Hu | reflexivity]).
  assert (Hchange : change_password hash_password (User.user_id u) old_password
                      new_password (Some rows)
                    = (true, Some (change <$> rows))).
  { unfold change_password. rewrite Hnonempty.
    destruct (select _ _) as [| [i user] rest] eqn:S.
    - exfalso. revert S. apply (select_nonempty _ rows 0 u Hu). apply Z.eqb_refl.
    - apply select_head in S as [Hin M]. cbn [snd] in Hin, M. apply Z.eqb_eq in M.
      assert (user = u) as -> by (apply (NoDup_fmap_eq User.user_id rows); assumption).
      rewrite Hold, String.eqb_refl. cbn [negb].
      unfold read_csv. rewrite to_csv_mask_set. reflexivity. }
  exists (Some (change <$> rows)). split; [exact Hchange |].
  assert (Hu' : change u = set_password_hash (hash_password new_password) u)
    by (unfold change; rewrite Z.eqb_refl; reflexivity).
  assert (Hin' : In (change u) (change <$> rows))
    by (apply list_elem_of_In, list_elem_of_fmap_2, list_elem_of_In, Hu).
  assert (Hname' : forall v, User.username (change v) = User.username v)
    by (intros v; unfold change; destruct (Z.eqb _ _); reflexivity).
  assert (Hnonempty' : Pandas.empty (read_csv (change <$> rows)) = false)
    by (destruct rows; [destruct Hu | reflexivity]).
  assert (Hfirst : forall i user rest,
             select (fun v => String.eqb (User.username v) (User.username u))
               (read_csv (change <$> rows)) = (i, user) :: rest ->
             user = change u).
  { intros i user rest S. apply select_head in S as [Hin M]. cbn [snd] in Hin, M.
    apply String.eqb_eq in M.
    apply list_elem_of_In, list_elem_of_fmap in Hin as (v & -> & Hv).
    apply list_elem_of_In in Hv. rewrite Hname' in M.
    assert (v = u) as -> by (apply (NoDup_fmap_eq User.username rows); assumption).
    reflexivity. }
  assert (Hsome : select (fun v => String.eqb (User.username v) (User.username u))
                    (read_csv (change <$> rows)) <> []).
  { apply (select_nonempty _ _ 0 (change u) Hin'). rewrite Hname'.
    apply String.eqb_refl. }
  split.
  - unfold authenticate_user. rewrite Hnonempty'.
    destruct (select _ _) as [| [i user] rest] eqn:S; [congruence |].
    rewrite (Hfirst _ _ _ eq_refl), Hu'. cbn [set_password_hash User.password_hash].
    rewrite String.eqb_refl. eexists. reflexivity.
  - intros Hdiff. unfold authenticate_user. rewrite Hnonempty'.
    destruct (select _ _) as [| [i user] rest] eqn:S; [reflexivity |].
    rewrite (Hfirst _ _ _ eq_refl), Hu'. cbn [set_password_hash User.password_hash].
    destruct (String.eqb_spec (hash_password new_password) (hash_password old_password));
      [congruence | reflexivity].
Qed.

Lemma changed_password_is_the_login_password_witness :
  exists file',
    change_password Sample.digest 1 "secret" "s3cret!" 
      (Some [Sample.user 1 "ann" "ann@example.org" "sha256:secret"])
    = (true, file').
Proof.
  destruct (changed_password_is_the_login_password Sample.digest
              "2024-03-02 08:00:00" "secret" "s3cret!"
              (Some [Sample.user 1 "ann" "ann@example.org" "sha256:secret"])
              (Sample.user 1 "ann" "ann@example.org" "sha256:secret"))
    as (file' & H & _).
  - left. reflexivity.
  - apply NoDup_singleton.
  - apply NoDup_singleton.
  - reflexivity.
  - exists file'. exact H.
Defined.

(** X8.  After an accepted registration, [get_user_data] called with the
    id of the new user returns the data of the new user, when the user
    name, the email address and the time stored are cells that are read
    back as written: the id, the user name and the email address as
    stored (stripped, the address in lower case), the time of the
    registration and no last login. *)
Theorem registered_user_has_profile (hash_password : string -> string)
    (now : string) (user_data : UserData.t) (file : users_file)
    (Hreg : registered (register_user hash_password now user_data file) = true)
    (Hname : Csv.text (Py.strip (UserData.username user_data)) = true)
    (Hmail : Csv.text (Py.lower (Py.strip (UserData.email user_data))) = true)
    (Htime : Csv.text now = true) :
  let file' := users_after (register_user hash_password now user_data file) in
  exists (new : User.row) (profile : Profile.t),
    data_rows file' = data_rows file ++ [new]
    /\ get_user_data (User.user_id new) file' = Some profile
    /\ Profile.user_id profile = User.user_id new
    /\ Profile.username profile = Py.strip (UserData.username user_data)
    /\ Profile.email profile = Py.lower (Py.strip (UserData.email user_data))
    /\ Profile.created_at profile = now
    /\ Profile.last_login profile = None.
Proof.
  clear Hname Hmail Htime. intros file'. subst file'.
  rewrite (register_user_accepted _ _ _ _ Hreg).
  set (id := match data_rows file with
             | [] => 1%Z
             | _ :: _ => (max_user_id (read_csv (data_rows file)) + 1)%Z
             end).
  exists (new_user hash_password now id user_data),
         (profile_of (new_user hash_password now id user_data)).
  split; [reflexivity |]. split; [| repeat split].
  unfold get_user_data. rewrite read_csv_nonempty.
  unfold read_csv. rewrite enumerate_app, select_app.
  rewrite select_enumerate_none.
  - cbn [enumerate_from select List.filter snd app new_user User.user_id].
    rewrite Z.eqb_refl. reflexivity.
  - intros v Hv. apply Z.eqb_neq. cbn [new_user User.user_id]. subst id.
    destruct (data_rows file) as [| r rows]; [destruct Hv |].
    destruct (max_user_id_spec r rows) as [_ U]. cbv zeta in U.
    assert (User.user_id v <= max_user_id (read_csv (r :: rows)))%Z
      by (apply U, in_map, Hv).
    lia.
Qed.

Lemma registered_user_has_profile_witness :
  exists (new : User.row) (profile : Profile.t),
    get_user_data (User.user_id new)
      (Some [Sample.user 5 "ann" "ann@example.org" "sha256:secret";
             Sample.user 6 "bob" "bob@example.org" "sha256:hunter2"])
    = Some profile
    /\ Profile.username profile = "bob"%string.
Proof.
  destruct (registered_user_has_profile Sample.digest "2024-03-01 10:00:00"
              (Sample.request " bob " "bob@example.org" "hunter2")
              (Some [Sample.user 5 "ann" "ann@example.org" "sha256:secret"])
              eq_refl eq_refl eq_refl eq_refl)
    as (new & profile & _ & H & _ & U & _).
  exists new, profile. split; [exact H | exact U].
Defined.

End AccountClaims.

(** ** Queries and summaries *)

Section Sorting.
Import Pandas StoreSpec.
Context {A : Type} (key : A -> string).
Implicit Types (df : DataFrame A) (x : Z * A).

Lemma insert_desc_permutation x df :
  Permutation (insert_desc key x df) (x :: df).
Proof.
  induction df as [| y df IH]; cbn [insert_desc]; [reflexivity |].
  destruct (String.leb _ _); [reflexivity |].
  rewrite IH. apply perm_swap.
Qed.

Lemma sort_values_desc_permutation df :
  Permutation (sort_values_desc key df) df.
Proof.
  unfold sort_values_desc.
  induction df as [| y df IH]; cbn [fold_right]; [reflexivity |].
  rewrite insert_desc_permutation, IH. reflexivity.
Qed.

Lemma insert_desc_hd x y df :
  newest_first key y x ->
  HdRel (newest_first key) y df ->
  HdRel (newest_first key) y (insert_desc key x df).
Proof.
  intros R H. destruct df as [| z df]; cbn [insert_desc].
  - constructor. exact R.
  - destruct (String.leb _ _); constructor; [exact R |].
    inversion H; assumption.
Qed.

Lemma insert_desc_sorted x df :
  Sorted (newest_first key) df -> Sorted (newest_first key) (insert_desc key x df).
Proof.
  induction df as [| y df IH]; intros S; cbn [insert_desc].
  - repeat constructor.
  - destruct (String.leb (key (snd y)) (key (snd x))) eqn:L.
    + constructor; [exact S |]. constructor. exact L.
    + apply Sorted_inv in S as [S H].
      constructor; [apply IH, S |].
      apply insert_desc_hd; [| exact H].
      unfold newest_first.
      destruct (String.leb_total (key (snd y)) (key (snd x))) as [T | T];
        [congruence | exact T].
Qed.

Lemma sort_values_desc_sorted df :
  Sorted (newest_first key) (sort_values_desc key df).
Proof.
  unfold sort_values_desc.
  induction df as [| y df IH]; cbn [fold_right]; [constructor |].
  apply insert_desc_sorted, IH.
Qed.

(** The rows of a sorted frame depend on the rows of the frame only, not
    on their labels. *)
Lemma insert_desc_rows x x' df df' :
  snd x = snd x' -> rows_of df = rows_of df' ->
  rows_of (insert_desc key x df) = rows_of (insert_desc key x' df').
Proof.
  unfold rows_of. intros Ex. revert df'.
  induction df as [| y df IH]; intros [| y' df'] E; try discriminate E.
  - cbn. congruence.
  - cbn [fmap list_fmap] in E. injection E as Ey E.
    cbn [insert_desc]. rewrite <- Ex, <- Ey.
    destruct (String.leb _ _).
    + cbn [fmap list_fmap]. congruence.
    + cbn [fmap list_fmap]. rewrite (IH df' E), Ey. reflexivity.
Qed.

Lemma sort_values_desc_rows df df' :
  rows_of df = rows_of df' ->
  rows_of (sort_values_desc key df) = rows_of (sort_values_desc key df').
Proof.
  unfold sort_values_desc. revert df'.
  induction df as [| y df IH]; intros [| y' df'] E; try discriminate E.
  - reflexivity.
  - unfold rows_of in E. cbn [fmap list_fmap] in E. injection E as Ey E.
    cbn [fold_right]. apply insert_desc_rows; [exact Ey | apply IH, E].
Qed.

End Sorting.

Section QueryRows.
Import Pandas DataUtils Spec StoreSpec.

Lemma rows_of_enumerate {A : Type} (rows : list A) (start : Z) :
  rows_of (enumerate_from start rows) = rows.
Proof.
  unfold rows_of. rewrite <- (to_csv_enumerate rows start) at 2. reflexivity.
Qed.

Lemma rows_of_select {A : Type} (mask : A -> bool) (df : DataFrame A) :
  rows_of (select mask df) = List.filter mask (rows_of df).
Proof.
  unfold rows_of, select.
  induction df as [| p df IH]; [reflexivity |].
  cbn [List.filter fmap list_fmap]. destruct (mask (snd p)); cbn [fmap list_fmap];
    rewrite IH; reflexivity.
Qed.

Lemma rows_of_query {A : Type} (mask : A -> bool) (key : A -> string)
    (rows : list A) :
  rows_of
    (let df := read_csv rows in
     if Pandas.empty df then []
     else
       let selected := select mask df in
       if negb (Pandas.empty selected) then sort_values_desc key selected
       else selected)
  = rows_of (sort_values_desc key (read_csv (List.filter mask rows))).
Proof.
  cbv zeta. unfold read_csv.
  destruct rows as [| r rows]; [reflexivity |].
  replace (Pandas.empty (enumerate_from 0 (r :: rows))) with false by reflexivity.
  assert (E : rows_of (select mask (enumerate_from 0 (r :: rows)))
              = rows_of (enumerate_from 0 (List.filter mask (r :: rows))))
    by (rewrite rows_of_select, !rows_of_enumerate; reflexivity).
  destruct (select mask (enumerate_from 0 (r :: rows))) as [| p sel] eqn:S.
  - cbn [Pandas.empty negb]. 
    destruct (List.filter mask (r :: rows)); [reflexivity | discriminate E].
  - cbn [Pandas.empty negb]. apply sort_values_desc_rows, E.
Qed.

Lemma rows_of_load_expenses_data (user_id : Z) (file : expenses_file) :
  rows_of (load_expenses_data user_id file)
  = rows_of (sort_values_desc Expense.date (read_csv (own_expenses user_id file))).
Proof.
  unfold load_expenses_data, own_expenses.
  destruct file as [rows |]; [| reflexivity].
  apply (rows_of_query (fun r => Z.eqb (Expense.user_id r) user_id)).
Qed.

Lemma rows_of_load_backlog_data (user_id : Z) (file : backlog_file) :
  rows_of (load_backlog_data user_id file)
  = rows_of (sort_values_desc Task.created_at (read_csv (own_tasks user_id file))).
Proof.
  unfold load_backlog_data, own_tasks.
  destruct file as [rows |]; [| reflexivity].
  apply (rows_of_query (fun r => Z.eqb (Task.user_id r) user_id)).
Qed.

Lemma filter_delete_rejected {A : Type} (f : A -> bool) (rows : list A) (p : nat)
    (x : A) :
  rows !! p = Some x -> f x = false ->
  List.filter f (delete p rows) = List.filter f rows.
Proof.
  revert p. induction rows as [| y rows IH]; intros [| p] H Fx; try discriminate H.
  - injection H as ->. cbn [List.filter]. rewrite Fx. reflexivity.
  - change (delete (S p) (y :: rows)) with (y :: delete p rows).
    cbn [List.filter]. rewrite (IH p H Fx). reflexivity.
Qed.

Lemma filter_insert_rejected {A : Type} (f : A -> bool) (rows : list A) (p : nat)
    (x y : A) :
  rows !! p = Some x -> f x = false -> f y = false ->
  List.filter f (<[p := y]> rows) = List.filter f rows.
Proof.
  revert p. induction rows as [| z rows IH]; intros [| p] H Fx Fy; try discriminate H.
  - injection H as ->. cbn [List.filter]. 
    change (<[0%nat := y]> (x :: rows)) with (y :: rows).
    cbn [List.filter]. rewrite Fx, Fy. reflexivity.
  - change (<[S p := y]> (z :: rows)) with (z :: <[p := y]> rows).
    cbn [List.filter]. rewrite (IH p H Fx Fy). reflexivity.
Qed.

Lemma own_expenses_after_save (uid : Z) (data : Expense.row) (file : expenses_file) :
  own_expenses uid (snd (save_expense data file))
  = own_expenses uid file
    ++ (if Z.eqb (Expense.user_id data) uid
        then [Expense.set_expense_id (Z.of_nat (length (data_rows file)) + 1) data]
        else []).
Proof.
  rewrite save_expense_appends. unfold own_expenses. cbn [snd data_rows].
  rewrite List.filter_app. cbn [List.filter Expense.set_expense_id Expense.user_id].
  destruct (Z.eqb _ _); reflexivity.
Qed.

Lemma own_tasks_after_save (uid : Z) (data : Task.row) (file : backlog_file) :
  own_tasks uid (snd (save_backlog_item data file))
  = own_tasks uid file
    ++ (if Z.eqb (Task.user_id data) uid
        then [Task.set_task_id (Z.of_nat (length (data_rows file)) + 1) data]
        else []).
Proof.
  rewrite save_backlog_item_appends. unfold own_tasks. cbn [snd data_rows].
  rewrite List.filter_app. cbn [List.filter Task.set_task_id Task.user_id].
  destruct (Z.eqb _ _); reflexivity.
Qed.

Lemma own_expenses_after_delete (uid other index : Z) (file : expenses_file) :
  other <> uid ->
  own_expenses uid (snd (delete_expense index other file)) = own_expenses uid file.
Proof.
  intros N.
  destruct (target file index) as [r |] eqn:T.
  - destruct (Z.eq_dec (Expense.user_id r) other) as [E | D].
    + rewrite (delete_expense_owned _ _ _ _ T E). cbn [snd]. unfold own_expenses.
      cbn [data_rows].
      apply target_Some in T as (_ & rows & -> & H). cbn [data_rows].
      apply (filter_delete_rejected _ _ _ r H). apply Z.eqb_neq. congruence.
    + rewrite delete_expense_refused; [reflexivity |]. rewrite T. cbn. congruence.
  - rewrite delete_expense_refused; [reflexivity |]. rewrite T. discriminate.
Qed.

Lemma own_tasks_after_delete (uid other index : Z) (file : backlog_file) :
  other <> uid ->
  own_tasks uid (snd (delete_backlog_item index other file)) = own_tasks uid file.
Proof.
  intros N.
  destruct (target file index) as [r |] eqn:T.
  - destruct (Z.eq_dec (Task.user_id r) other) as [E | D].
    + rewrite (delete_backlog_item_owned _ _ _ _ T E). cbn [snd]. unfold own_tasks.
      cbn [data_rows].
      apply target_Some in T as (_ & rows & -> & H). cbn [data_rows].
      apply (filter_delete_rejected _ _ _ r H). apply Z.eqb_neq. congruence.
    + rewrite delete_backlog_item_refused; [reflexivity |]. rewrite T. cbn. congruence.
  - rewrite delete_backlog_item_refused; [reflexivity |]. rewrite T. discriminate.
Qed.

Lemma own_tasks_after_update (uid other index : Z) (new_status now : string)
    (file : backlog_file) :
  other <> uid ->
  own_tasks uid (snd (update_backlog_status index other new_status now file))
  = own_tasks uid file.
Proof.
  intros N.
  destruct (target file index) as [r |] eqn:T.
  - destruct (Z.eq_dec (Task.user_id r) other) as [E | D].
    + rewrite (update_backlog_status_owned _ _ _ _ _ _ T E). cbn [snd].
      unfold own_tasks. cbn [data_rows].
      apply target_Some in T as (_ & rows & -> & H). cbn [data_rows].
      apply (filter_insert_rejected _ _ _ r _ H); apply Z.eqb_neq;
        cbn [Task.set_updated_at Task.set_status Task.user_id]; congruence.
    + rewrite update_backlog_status_refused; [reflexivity |]. rewrite T. cbn.
      congruence.
  - rewrite update_backlog_status_refused; [reflexivity |]. rewrite T. discriminate.
Qed.

End QueryRows.

Section QueryClaims.
Import Pandas DataUtils Spec StoreSpec.

(** X9.  A call made for another user never changes the rows a query
    returns: after [save_expense] of another user's expense, after
    [delete_expense], [update_backlog_status] or [delete_backlog_item]
    called with another user id, and after [save_backlog_item] of another
    user's task, [load_expenses_data] and [load_backlog_data] return the
    same rows in the same order as before (their labels may differ). *)
Theorem calls_for_another_user_keep_query_rows
    (expenses : expenses_file) (backlog : backlog_file) (uid other index : Z)
    (expense_data : Expense.row) (task_data : Task.row) (new_status now : string)
    (Hother : other <> uid)
    (Hexpense : Expense.user_id expense_data = other)
    (Htask : Task.user_id task_data = other) :
  rows_of (load_expenses_data uid (snd (save_expense expense_data expenses)))
  = rows_of (load_expenses_data uid expenses)
  /\ rows_of (load_expenses_data uid (snd (delete_expense index other expenses)))
     = rows_of (load_expenses_data uid expenses)
  /\ rows_of (load_backlog_data uid (snd (save_backlog_item task_data backlog)))
     = rows_of (load_backlog_data uid backlog)
  /\ rows_of (load_backlog_data uid
                (snd (update_backlog_status index other new_status now backlog)))
     = rows_of (load_backlog_data uid backlog)
  /\ rows_of (load_backlog_data uid (snd (delete_backlog_item index other backlog)))
     = rows_of (load_backlog_data uid backlog).
Proof.
  rewrite !rows_of_load_expenses_data, !rows_of_load_backlog_data.
  rewrite own_expenses_after_save, own_tasks_after_save.
  rewrite (own_expenses_after_delete _ _ _ _ Hother).
  rewrite (own_tasks_after_update _ _ _ _ _ _ Hother).
  rewrite (own_tasks_after_delete _ _ _ _ Hother).
  rewrite Hexpense, Htask.
  destruct (Z.eqb_spec other uid) as [E | _]; [contradiction |].
  rewrite !app_nil_r. repeat split.
Qed.

Lemma calls_for_another_user_keep_query_rows_witness :
  rows_of (load_expenses_data 7
             (snd (delete_expense 0 8
                     (Some [Sample.stored_expense 1 8 "tea";
                            Sample.stored_expense 2 7 "milk"]))))
  = rows_of (load_expenses_data 7
               (Some [Sample.stored_expense 1 8 "tea";
                      Sample.stored_expense 2 7 "milk"])).
Proof.
  apply (calls_for_another_user_keep_query_rows
           (Some [Sample.stored_expense 1 8 "tea"; Sample.stored_expense 2 7 "milk"])
           None 7 8 0 (Sample.expense 8 "jam") (Sample.task 0 8 "Pending")
           "Completed" "2024-03-05 09:00:00");
    [discriminate | reflexivity | reflexivity].
Defined.

Lemma NoDup_labels_enumerate {A : Type} (rows : list A) : forall start,
  NoDup (fst <$> enumerate_from start rows).
Proof.
  induction rows as [| r rows IH]; intros s; cbn [enumerate_from fmap list_fmap].
  - constructor.
  - constructor; [| apply IH].
    intros H. apply list_elem_of_fmap in H as ([i x] & E & Hp). cbn [fst] in E.
    subst i. apply list_elem_of_In, in_enumerate in Hp as [L _]. lia.
Qed.

Lemma NoDup_labels_select {A : Type} (mask : A -> bool) (df : DataFrame A) :
  NoDup (fst <$> df) -> NoDup (fst <$> select mask df).
Proof.
  unfold select. induction df as [| p df IH]; intros ND; [constructor |].
  cbn [fmap list_fmap] in ND. apply NoDup_cons in ND as [Hp ND].
  cbn [List.filter]. destruct (mask (snd p)); [| apply IH, ND].
  cbn [fmap list_fmap]. constructor; [| apply IH, ND].
  intros H. apply Hp. apply list_elem_of_fmap in H as (q & E & Hq).
  apply list_elem_of_fmap. exists q. split; [exact E |].
  apply list_elem_of_In. apply list_elem_of_In, filter_In in Hq. tauto.
Qed.

Lemma query_sorted {A : Type} (mask : A -> bool) (key : A -> string)
    (rows : list A) :
  let result :=
    (let df := read_csv rows in
     if Pandas.empty df then []
     else
       let selected := select mask df in
       if negb (Pandas.empty selected) then sort_values_desc key selected
       else selected) in
  Sorted (newest_first key) result
  /\ NoDup (fst <$> result)
  /\ Permutation (rows_of result) (List.filter mask rows).
Proof.
  cbv zeta. unfold read_csv.
  destruct (Pandas.empty (enumerate_from 0 rows)) eqn:E.
  - apply empty_enumerate in E. subst rows. repeat split; constructor.
  - assert (P : Permutation (rows_of (select mask (enumerate_from 0 rows)))
                  (List.filter mask rows))
      by (rewrite rows_of_select, rows_of_enumerate; reflexivity).
    assert (N : NoDup (fst <$> select mask (enumerate_from 0 rows)))
      by apply NoDup_labels_select, NoDup_labels_enumerate.
    destruct (select mask (enumerate_from 0 rows)) as [| p sel] eqn:S.
    + cbn [Pandas.empty negb]. repeat split; [constructor | constructor | exact P].
    + cbn [Pandas.empty negb]. split; [apply sort_values_desc_sorted |].
      pose proof (sort_values_desc_permutation key (p :: sel)) as Q.
      split.
      * rewrite Q. exact N.
      * unfold rows_of in *. rewrite Q. exact P.
Qed.

(** X10.  A query returns the caller's rows of the file, each once under
    its position in the file, ordered by decreasing key: expenses by
    [date], tasks by [created_at]. *)
Theorem queries_list_own_rows_newest_first
    (expenses : expenses_file) (backlog : backlog_file) (uid : Z) :
  (Sorted (newest_first Expense.date) (load_expenses_data uid expenses)
   /\ NoDup (fst <$> load_expenses_data uid expenses)
   /\ Permutation (rows_of (load_expenses_data uid expenses))
        (own_expenses uid expenses)
   /\ forall i x, In (i, x) (load_expenses_data uid expenses) ->
                  target expenses i = Some x)
  /\ (Sorted (newest_first Task.created_at) (load_backlog_data uid backlog)
      /\ NoDup (fst <$> load_backlog_data uid backlog)
      /\ Permutation (rows_of (load_backlog_data uid backlog))
           (own_tasks uid backlog)
      /\ forall i x, In (i, x) (load_backlog_data uid backlog) ->
                     target backlog i = Some x).
Proof.
  split.
  - assert (T : forall i x, In (i, x) (load_expenses_data uid expenses) ->
                            target expenses i = Some x)
      by (intros i x H; apply in_load_expenses_data in H; tauto).
    unfold load_expenses_data, own_expenses in *.
    destruct expenses as [rows |].
    + destruct (query_sorted (fun r => Z.eqb (Expense.user_id r) uid)
                  Expense.date rows) as (S & N & P).
      repeat split; assumption.
    + repeat split; try constructor; assumption.
  - assert (T : forall i x, In (i, x) (load_backlog_data uid backlog) ->
                            target backlog i = Some x)
      by (intros i x H; apply in_load_backlog_data in H; tauto).
    unfold load_backlog_data, own_tasks in *.
    destruct backlog as [rows |].
    + destruct (query_sorted (fun r => Z.eqb (Task.user_id r) uid)
                  Task.created_at rows) as (S & N & P).
      repeat split; assumption.
    + repeat split; try constructor; assumption.
Qed.


(** X12.  [delete_backlog_item] takes the position of a row in the file.
    When the row at that position belongs to the caller, the call
    succeeds and removes that row and no other; the query then returns
    the caller's rows at the other positions. *)
Theorem delete_backlog_item_removes_row_at_index
    (file : backlog_file) (index uid : Z) (r : Task.row)
    (Htarget : target file index = Some r) (Hown : Task.user_id r = uid) :
  let file' := Some (delete (Z.to_nat index) (data_rows file)) in
  In (index, r) (load_backlog_data uid file)
  /\ delete_backlog_item index uid file = (true, file')
  /\ length (data_rows file) = S (length (delete (Z.to_nat index) (data_rows file)))
  /\ (forall x,
        (exists i, In (i, x) (load_backlog_data uid file'))
        <-> (exists j, j <> Z.to_nat index
                       /\ data_rows file !! j = Some x /\ Task.user_id x = uid)).
Proof.
  intros file'. split; [| split; [| split]].
  - apply in_load_backlog_data. split; assumption.
  - apply delete_backlog_item_owned with (r := r); assumption.
  - apply target_Some in Htarget as (_ & rows & -> & H). cbn [data_rows].
    pose proof (lookup_lt_Some _ _ _ H) as B. rewrite length_delete by eauto. lia.
  - intros x. split.
    + intros [i H]. apply in_load_backlog_data in H as [T U].
      apply target_Some in T as (_ & rows' & [= <-] & H).
      destruct (proj1 (lookup_delete_other _ _ _) (ex_intro _ _ H)) as (j & N & Hj).
      eauto.
    + intros (j & N & Hj & U).
      destruct (proj2 (lookup_delete_other _ (Z.to_nat index) _)
                  (ex_intro _ j (conj N Hj))) as [k Hk].
      exists (Z.of_nat k). apply in_load_backlog_data. split; [| exact U].
      unfold target, file'. cbn [data_rows].
      destruct (Z.leb_spec 0 (Z.of_nat k)); [| lia]. rewrite Nat2Z.id. exact Hk.
Qed.

Lemma delete_backlog_item_removes_row_at_index_witness :
  delete_backlog_item 1 7 (Some [Sample.task 1 7 "Pending"; Sample.task 2 7 "Completed"])
  = (true, Some [Sample.task 1 7 "Pending"]).
Proof.
  apply (delete_backlog_item_removes_row_at_index
           (Some [Sample.task 1 7 "Pending"; Sample.task 2 7 "Completed"])
           1 7 (Sample.task 2 7 "Completed")); reflexivity.
Defined.

End QueryClaims.

Section Summaries.
Import Pandas DataUtils Storage Spec StoreSpec.

Lemma empty_rows_of {A : Type} (df df' : DataFrame A) :
  rows_of df = rows_of df' -> Pandas.empty df = Pandas.empty df'.
Proof. destruct df, df'; cbn; congruence. Qed.

Lemma len_rows_of {A : Type} (df : DataFrame A) :
  len df = Z.of_nat (length (rows_of df)).
Proof. unfold len, rows_of. rewrite length_fmap. reflexivity. Qed.

Lemma column_sum_rows_of {A : Type} (column : A -> Q) (df : DataFrame A) :
  column_sum column df
  = List.fold_left (fun total r => total + column r) (rows_of df) 0.
Proof.
  unfold column_sum, rows_of. generalize 0.
  induction df as [| p df IH]; intros q; cbn [List.fold_left fmap list_fmap];
    [reflexivity | apply IH].
Qed.

Lemma nunique_rows_of {A : Type} (column : A -> string) (df : DataFrame A) :
  nunique column df
  = Z.of_nat (length (List.nodup string_dec (List.map column (rows_of df)))).
Proof.
  unfold nunique, rows_of. do 3 f_equal.
  induction df as [| p df IH]; cbn [List.map fmap list_fmap]; [| rewrite IH];
    reflexivity.
Qed.

Lemma summary_of_rows (uid : Z) (e e' : expenses_file) (b b' : backlog_file) :
  rows_of (load_expenses_data uid e) = rows_of (load_expenses_data uid e') ->
  rows_of (load_backlog_data uid b) = rows_of (load_backlog_data uid b') ->
  get_user_summary uid e b = get_user_summary uid e' b'.
Proof.
  intros He Hb. unfold get_user_summary.
  rewrite (empty_rows_of _ _ He), (empty_rows_of _ _ Hb).
  rewrite !len_rows_of, !rows_of_select, !column_sum_rows_of, !nunique_rows_of.
  rewrite He, Hb. reflexivity.
Qed.

(** X13.  A call made for another user never changes a user's summary. *)
Theorem calls_for_another_user_keep_summary
    (expenses : expenses_file) (backlog : backlog_file) (uid other index : Z)
    (expense_data : Expense.row) (task_data : Task.row) (new_status now : string)
    (Hother : other <> uid)
    (Hexpense : Expense.user_id expense_data = other)
    (Htask : Task.user_id task_data = other) :
  let summary := get_user_summary uid expenses backlog in
  get_user_summary uid (snd (save_expense expense_data expenses)) backlog = summary
  /\ get_user_summary uid (snd (delete_expense index other expenses)) backlog = summary
  /\ get_user_summary uid expenses (snd (save_backlog_item task_data backlog)) = summary
  /\ get_user_summary uid expenses
       (snd (update_backlog_status index other new_status now backlog)) = summary
  /\ get_user_summary uid expenses (snd (delete_backlog_item index other backlog))
     = summary.
Proof.
  assert (Ne : Z.eqb other uid = false) by (apply Z.eqb_neq; exact Hother).
  cbv zeta. repeat split; apply summary_of_rows; try reflexivity;
    rewrite !rows_of_load_expenses_data || rewrite !rows_of_load_backlog_data.
  - rewrite own_expenses_after_save, Hexpense, Ne, app_nil_r. reflexivity.
  - rewrite (own_expenses_after_delete _ _ _ _ Hother). reflexivity.
  - rewrite own_tasks_after_save, Htask, Ne, app_nil_r. reflexivity.
  - rewrite (own_tasks_after_update _ _ _ _ _ _ Hother). reflexivity.
  - rewrite (own_tasks_after_delete _ _ _ _ Hother). reflexivity.
Qed.

Lemma calls_for_another_user_keep_summary_witness :
  get_user_summary 7
    (snd (save_expense (Sample.expense 8 "jam")
            (Some [Sample.stored_expense 1 7 "milk"]))) None
  = get_user_summary 7 (Some [Sample.stored_expense 1 7 "milk"]) None.
Proof.
  apply (calls_for_another_user_keep_summary
           (Some [Sample.stored_expense 1 7 "milk"]) None 7 8 0
           (Sample.expense 8 "jam") (Sample.task 0 8 "Pending")
           "Completed" "2024-03-05 09:00:00");
    [discriminate | reflexivity | reflexivity].
Defined.

End Summaries.

Section SummaryCounts.
Import Pandas DataUtils Storage Spec StoreSpec.

Lemma load_expenses_data_permutation (uid : Z) (file : expenses_file) :
  Permutation (rows_of (load_expenses_data uid file)) (own_expenses uid file).
Proof.
  unfold load_expenses_data, own_expenses. destruct file as [rows |]; [| reflexivity].
  apply (query_sorted (fun r => Z.eqb (Expense.user_id r) uid) Expense.date rows).
Qed.

Lemma load_backlog_data_permutation (uid : Z) (file : backlog_file) :
  Permutation (rows_of (load_backlog_data uid file)) (own_tasks uid file).
Proof.
  unfold load_backlog_data, own_tasks. destruct file as [rows |]; [| reflexivity].
  apply (query_sorted (fun r => Z.eqb (Task.user_id r) uid) Task.created_at rows).
Qed.

Lemma fold_left_total {A : Type} (f : A -> Q) (l : list A) : forall q,
  List.fold_left (fun t r => t + f r) l q == q + total (f <$> l).
Proof.
  induction l as [| x l IH]; intros q; cbn [List.fold_left fmap list_fmap total fold_right].
  - ring.
  - rewrite IH. unfold total. ring.
Qed.

Lemma total_permutation (l l' : list Q) :
  Permutation l l' -> total l == total l'.
Proof.
  induction 1 as [| x l l' _ IH | x y l | l l' l'' _ IH1 _ IH2];
    cbn [total fold_right] in *.
  - reflexivity.
  - rewrite IH. reflexivity.
  - ring.
  - rewrite IH1. exact IH2.
Qed.

Lemma filter_length_permutation {A : Type} (f : A -> bool) (l l' : list A) :
  Permutation l l' -> length (List.filter f l) = length (List.filter f l').
Proof.
  induction 1 as [| x l l' _ IH | x y l | l l' l'' _ IH1 _ IH2]; cbn [List.filter].
  - reflexivity.
  - destruct (f x); cbn [length]; congruence.
  - destruct (f x), (f y); reflexivity.
  - congruence.
Qed.

Lemma filter_disjoint_length {A : Type} (f g : A -> bool) (l : list A) :
  (forall x, f x = true -> g x = false) ->
  (length (List.filter f l) + length (List.filter g l) <= length l)%nat.
Proof.
  intros D. induction l as [| x l IH]; cbn [List.filter length]; [lia |].
  destruct (f x) eqn:F; [rewrite (D x F) |]; [cbn [length]; lia |].
  destruct (g x); cbn [length]; lia.
Qed.

Lemma nodup_length_le (l : list string) :
  (length (List.nodup string_dec l) <= length l)%nat.
Proof.
  induction l as [| x l IH]; cbn [List.nodup length]; [lia |].
  destruct (in_dec string_dec x l); cbn [length]; lia.
Qed.

Lemma summary_expenses (uid : Z) (expenses : expenses_file) (backlog : backlog_file) :
  Summary.total_expenses (get_user_summary uid expenses backlog)
  == total (Expense.amount <$> own_expenses uid expenses)
  /\ Summary.total_transactions (get_user_summary uid expenses backlog)
     = Z.of_nat (length (own_expenses uid expenses)).
Proof.
  pose proof (load_expenses_data_permutation uid expenses) as P.
  cbn [get_user_summary Summary.total_expenses Summary.total_transactions].
  split.
  - destruct (load_expenses_data uid expenses) as [| p df] eqn:L.
    + cbn [Pandas.empty negb]. apply Permutation_nil in P. rewrite P. reflexivity.
    + cbn [Pandas.empty negb]. rewrite column_sum_rows_of, fold_left_total.
      rewrite (total_permutation _ _ (fmap_Permutation Expense.amount _ _ P)). ring.
  - rewrite len_rows_of. f_equal. apply Permutation_length, P.
Qed.

(** X14.  The summary of a user counts that user's rows of the two files:
    the number of transactions and the total of their amounts, the
    number of tasks, and among these the tasks whose status is "Pending"
    and "Completed"; pending and completed tasks together are at most
    the tasks, and the categories used are at most the transactions. *)
Theorem get_user_summary_counts_own_rows
    (expenses : expenses_file) (backlog : backlog_file) (uid : Z) :
  let s := get_user_summary uid expenses backlog in
  Summary.total_expenses s == total (Expense.amount <$> own_expenses uid expenses)
  /\ Summary.total_transactions s = Z.of_nat (length (own_expenses uid expenses))
  /\ Summary.total_tasks s = Z.of_nat (length (own_tasks uid backlog))
  /\ Summary.pending_tasks s
     = Z.of_nat (length (List.filter (fun t => String.eqb (Task.status t) "Pending")
                           (own_tasks uid backlog)))
  /\ Summary.completed_tasks s
     = Z.of_nat (length (List.filter (fun t => String.eqb (Task.status t) "Completed")
                           (own_tasks uid backlog)))
  /\ (Summary.pending_tasks s + Summary.completed_tasks s <= Summary.total_tasks s)%Z
  /\ (0 <= Summary.categories_used s <= Summary.total_transactions s)%Z.
Proof.
  intros s. subst s.
  destruct (summary_expenses uid expenses backlog) as [E1 E2].
  pose proof (load_backlog_data_permutation uid backlog) as P.
  assert (T : Summary.total_tasks (get_user_summary uid expenses backlog)
              = Z.of_nat (length (own_tasks uid backlog))).
  { cbn [get_user_summary Summary.total_tasks]. rewrite len_rows_of. f_equal.
    apply Permutation_length, P. }
  assert (C : forall mask,
             (if negb (Pandas.empty (load_backlog_data uid backlog))
              then len (select mask (load_backlog_data uid backlog))
              else 0%Z)
             = Z.of_nat (length (List.filter mask (own_tasks uid backlog)))).
  { intros mask.
    rewrite <- (filter_length_permutation mask _ _ P), <- rows_of_select, <- len_rows_of.
    destruct (load_backlog_data uid backlog); reflexivity. }
  assert (Pn : Summary.pending_tasks (get_user_summary uid expenses backlog)
               = Z.of_nat (length (List.filter
                                     (fun t => String.eqb (Task.status t) "Pending")
                                     (own_tasks uid backlog)))) by apply C.
  assert (Cn : Summary.completed_tasks (get_user_summary uid expenses backlog)
               = Z.of_nat (length (List.filter
                                     (fun t => String.eqb (Task.status t) "Completed")
                                     (own_tasks uid backlog)))) by apply C.
  split; [exact E1 |]. split; [exact E2 |]. split; [exact T |].
  split; [exact Pn |]. split; [exact Cn |]. split.
  - rewrite Pn, Cn, T.
    pose proof (filter_disjoint_length
                  (fun t => String.eqb (Task.status t) "Pending")
                  (fun t => String.eqb (Task.status t) "Completed")
                  (own_tasks uid backlog)) as D.
    assert (forall x : Task.row,
               String.eqb (Task.status x) "Pending" = true ->
               String.eqb (Task.status x) "Completed" = false) as Hd.
    { intros x Hx. apply String.eqb_eq in Hx. rewrite Hx. reflexivity. }
    specialize (D Hd). lia.
  - cbn [get_user_summary Summary.categories_used Summary.total_transactions].
    destruct (load_expenses_data uid expenses) as [| p df];
      [unfold len; cbn; lia |].
    cbn [Pandas.empty negb]. unfold nunique, len.
    pose proof (nodup_length_le
                  (List.map (fun q : Z * Expense.row => Expense.category (snd q))
                     (p :: df))) as B.
    rewrite length_map in B. lia.
Qed.

(** X15.  Saving an expense for a user adds one transaction and the
    amount of the expense to that user's summary and leaves the task
    counts of the summary as they were. *)
Theorem saved_expense_enters_summary
    (expenses : expenses_file) (backlog : backlog_file) (expense_data : Expense.row) :
  let uid := Expense.user_id expense_data in
  let before := get_user_summary uid expenses backlog in
  let after := get_user_summary uid (snd (save_expense expense_data expenses)) backlog in
  Summary.total_transactions after = (Summary.total_transactions before + 1)%Z
  /\ Summary.total_expenses after
     == Summary.total_expenses before + Expense.amount expense_data
  /\ Summary.total_tasks after = Summary.total_tasks before
  /\ Summary.pending_tasks after = Summary.pending_tasks before
  /\ Summary.completed_tasks after = Summary.completed_tasks before.
Proof.
  cbv zeta.
  destruct (summary_expenses (Expense.user_id expense_data) expenses backlog)
    as [E1 E2].
  destruct (summary_expenses (Expense.user_id expense_data)
              (snd (save_expense expense_data expenses)) backlog) as [F1 F2].
  rewrite own_expenses_after_save, Z.eqb_refl in F1, F2.
  split; [| split; [| repeat split]].
  - rewrite F2, E2, length_app. cbn [length]. lia.
  - rewrite F1, E1, fmap_app. cbn [fmap list_fmap Expense.set_expense_id Expense.amount].
    unfold total. rewrite fold_right_app. cbn [fold_right].
    generalize (Expense.amount <$> own_expenses (Expense.user_id expense_data) expenses).
    intros l. induction l as [| x l IH]; cbn [fold_right]; [ring | rewrite IH; ring].
Qed.

End SummaryCounts.

Section Initialization.
Import Pandas DataUtils AuthUtils Storage Spec StoreSpec.

(** X16.  [initialize_data_files] makes the directory when it is
    missing, creates the files that are missing, without rows, and
    leaves the others as they are; running it again changes nothing.  It
    changes no answer of a query or of the summary.  Where the directory
    was there, an insert and a registration have the same outcome with
    and without it; where the directory was missing, they fail without
    it (nothing is written and False is returned) and succeed after it,
    a registration unless its full name is [None]. *)
Theorem initialize_data_files_outcome
    (disk : Disk.t) (uid : Z) (expense_data : Expense.row) (task_data : Task.row)
    (hash_password : string -> string) (now : string) (user_data : UserData.t) :
  let before := Disk.files_of disk in
  let disk' := Disk.initialize_data_files disk in
  let after := Disk.files_of disk' in
  Disk.initialize_data_files disk' = disk'
  /\ disk' = Disk.Directory after
  /\ (users_csv after <> None /\ expenses_csv after <> None /\ backlog_csv after <> None)
  /\ (data_rows (users_csv after) = data_rows (users_csv before)
      /\ data_rows (expenses_csv after) = data_rows (expenses_csv before)
      /\ data_rows (backlog_csv after) = data_rows (backlog_csv before))
  /\ load_expenses_data uid (expenses_csv after)
     = load_expenses_data uid (expenses_csv before)
  /\ load_backlog_data uid (backlog_csv after) = load_backlog_data uid (backlog_csv before)
  /\ get_user_summary uid (expenses_csv after) (backlog_csv after)
     = get_user_summary uid (expenses_csv before) (backlog_csv before)
  /\ (disk <> Disk.NoDirectory ->
      fst (Disk.save_expense expense_data disk')
      = fst (Disk.save_expense expense_data disk)
      /\ data_rows (expenses_csv (Disk.files_of (snd (Disk.save_expense expense_data disk'))))
         = data_rows (expenses_csv (Disk.files_of (snd (Disk.save_expense expense_data disk))))
      /\ fst (Disk.save_backlog_item task_data disk')
         = fst (Disk.save_backlog_item task_data disk)
      /\ data_rows (backlog_csv (Disk.files_of (snd (Disk.save_backlog_item task_data disk'))))
         = data_rows (backlog_csv (Disk.files_of (snd (Disk.save_backlog_item task_data disk))))
      /\ fst (Disk.register_user hash_password now user_data disk')
         = fst (Disk.register_user hash_password now user_data disk)
      /\ data_rows (users_csv (Disk.files_of
                                 (snd (Disk.register_user hash_password now user_data disk'))))
         = data_rows (users_csv (Disk.files_of
                                   (snd (Disk.register_user hash_password now user_data disk)))))
  /\ (disk = Disk.NoDirectory ->
      Disk.save_expense expense_data disk = (false, disk)
      /\ Disk.save_backlog_item task_data disk = (false, disk)
      /\ Disk.register_user hash_password now user_data disk = (false, disk)
      /\ fst (Disk.save_expense expense_data disk') = true
      /\ fst (Disk.save_backlog_item task_data disk') = true
      /\ (UserData.full_name user_data <> Some None ->
          fst (Disk.register_user hash_password now user_data disk') = true)).
Proof.
  destruct disk as [| [[u |] [e |] [b |]]]; cbv zeta;
    cbn [Disk.initialize_data_files Disk.files_of create_if_missing
         users_csv expenses_csv backlog_csv];
    (split; [reflexivity |]); (split; [reflexivity |]);
    (split; [repeat split; discriminate |]);
    (split; [repeat split |]); (split; [reflexivity |]); (split; [reflexivity |]);
    (split; [reflexivity |]);
    (split; [intros D | intros D; try discriminate D]);
    try (exfalso; apply D; reflexivity);
    cbn [Disk.initialize_data_files create_if_missing
         Disk.save_expense Disk.save_backlog_item Disk.register_user
         DataUtils.save_expense DataUtils.save_backlog_item fst snd Disk.files_of
         users_csv expenses_csv backlog_csv];
    repeat split; try intros N;
    unfold register_user; cbn [read_csv enumerate_from Pandas.empty negb andb];
    destruct (UserData.full_name user_data) as [[s |] |];
    try reflexivity; contradiction.
Qed.

Lemma initialize_data_files_outcome_witness :
  Disk.save_expense (Sample.expense 7 "Lunch") Disk.NoDirectory
  = (false, Disk.NoDirectory)
  /\ fst (Disk.save_expense (Sample.expense 7 "Lunch")
            (Disk.initialize_data_files Disk.NoDirectory)) = true.
Proof.
  destruct (initialize_data_files_outcome Disk.NoDirectory 7
              (Sample.expense 7 "Lunch") (Sample.task 0 7 "Pending") Sample.digest
              "2024-03-01 10:00:00" (Sample.request "bob" "bob@example.org" "hunter2"))
    as (_ & _ & _ & _ & _ & _ & _ & _ & H).
  destruct (H eq_refl) as (A & _ & _ & B & _). split; [exact A | exact B].
Defined.

End Initialization.

(** ** Planning calculators *)

Section PlanningLemmas.
Import Py Calculations Planning Spec.

Lemma compound_interest_value (principal contribution annual_return : Q) (years : Z) :
  (0 <= years)%Z ->
  calculate_compound_interest principal contribution annual_return years
  = Returns
      (round (simulate (Z.to_nat (12 * years)) (annual_return / 1200) contribution
                principal) 2,
       round (principal + 12 * inject_Z years * contribution) 2,
       round (simulate (Z.to_nat (12 * years)) (annual_return / 1200) contribution
                principal
              - (principal + 12 * inject_Z years * contribution)) 2).
Proof.
  intros Hy. unfold calculate_compound_interest, try_except, range_len.
  pose proof (compound_loop_amount (Z.to_nat (years * 12)) (annual_return / (12 * 100))
                contribution principal principal) as Ha.
  pose proof (compound_loop_invested (Z.to_nat (years * 12))
                (annual_return / (12 * 100)) contribution principal principal) as Hi.
  destruct (compound_loop _ _ _ _) as [a i]. cbn [fst snd] in Ha, Hi.
  rewrite Z2Nat.id in Hi by lia.
  assert (Ei : i == principal + 12 * inject_Z years * contribution).
  { rewrite Hi, inject_Z_mult. change (inject_Z 12) with 12. ring. }
  assert (Ea : a = simulate (Z.to_nat (12 * years)) (annual_return / 1200)
                 contribution principal).
  { rewrite Ha, (Z.mul_comm years 12). reflexivity. }
  rewrite (round_comp i _ Ei).
  rewrite (round_comp (a - i) _ ltac:(rewrite Ea, Ei; reflexivity)).
  rewrite Ea. reflexivity.
Qed.

Lemma simulate_succ (n : nat) (m c p : Q) :
  simulate (S n) m c p = simulate n m c p * (1 + m) + c.
Proof. reflexivity. Qed.

Lemma Qpower_succ_nat (g : Q) (n : nat) :
  ~ g == 0 -> g ^ Z.of_nat (S n) == g ^ Z.of_nat n * g.
Proof.
  intros Hg. rewrite Nat2Z.inj_succ, <- Z.add_1_r, Qpower_plus by exact Hg.
  reflexivity.
Qed.

(** The simulation in closed form, cleared of the division by the rate. *)
Lemma simulate_closed (n : nat) (m c p : Q) :
  ~ 1 + m == 0 ->
  simulate n m c p * m
  == p * (1 + m) ^ Z.of_nat n * m + c * ((1 + m) ^ Z.of_nat n - 1).
Proof.
  intros Hg. induction n as [| n IH].
  - change (simulate 0 m c p) with p. change ((1 + m) ^ Z.of_nat 0) with 1. ring.
  - rewrite simulate_succ, (Qpower_succ_nat _ _ Hg).
    set (s := simulate n m c p) in *. set (g := (1 + m) ^ Z.of_nat n) in *.
    transitivity (s * m * (1 + m) + c * m); [ring |].
    rewrite IH. ring.
Qed.

Lemma simulate_zero_rate (n : nat) (m c p : Q) :
  m == 0 -> simulate n m c p == p + inject_Z (Z.of_nat n) * c.
Proof.
  intros Hm. induction n as [| n IH].
  - change (simulate 0 m c p) with p. change (inject_Z (Z.of_nat 0)) with 0. ring.
  - rewrite simulate_succ.
    set (s := simulate n m c p) in *.
    rewrite Nat2Z.inj_succ, <- Z.add_1_r, inject_Z_plus.
    change (inject_Z 1) with 1.
    transitivity (s + s * m + c); [ring |].
    rewrite Hm, IH. ring.
Qed.

End PlanningLemmas.

Section PlanningClaims.
Import Py Calculations Planning Spec.

Lemma calculate_emi_zero_tenure (principal annual_rate : Q) :
  calculate_emi principal annual_rate 0
  = Raises (ValueError "Error calculating EMI: " ZeroDivisionError).
Proof.
  unfold calculate_emi.
  destruct (Qeq_bool (annual_rate / (12 * 100)) 0); [reflexivity |].
  unfold pow. rewrite andb_false_r. reflexivity.
Qed.

Lemma calculate_emi_returns (principal annual_rate : Q) (tenure_years : Z) :
  0 <= annual_rate -> tenure_years <> 0%Z ->
  exists emi total_payment total_interest,
    calculate_emi principal annual_rate tenure_years
    = Returns (emi, total_payment, total_interest).
Proof.
  intros Hr Hn. unfold calculate_emi.
  destruct (Qeq_bool (annual_rate / (12 * 100)) 0) eqn:Z0.
  - unfold div.
    destruct (Qeq_bool (inject_Z (tenure_years * 12)) 0) eqn:D.
    + apply Qeq_bool_eq in D. unfold Qeq in D. cbn [inject_Z Qnum Qden] in D. lia.
    + cbn. do 3 eexists. reflexivity.
  - pose proof (monthly_rate_zero annual_rate Hr Z0) as G.
    unfold pow.
    destruct (Qeq_bool (1 + annual_rate / (12 * 100)) 0) eqn:B.
    + apply Qeq_bool_eq in B. lra.
    + cbn [andb bind]. unfold div.
      destruct (Qeq_bool ((1 + annual_rate / (12 * 100)) ^ (tenure_years * 12) - 1) 0)
        eqn:D.
      * apply Qeq_bool_eq in D.
        exfalso. revert D. apply growth_factor_not_1; [exact G | lia].
      * cbn. do 3 eexists. reflexivity.
Qed.

(** X17.  [calculate_retirement_savings] raises, with the message
    "Retirement age must be greater than current age" inside the
    ValueError of its handler, when the retirement age is not greater
    than the current age.  Otherwise it returns the month-by-month
    projection of [calculate_compound_interest] over the years between
    the two ages, and as monthly withdrawal 4% of the rounded final
    amount divided by 12, rounded to two decimals. *)
Theorem calculate_retirement_savings_projection
    (current_age retirement_age : Z) (savings contribution annual_return : Q) :
  ((retirement_age <= current_age)%Z ->
   calculate_retirement_savings current_age retirement_age savings contribution
     annual_return
   = Failed (Rewrapped "Error calculating retirement savings: "
               (Invalid "Retirement age must be greater than current age")))
  /\ ((current_age < retirement_age)%Z ->
      let years := (retirement_age - current_age)%Z in
      let final :=
        round (simulate (Z.to_nat (12 * years)) (annual_return / 1200) contribution
                 savings) 2 in
      let invested := savings + 12 * inject_Z years * contribution in
      calculate_retirement_savings current_age retirement_age savings contribution
        annual_return
      = Fine {| Retirement.years_to_retirement := years;
                Retirement.final_amount := final;
                Retirement.total_invested := round invested 2;
                Retirement.total_returns :=
                  round (simulate (Z.to_nat (12 * years)) (annual_return / 1200)
                           contribution savings - invested) 2;
                Retirement.monthly_withdrawal := round (final * 0.04 / 12) 2 |}).
Proof.
  split.
  - intros H. unfold calculate_retirement_savings.
    destruct (Z.leb_spec (retirement_age - current_age) 0); [reflexivity | lia].
  - intros H. cbv zeta. unfold calculate_retirement_savings.
    destruct (Z.leb_spec (retirement_age - current_age) 0); [lia |].
    rewrite compound_interest_value by lia. reflexivity.
Qed.

(** X18.  [calculate_mortgage_payment] raises, inside the ValueError of
    its handler: with its own message when the down payment is not below
    the home price; with the error of [calculate_emi] when the term is 0
    years; and with the division by zero of the down payment percentage
    when the home price is 0.  For a down payment below a home price
    other than 0 and a term other than 0 it returns the payment, total
    and interest that [calculate_emi] returns for the loan amount home
    price - down payment.  The last two are stated for amounts up to
    10^12, a rate that is 0 or between 10^-6 and 1200 percent and a term
    of at most 80 years. *)
Theorem calculate_mortgage_payment_outcome
    (home_price down_payment annual_rate : Q) (loan_term_years : Z) :
  (home_price <= down_payment ->
   calculate_mortgage_payment home_price down_payment annual_rate loan_term_years
   = Failed (Rewrapped "Error calculating mortgage payment: "
               (Invalid "Down payment cannot be greater than or equal to home price")))
  /\ (down_payment < home_price -> loan_term_years = 0%Z ->
      calculate_mortgage_payment home_price down_payment annual_rate loan_term_years
      = Failed (Rewrapped "Error calculating mortgage payment: "
                  (Raised (ValueError "Error calculating EMI: " ZeroDivisionError))))
  /\ (down_payment < home_price -> home_price == 0 ->
      Binary64.amount down_payment ->
      Binary64.rate annual_rate -> Binary64.years loan_term_years ->
      loan_term_years <> 0%Z ->
      calculate_mortgage_payment home_price down_payment annual_rate loan_term_years
      = Failed (Rewrapped "Error calculating mortgage payment: "
                  (Raised ZeroDivisionError)))
  /\ (down_payment < home_price -> ~ home_price == 0 ->
      Binary64.amount home_price -> Binary64.amount down_payment ->
      Binary64.rate annual_rate -> Binary64.years loan_term_years ->
      loan_term_years <> 0%Z ->
      exists monthly total interest,
        calculate_emi (home_price - down_payment) annual_rate loan_term_years
        = Returns (monthly, total, interest)
        /\ calculate_mortgage_payment home_price down_payment annual_rate
             loan_term_years
           = Fine {| Mortgage.home_price := round home_price 2;
                     Mortgage.down_payment := round down_payment 2;
                     Mortgage.down_payment_percentage :=
                       round (down_payment / home_price * 100) 1;
                     Mortgage.loan_amount := round (home_price - down_payment) 2;
                     Mortgage.monthly_payment := monthly;
                     Mortgage.total_payment := total;
                     Mortgage.total_interest := interest;
                     Mortgage.loan_term_years := loan_term_years |}).
Proof.
  assert (Guard : down_payment < home_price ->
                  Qle_bool (home_price - down_payment) 0 = false).
  { intros H. apply not_true_is_false. intros T. apply Qle_bool_iff in T. lra. }
  split; [| split; [| split]].
  - intros H. unfold calculate_mortgage_payment.
    assert (T : Qle_bool (home_price - down_payment) 0 = true)
      by (apply Qle_bool_iff; lra).
    rewrite T. reflexivity.
  - intros H ->. unfold calculate_mortgage_payment.
    rewrite (Guard H), calculate_emi_zero_tenure. reflexivity.
  - intros H Hz _ Hr%rate_nonneg _ Hn. unfold calculate_mortgage_payment.
    rewrite (Guard H).
    destruct (calculate_emi_returns (home_price - down_payment) annual_rate
                loan_term_years Hr Hn) as (m & t & i & ->).
    cbn [call]. unfold div. rewrite (Qeq_eq_bool _ _ Hz). reflexivity.
  - intros H Hz _ _ Hr%rate_nonneg _ Hn. unfold calculate_mortgage_payment.
    rewrite (Guard H).
    destruct (calculate_emi_returns (home_price - down_payment) annual_rate
                loan_term_years Hr Hn) as (m & t & i & E).
    exists m, t, i. split; [exact E |]. rewrite E. cbn [call]. unfold div.
    destruct (Qeq_bool home_price 0) eqn:B;
      [apply Qeq_bool_eq in B; contradiction | reflexivity].
Qed.

(** X19.  When the current savings are not below the target,
    [calculate_savings_goal] returns, for every rate and every period,
    that the goal is achieved with nothing left to save per month. *)
Theorem savings_goal_already_achieved
    (target current annual_return : Q) (years : Z) (Hreached : target <= current) :
  calculate_savings_goal target current annual_return years
  = Fine {| SavingsGoal.target_amount := round target 2;
            SavingsGoal.current_savings := round current 2;
            SavingsGoal.remaining_amount := 0;
            SavingsGoal.monthly_savings_required := 0;
            SavingsGoal.time_period_years := None;
            SavingsGoal.goal_achieved := true |}.
Proof.
  unfold calculate_savings_goal.
  assert (T : Qle_bool (target - current) 0 = true) by (apply Qle_bool_iff; lra).
  rewrite T. reflexivity.
Qed.

Lemma savings_goal_already_achieved_witness :
  exists info,
    calculate_savings_goal 10000 12000 5 0 = Fine info
    /\ SavingsGoal.goal_achieved info = true.
Proof.
  eexists. split.
  - apply (savings_goal_already_achieved 10000 12000 5 0). lra.
  - reflexivity.
Defined.

(** X20.  When the current savings are below the target and the period
    is 0 years, [calculate_savings_goal] raises for every rate: the
    division by zero inside the ValueError of its handler. *)
Theorem savings_goal_needs_a_period
    (target current annual_return : Q) (Hbelow : current < target) :
  calculate_savings_goal target current annual_return 0
  = Failed (Rewrapped "Error calculating savings goal: " (Raised ZeroDivisionError)).
Proof.
  unfold calculate_savings_goal.
  assert (F : Qle_bool (target - current) 0 = false).
  { apply not_true_is_false. intros T. apply Qle_bool_iff in T. lra. }
  rewrite F. change (0 * 12)%Z with 0%Z.
  unfold pow. rewrite andb_false_r. cbn [call].
  change ((1 + annual_return / (12 * 100)) ^ 0) with 1.
  assert (F' : Qle_bool (target - current * 1) 0 = false).
  { apply not_true_is_false. intros T. apply Qle_bool_iff in T. lra. }
  rewrite F'.
  destruct (Qeq_bool (annual_return / (12 * 100)) 0); reflexivity.
Qed.

Lemma savings_goal_needs_a_period_witness :
  calculate_savings_goal 10000 2000 5 0
  = Failed (Rewrapped "Error calculating savings goal: " (Raised ZeroDivisionError)).
Proof.
  apply (savings_goal_needs_a_period 10000 2000 5). lra.
Defined.

End PlanningClaims.

Section SavingsPlan.
Import Py Calculations Planning Spec.

Lemma months_of_years (years : Z) :
  (0 <= years)%Z -> Z.of_nat (Z.to_nat (12 * years)) = (years * 12)%Z.
Proof. intros H. rewrite Z2Nat.id; lia. Qed.

(** X21.  The monthly saving [calculate_savings_goal] asks for reaches
    the target.  For current savings below the target, both up to 10^12,
    a rate that is 0 or between 10^-6 and 1200 percent and a period of 1
    to 80 years, the function returns
    the rounding to two decimals of an amount C that is not negative and
    such that the month-by-month simulation of
    [calculate_compound_interest], started from the current savings with
    C as monthly contribution, ends at or above the target, and exactly
    at the target when C is not 0; the goal is reported as not achieved,
    also when C is 0. *)
Theorem savings_goal_requirement_reaches_target
    (target current annual_return : Q) (years : Z)
    (Htarget : Binary64.amount target) (Hcurrent : Binary64.amount current)
    (Hbelow : current < target) (Hdomain : Binary64.rate annual_return)
    (Hperiod : Binary64.years years) (Hyears : (0 < years)%Z) :
  exists (info : SavingsGoal.t) (C : Q),
    calculate_savings_goal target current annual_return years = Fine info
    /\ SavingsGoal.goal_achieved info = false
    /\ SavingsGoal.time_period_years info = Some years
    /\ SavingsGoal.monthly_savings_required info = round C 2
    /\ 0 <= C
    /\ target
       <= simulate (Z.to_nat (12 * years)) (annual_return / 1200) C current
    /\ (~ C == 0 ->
        simulate (Z.to_nat (12 * years)) (annual_return / 1200) C current == target).
Proof.
  pose proof (rate_nonneg annual_return Hdomain) as Hrate.
  clear Htarget Hcurrent Hdomain Hperiod.
  unfold calculate_savings_goal.
  assert (F : Qle_bool (target - current) 0 = false).
  { apply not_true_is_false. intros T. apply Qle_bool_iff in T. lra. }
  rewrite F.
  change (annual_return / (12 * 100)) with (annual_return / 1200).
  set (m := annual_return / 1200).
  set (N := (years * 12)%Z).
  set (n := Z.to_nat (12 * years)).
  assert (HN : Z.of_nat n = N) by (apply months_of_years; lia).
  assert (Hm : 0 <= m).
  { unfold m. assert (E : annual_return / 1200 == annual_return * (1 # 1200))
      by reflexivity. rewrite E. lra. }
  assert (Hg : ~ 1 + m == 0) by lra.
  assert (Hpow : pow (1 + m) N = Returns ((1 + m) ^ N)).
  { unfold pow. destruct (Qeq_bool (1 + m) 0) eqn:B; [| reflexivity].
    apply Qeq_bool_eq in B. contradiction. }
  rewrite Hpow. cbn [call].
  pose proof (fun c => simulate_closed n m c current Hg) as Closed.
  pose proof (fun c => simulate_zero_rate n m c current) as Flat.
  rewrite HN in Closed, Flat. fold n.
  assert (Hone : m == 0 -> (1 + m) ^ N == 1).
  { intros E. assert (G : 1 + m == 1) by lra. rewrite G. apply Qpower_1. }
  assert (HNpos : 0 < inject_Z N).
  { change 0 with (inject_Z 0). rewrite <- Zlt_Qlt. unfold N. lia. }
  destruct (Qle_bool (target - current * (1 + m) ^ N) 0) eqn:Enough.
  - (* the growth of the current savings suffices *)
    apply Qle_bool_iff in Enough.
    eexists. exists 0. split; [reflexivity |].
    cbn [SavingsGoal.goal_achieved SavingsGoal.time_period_years
         SavingsGoal.monthly_savings_required].
    repeat split; try lra.
    + destruct (Qeq_dec m 0) as [E | NE].
      * rewrite (Hone E) in Enough. lra.
      * specialize (Closed 0).
        assert (E : simulate n m 0 current * m == current * (1 + m) ^ N * m)
          by (rewrite Closed; ring).
        apply Qmult_inj_r in E; [| exact NE]. rewrite E. lra.
  - assert (Needed : 0 < target - current * (1 + m) ^ N).
    { apply Qnot_le_lt. intros T. apply Qle_bool_iff in T. congruence. }
    destruct (Qeq_bool m 0) eqn:Zero.
    + (* no interest *)
      apply Qeq_bool_eq in Zero.
      unfold div.
      destruct (Qeq_bool (inject_Z N) 0) eqn:D;
        [apply Qeq_bool_eq in D; lra |].
      cbn [call].
      eexists. exists ((target - current * (1 + m) ^ N) / inject_Z N).
      split; [reflexivity |].
      cbn [SavingsGoal.goal_achieved SavingsGoal.time_period_years
           SavingsGoal.monthly_savings_required].
      assert (Reach : simulate n m ((target - current * (1 + m) ^ N) / inject_Z N)
                        current == target).
      { rewrite (Flat _ Zero), (Hone Zero). field. lra. }
      repeat split.
      * apply Qlt_le_weak, Qlt_shift_div_l; [exact HNpos | lra].
      * rewrite Reach. lra.
      * intros _. exact Reach.
    + (* interest *)
      apply Qeq_bool_neq in Zero.
      assert (Hgt : 1 < 1 + m) by lra.
      assert (Grow : 1 < (1 + m) ^ N).
      { apply Qpower_1_lt; [exact Hgt | unfold N; lia]. }
      cbn [bind]. unfold div.
      destruct (Qeq_bool ((1 + m) ^ N - 1) 0) eqn:D.
      { apply Qeq_bool_eq in D. remember ((1 + m) ^ N) as G. lra. }
      cbn [call].
      eexists. exists ((target - current * (1 + m) ^ N) * m / ((1 + m) ^ N - 1)).
      split; [reflexivity |].
      cbn [SavingsGoal.goal_achieved SavingsGoal.time_period_years
           SavingsGoal.monthly_savings_required].
      assert (Reach : simulate n m
                        ((target - current * (1 + m) ^ N) * m / ((1 + m) ^ N - 1))
                        current == target).
      { apply (Qmult_inj_r _ _ m Zero). rewrite Closed.
        remember ((1 + m) ^ N) as G. field. lra. }
      repeat split.
      * apply Qlt_le_weak, Qlt_shift_div_l.
        -- remember ((1 + m) ^ N) as G. lra.
        -- rewrite Qmult_0_l. apply Qmult_lt_0_compat; lra.
      * rewrite Reach. lra.
      * intros _. exact Reach.
Qed.

Lemma savings_goal_requirement_reaches_target_witness :
  exists info C,
    calculate_savings_goal 10000 2000 5 3 = Fine info
    /\ SavingsGoal.monthly_savings_required info = round C 2
    /\ 10000 <= simulate (Z.to_nat (12 * 3)) (5 / 1200) C 2000.
Proof.
  destruct (savings_goal_requirement_reaches_target 10000 2000 5 3)
    as (info & C & E & _ & _ & R & _ & S & _).
  - vm_compute. discriminate.
  - vm_compute. discriminate.
  - reflexivity.
  - right. split; vm_compute; discriminate.
  - split; vm_compute; discriminate.
  - reflexivity.
  - 
  exists info, C. split; [exact E |]. split; [exact R | exact S].
Defined.

End SavingsPlan.

(** ** Rounding error, conversion and the amortization schedule *)

Section RoundingError.
Import Py.

Lemma round_half_even_error (y : Q) :
  - (1 # 2) <= inject_Z (round_half_even y) - y <= 1 # 2.
Proof.
  pose proof (Qfloor_le y) as L. pose proof (Qlt_floor y) as U.
  rewrite inject_Z_plus in U. change (inject_Z 1) with 1 in U.
  unfold round_half_even.
  destruct (Qcompare_spec (y - inject_Z (Qfloor y)) (1 # 2)) as [E | Lt | Gt].
  - destruct (Z.even (Qfloor y)).
    + lra.
    + rewrite inject_Z_plus. change (inject_Z 1) with 1. lra.
  - lra.
  - rewrite inject_Z_plus. change (inject_Z 1) with 1. lra.
Qed.

Lemma round_error (x : Q) : - (1 # 200) <= round x 2 - x <= 1 # 200.
Proof.
  rewrite round_2.
  pose proof (round_half_even_error (x * (100 # 1))) as E.
  set (k := inject_Z (round_half_even (x * (100 # 1)))) in *.
  assert (D : k / (100 # 1) == k * (1 # 100)) by (field; discriminate).
  rewrite D. lra.
Qed.

End RoundingError.

Section Conversion.
Import Py ApiUtils.

(** X23.  What [convert_amount] returns.  For equal currency codes it
    returns the amount as given, not rounded, and the rate 1, without
    looking rates up.  Otherwise it returns a result when the look-up
    gives a mapping that has the target code, and then the rate of the
    mapping and the product of amount and rate rounded to two decimals,
    at most half a cent away from the product; it returns no result when
    the look-up gives nothing or a mapping without the target code. *)
Theorem convert_amount_outcome
    (get_cached_exchange_rates : string -> option (gmap string Q))
    (amount : Q) (from_currency to_currency : string) :
  match convert_amount get_cached_exchange_rates amount from_currency to_currency with
  | (Some converted, Some rate) =>
      (from_currency = to_currency /\ converted = amount /\ rate = 1)
      \/ (from_currency <> to_currency
          /\ (exists rates,
                get_cached_exchange_rates from_currency = Some rates
                /\ rates !! to_currency = Some rate)
          /\ converted = round (amount * rate) 2
          /\ Qabs (converted - amount * rate) <= 1 # 200)
  | (None, None) =>
      from_currency <> to_currency
      /\ (get_cached_exchange_rates from_currency = None
          \/ exists rates,
               get_cached_exchange_rates from_currency = Some rates
               /\ rates !! to_currency = None)
  | _ => False
  end.
Proof.
  unfold convert_amount.
  destruct (String.eqb_spec from_currency to_currency) as [E | N].
  - left. repeat split. exact E.
  - destruct (get_cached_exchange_rates from_currency) as [rates |] eqn:G.
    + destruct (rates !! to_currency) as [rate |] eqn:L.
      * right. split; [exact N |]. split; [eauto |]. split; [reflexivity |].
        apply Qabs_Qle_condition. apply round_error.
      * split; [exact N |]. right. eauto.
    + split; [exact N |]. left. reflexivity.
Qed.

End Conversion.

Section Amortization.
Import Py Calculations Calculators.






End Amortization.

(** ** Patterns *)

Section Patterns.
Import Re.

Lemma append_nil (t : string) : (EmptyString ++ t)%string = t.
Proof. reflexivity. Qed.

Lemma append_cons (c : ascii) (s t : string) :
  (String c s ++ t)%string = String c (s ++ t)%string.
Proof. reflexivity. Qed.

Lemma append_assoc (s t u : string) : ((s ++ t) ++ u)%string = (s ++ (t ++ u))%string.
Proof.
  induction s as [| c s IH]; [reflexivity |].
  rewrite !append_cons, IH. reflexivity.
Qed.

Lemma append_empty (s t : string) :
  (s ++ t)%string = EmptyString -> s = EmptyString /\ t = EmptyString.
Proof.
  destruct s; [rewrite append_nil; intros ->; split; reflexivity |].
  rewrite append_cons. discriminate.
Qed.

Lemma length_append (s t : string) :
  String.length (s ++ t) = (String.length s + String.length t)%nat.
Proof.
  induction s as [| c s IH]; [reflexivity |].
  rewrite append_cons. cbn [String.length]. rewrite IH. reflexivity.
Qed.

Lemma all_append (member : ascii -> bool) (s t : string) :
  all member (s ++ t) = all member s && all member t.
Proof.
  induction s as [| c s IH]; [reflexivity |].
  rewrite append_cons. cbn [all]. rewrite IH, andb_assoc. reflexivity.
Qed.

Lemma denotes_empty (p : pattern) (s : string) :
  denotes p s -> s = EmptyString -> nullable p = true.
Proof.
  induction 1 as [| member c Hc | p q s t _ IHp _ IHq | p q s _ IH | p q s _ IH
                 | p | p s t _ _ _ _]; intros E; cbn [nullable]; try reflexivity.
  - discriminate.
  - apply append_empty in E as [-> ->]. rewrite IHp, IHq; reflexivity.
  - rewrite IH by exact E. reflexivity.
  - rewrite IH by exact E. apply orb_true_r.
Qed.

Lemma nullable_denotes (p : pattern) : nullable p = true -> denotes p EmptyString.
Proof.
  induction p as [| | member | p IHp q IHq | p IHp q IHq | p _]; cbn [nullable];
    intros N; try discriminate.
  - constructor.
  - apply andb_true_iff in N as [Np Nq].
    exact (denotes_cat p q EmptyString EmptyString (IHp Np) (IHq Nq)).
  - apply orb_true_iff in N as [N | N].
    + apply denotes_alt_l, IHp, N.
    + apply denotes_alt_r, IHq, N.
  - constructor.
Qed.

Lemma derivative_sound (p : pattern) : forall (c : ascii) (s : string),
  denotes (derivative c p) s -> denotes p (String c s).
Proof.
  induction p as [| | member | p IHp q IHq | p IHp q IHq | p IHp]; intros c s D;
    cbn [derivative] in D.
  - inversion D.
  - inversion D.
  - destruct (member c) eqn:M; inversion D; subst. constructor. exact M.
  - assert (L : denotes (Cat (derivative c p) q) s -> denotes (Cat p q) (String c s)).
    { intros D'. inversion D' as [| | p' q' s1 s2 D1 D2 | | | |]; subst.
      exact (denotes_cat p q (String c s1) s2 (IHp c s1 D1) D2). }
    destruct (nullable p) eqn:N; [| exact (L D)].
    inversion D as [| | | p' q' s' D' | p' q' s' D' | |]; subst; [exact (L D') |].
    exact (denotes_cat p q EmptyString (String c s) (nullable_denotes p N) (IHq c s D')).
  - inversion D as [| | | p' q' s' D' | p' q' s' D' | |]; subst.
    + apply denotes_alt_l, IHp, D'.
    + apply denotes_alt_r, IHq, D'.
  - inversion D as [| | p' q' s1 s2 D1 D2 | | | |]; subst.
    exact (denotes_star_cons p (String c s1) s2 (IHp c s1 D1) D2).
Qed.

Lemma derivative_complete (p : pattern) (t : string) :
  denotes p t -> forall (c : ascii) (s : string),
  t = String c s -> denotes (derivative c p) s.
Proof.
  induction 1 as [| member c' Hc | p q s1 s2 D1 IH1 D2 IH2 | p q s1 _ IH | p q s1 _ IH
                 | p | p s1 s2 D1 IH1 D2 IH2]; intros c s E; cbn [derivative].
  - discriminate.
  - injection E as <- <-. rewrite Hc. constructor.
  - destruct s1 as [| a s1'].
    + rewrite append_nil in E. rewrite (denotes_empty p EmptyString D1 eq_refl).
      apply denotes_alt_r, IH2, E.
    + rewrite append_cons in E. injection E as -> <-.
      assert (L : denotes (Cat (derivative c p) q) (s1' ++ s2))
        by exact (denotes_cat _ _ _ _ (IH1 c s1' eq_refl) D2).
      destruct (nullable p); [apply denotes_alt_l |]; exact L.
  - apply denotes_alt_l, IH, E.
  - apply denotes_alt_r, IH, E.
  - discriminate.
  - destruct s1 as [| a s1'].
    + rewrite append_nil in E. exact (IH2 c s E).
    + rewrite append_cons in E. injection E as -> <-.
      exact (denotes_cat _ _ _ _ (IH1 c s1' eq_refl) D2).
Qed.

(** Matching by derivatives decides whether a pattern stands for the
    string. *)
Lemma matches_denotes (s : string) : forall p : pattern,
  matches p s = true <-> denotes p s.
Proof.
  induction s as [| c s IH]; intros p; cbn [matches].
  - split; [apply nullable_denotes | intros D; exact (denotes_empty p _ D eq_refl)].
  - rewrite IH. split; [apply derivative_sound |].
    intros D. exact (derivative_complete p _ D c s eq_refl).
Qed.

Lemma denotes_class_inv (member : ascii -> bool) (s : string) :
  denotes (Class member) s -> exists c, s = String c EmptyString /\ member c = true.
Proof. intros D. inversion D; subst. eauto. Qed.

Lemma denotes_cat_inv (p q : pattern) (s : string) :
  denotes (Cat p q) s -> exists s1 s2, s = (s1 ++ s2)%string /\ denotes p s1 /\ denotes q s2.
Proof. intros D. inversion D; subst. eauto. Qed.

Lemma denotes_star_class (member : ascii -> bool) (s : string) :
  denotes (Star (Class member)) s <-> all member s = true.
Proof.
  split.
  - intros D. remember (Star (Class member)) as p eqn:P.
    induction D as [| | | | | p | p s t D1 _ D2 IH2]; try discriminate; [reflexivity |].
    injection P as ->. apply denotes_class_inv in D1 as (c & -> & M).
    rewrite append_cons, append_nil. cbn [all]. rewrite M, IH2; reflexivity.
  - induction s as [| c s IH]; cbn [all]; intros A; [constructor |].
    apply andb_true_iff in A as [M A].
    exact (denotes_star_cons (Class member) (String c EmptyString) s
             (denotes_class member c M) (IH A)).
Qed.

Lemma denotes_plus_class (member : ascii -> bool) (s : string) :
  denotes (Plus (Class member)) s <-> s <> EmptyString /\ all member s = true.
Proof.
  unfold Plus. split.
  - intros D. apply denotes_cat_inv in D as (s1 & s2 & -> & D1 & D2).
    apply denotes_class_inv in D1 as (c & -> & M).
    apply denotes_star_class in D2. rewrite append_cons, append_nil. cbn [all].
    rewrite M, D2. split; [discriminate | reflexivity].
  - intros [N A]. destruct s as [| c s]; [contradiction |].
    cbn [all] in A. apply andb_true_iff in A as [M A].
    exact (denotes_cat (Class member) (Star (Class member)) (String c EmptyString) s
             (denotes_class member c M) (proj2 (denotes_star_class member s) A)).
Qed.

Lemma denotes_at_least_2_class (member : ascii -> bool) (s : string) :
  denotes (AtLeast2 (Class member)) s <-> (2 <= String.length s)%nat /\ all member s = true.
Proof.
  unfold AtLeast2. split.
  - intros D. apply denotes_cat_inv in D as (s1 & s2 & -> & D1 & D2).
    apply denotes_class_inv in D1 as (c & -> & M).
    apply denotes_cat_inv in D2 as (s3 & s4 & -> & D3 & D4).
    apply denotes_class_inv in D3 as (c' & -> & M').
    apply denotes_star_class in D4. rewrite !append_cons, !append_nil.
    cbn [all String.length]. rewrite M, M', D4. split; [lia | reflexivity].
  - intros [N A]. destruct s as [| c [| c' s]]; cbn [String.length] in N; try lia.
    cbn [all] in A. apply andb_true_iff in A as [M A]. apply andb_true_iff in A as [M' A].
    exact (denotes_cat (Class member) _ (String c EmptyString) (String c' s)
             (denotes_class member c M)
             (denotes_cat (Class member) _ (String c' EmptyString) s
                (denotes_class member c' M') (proj2 (denotes_star_class member s) A))).
Qed.

Lemma denotes_dollar (s : string) :
  denotes Dollar s <-> s = EmptyString \/ s = String "010" EmptyString.
Proof.
  unfold Dollar. split.
  - intros D. inversion D as [| | | p q s' D' | p q s' D' | |]; subst.
    + inversion D'. left. reflexivity.
    + apply denotes_class_inv in D' as (c & -> & M). apply Ascii.eqb_eq in M as <-.
      right. reflexivity.
  - intros [-> | ->].
    + apply denotes_alt_l. constructor.
    + apply denotes_alt_r. constructor. reflexivity.
Qed.

End Patterns.

(** ** Text: [strip] and [lower] *)

Section Text.
Import Py.

Lemma rstrip_last (s : string) : forall (t : string) (c : ascii),
  rstrip s = (t ++ String c EmptyString)%string -> is_space c = false.
Proof.
  induction s as [| a s IH]; intros t c E.
  - destruct t; [rewrite append_nil in E | rewrite append_cons in E]; discriminate.
  - cbn [rstrip] in E. destruct (rstrip s) as [| d r] eqn:R.
    + destruct (is_space a) eqn:Sa.
      * destruct t; [rewrite append_nil in E | rewrite append_cons in E]; discriminate.
      * destruct t as [| a' t'].
        -- rewrite append_nil in E. injection E as <-. exact Sa.
        -- rewrite append_cons in E. injection E as _ E.
           destruct t'; [rewrite append_nil in E | rewrite append_cons in E];
             discriminate.
    + destruct t as [| a' t'].
      * rewrite append_nil in E. discriminate.
      * rewrite append_cons in E. injection E as _ E. exact (IH t' c E).
Qed.

(** A stripped string does not end with a newline. *)
Lemma strip_no_final_newline (s t : string) :
  strip s <> (t ++ String "010" EmptyString)%string.
Proof.
  unfold strip. intros E. apply rstrip_last in E. discriminate.
Qed.

Lemma rstrip_idem (s : string) : rstrip (rstrip s) = rstrip s.
Proof.
  induction s as [| a s IH]; [reflexivity |].
  cbn [rstrip]. destruct (rstrip s) as [| d r] eqn:R.
  - destruct (is_space a) eqn:Sa; [reflexivity |]. cbn [rstrip]. rewrite Sa. reflexivity.
  - change (rstrip (String a (String d r)))
      with (match rstrip (String d r) with
            | EmptyString => if is_space a then EmptyString else String a EmptyString
            | r0 => String a r0
            end).
    rewrite IH. reflexivity.
Qed.

Lemma rstrip_head (c : ascii) (s : string) :
  is_space c = false -> exists r, rstrip (String c s) = String c r.
Proof.
  intros Sc. cbn [rstrip]. destruct (rstrip s); [rewrite Sc |]; eauto.
Qed.

Lemma lstrip_head (s : string) :
  lstrip s = EmptyString
  \/ exists c s', lstrip s = String c s' /\ is_space c = false.
Proof.
  induction s as [| a s IH]; [left; reflexivity |].
  cbn [lstrip]. destruct (is_space a) eqn:Sa; [exact IH |]. right. eauto.
Qed.

Lemma strip_idem (s : string) : strip (strip s) = strip s.
Proof.
  unfold strip. destruct (lstrip_head s) as [E | (c & s' & E & Sc)]; rewrite E.
  - reflexivity.
  - assert (L : lstrip (rstrip (String c s')) = rstrip (String c s')).
    { destruct (rstrip_head c s' Sc) as [r R]. rewrite R. cbn [lstrip]. rewrite Sc.
      reflexivity. }
    rewrite L. apply rstrip_idem.
Qed.

Lemma lower_char_idem (c : ascii) : lower_char (lower_char c) = lower_char c.
Proof. destruct c as [[] [] [] [] [] [] [] []]; reflexivity. Qed.

Lemma is_space_lower_char (c : ascii) : is_space (lower_char c) = is_space c.
Proof. destruct c as [[] [] [] [] [] [] [] []]; reflexivity. Qed.

Lemma lower_idem (s : string) : lower (lower s) = lower s.
Proof.
  induction s as [| c s IH]; [reflexivity |].
  cbn [lower]. rewrite lower_char_idem, IH. reflexivity.
Qed.

Lemma lstrip_lower (s : string) : lstrip (lower s) = lower (lstrip s).
Proof.
  induction s as [| c s IH]; [reflexivity |].
  cbn [lower lstrip]. rewrite is_space_lower_char.
  destruct (is_space c); [exact IH | reflexivity].
Qed.

Lemma rstrip_lower (s : string) : rstrip (lower s) = lower (rstrip s).
Proof.
  induction s as [| c s IH]; [reflexivity |].
  cbn [lower rstrip]. rewrite IH, is_space_lower_char.
  destruct (rstrip s); cbn [lower]; [destruct (is_space c) |]; reflexivity.
Qed.

Lemma strip_lower (s : string) : strip (lower s) = lower (strip s).
Proof. unfold strip. rewrite lstrip_lower, rstrip_lower. reflexivity. Qed.

End Text.

(** ** The registration and login forms *)

Section FormLemmas.
Import Py Re Pandas AuthUtils AuthPage Spec AccountSpec FormSpec.

Lemma append_empty_r (s : string) : (s ++ EmptyString)%string = s.
Proof.
  induction s as [| c s IH]; [reflexivity |]. rewrite append_cons, IH. reflexivity.
Qed.

Lemma search_contains (member : ascii -> bool) (s : string) :
  search member s = true <-> contains member s.
Proof.
  split.
  - induction s as [| c s IH]; cbn [search]; [discriminate |].
    intros H. apply orb_true_iff in H as [M | H].
    + exists EmptyString, c, s. split; [reflexivity | exact M].
    + destruct (IH H) as (s1 & c' & s2 & -> & M).
      exists (String c s1), c', s2. split; [reflexivity | exact M].
  - intros (s1 & c & s2 & -> & M). induction s1 as [| a s1 IH].
    + rewrite append_nil. cbn [search]. rewrite M. reflexivity.
    + rewrite append_cons. cbn [search]. rewrite IH. apply orb_true_r.
Qed.

Lemma blank_false (s : string) : blank s = false <-> s <> EmptyString.
Proof. destruct s; cbn; split; congruence. Qed.

Lemma blank_length (s : string) : (1 <= String.length s)%nat -> blank s = false.
Proof. destruct s; cbn; [lia | reflexivity]. Qed.

(** The value of [s.strip() if s else ''] *)
Lemma safe_strip (s : string) :
  (if negb (blank s) then strip s else EmptyString) = strip s.
Proof. destruct s; reflexivity. Qed.

Lemma username_pattern_valid (s : string) :
  (forall t, s <> (t ++ String "010" EmptyString)%string) ->
  matches username_pattern s = true <-> s <> EmptyString /\ all username_char s = true.
Proof.
  intros Hs. rewrite matches_denotes. unfold username_pattern. split.
  - intros D. apply denotes_cat_inv in D as (s1 & s2 & -> & D1 & D2).
    apply denotes_dollar in D2 as [-> | ->].
    + rewrite append_empty_r. apply denotes_plus_class, D1.
    + exfalso. exact (Hs s1 eq_refl).
  - intros H. apply denotes_plus_class in H.
    rewrite <- (append_empty_r s).
    exact (denotes_cat _ _ _ _ H (proj2 (denotes_dollar EmptyString) (or_introl eq_refl))).
Qed.

Lemma email_pattern_valid (s : string) :
  (forall t, s <> (t ++ String "010" EmptyString)%string) ->
  matches email_pattern s = true <-> valid_email s.
Proof.
  intros Hs. rewrite matches_denotes. unfold email_pattern, valid_email. split.
  - intros D.
    apply denotes_cat_inv in D as (l & r1 & -> & Dl & D).
    apply denotes_cat_inv in D as (a & r2 & -> & Da & D).
    apply denotes_cat_inv in D as (d & r3 & -> & Dd & D).
    apply denotes_cat_inv in D as (o & r4 & -> & Do & D).
    apply denotes_cat_inv in D as (t & e & -> & Dt & De).
    apply denotes_class_inv in Da as (c & -> & Ca). apply Ascii.eqb_eq in Ca as <-.
    apply denotes_class_inv in Do as (c & -> & Co). apply Ascii.eqb_eq in Co as <-.
    apply denotes_plus_class in Dl as [Nl Al].
    apply denotes_plus_class in Dd as [Nd Ad].
    apply denotes_at_least_2_class in Dt as [Lt At].
    apply denotes_dollar in De as [-> | ->].
    + rewrite append_empty_r. exists l, d, t. repeat split; assumption.
    + exfalso. apply (Hs (l ++ "@" ++ d ++ "." ++ t)%string).
      rewrite !append_assoc. reflexivity.
  - intros (l & d & t & -> & Nl & Al & Nd & Ad & Lt & At).
    pose proof (proj2 (denotes_plus_class local_char l) (conj Nl Al)) as Dl.
    pose proof (proj2 (denotes_plus_class domain_char d) (conj Nd Ad)) as Dd.
    pose proof (proj2 (denotes_at_least_2_class letter t) (conj Lt At)) as Dt.
    pose proof (proj2 (denotes_dollar EmptyString) (or_introl eq_refl)) as De.
    pose proof (denotes_cat _ _ _ _ Dl
                  (denotes_cat _ _ _ _ (denotes_class (Ascii.eqb "@") "@" eq_refl)
                     (denotes_cat _ _ _ _ Dd
                        (denotes_cat _ _ _ _ (denotes_class (Ascii.eqb ".") "." eq_refl)
                           (denotes_cat _ _ _ _ Dt De))))) as D.
    rewrite append_empty_r in D. exact D.
Qed.

Ltac check_step H :=
  match type of H with
  | (if ?b then _ else _) = [] =>
      destruct b eqn:?; [apply app_eq_nil in H as [_ H]; discriminate H |]
  end.

(** The form's checks, one by one. *)
Lemma validation_checks (username email password confirm_password : string)
    (terms_accepted : bool) :
  validate_registration_data username email password confirm_password terms_accepted
  = []
  <-> (blank (strip username) = false
       /\ (String.length (strip username) <? 3)%nat = false
       /\ (50 <? String.length (strip username))%nat = false
       /\ matches username_pattern (strip username) = true)
      /\ (blank (strip email) = false
          /\ matches email_pattern (strip email) = true)
      /\ (blank password = false
          /\ (String.length password <? 8)%nat = false
          /\ search letter password = true
          /\ search digit password = true)
      /\ String.eqb password confirm_password = true
      /\ terms_accepted = true.
Proof.
  unfold validate_registration_data. cbv zeta. rewrite !safe_strip. split.
  - intros H. repeat check_step H.
    repeat match goal with
           | E : negb _ = false |- _ => apply negb_false_iff in E
           end.
    repeat split; assumption.
  - intros ((U1 & U2 & U3 & U4) & (E1 & E2) & (P1 & P2 & P3 & P4) & C & T).
    rewrite U1, U2, U3, U4, E1, E2, P1, P2, P3, P4, C, T. reflexivity.
Qed.

End FormLemmas.

Section EmailCells.
Import Py Re AuthPage FormSpec.

Lemma search_append (member : ascii -> bool) (s t : string) :
  search member (s ++ t) = search member s || search member t.
Proof.
  induction s as [| c s IH]; [reflexivity |].
  rewrite append_cons. cbn [search]. rewrite IH. apply orb_assoc.
Qed.

Lemma lower_append (s t : string) : lower (s ++ t) = (lower s ++ lower t)%string.
Proof.
  induction s as [| c s IH]; [reflexivity |].
  rewrite append_cons. cbn [lower]. rewrite IH. reflexivity.
Qed.

Lemma all_lower (member member' : ascii -> bool) (s : string) :
  (forall c, member c = true -> member' (lower_char c) = true) ->
  all member s = true -> all member' (lower s) = true.
Proof.
  intros M. induction s as [| c s IH]; [reflexivity |].
  cbn [all lower]. intros [A B]%andb_true_iff. rewrite (M c A), (IH B). reflexivity.
Qed.

Lemma search_not_all (member member' : ascii -> bool) (s : string) :
  (forall c, member c = true -> member' c = false) ->
  search member s = true -> all member' s = false.
Proof.
  intros M. induction s as [| c s IH]; cbn [search all]; [discriminate |].
  intros [A | A]%orb_true_iff.
  - rewrite (M c A). reflexivity.
  - rewrite (IH A). apply andb_false_r.
Qed.

Lemma search_not_in (member : ascii -> bool) (s : string) (l : list string) :
  search member s = true ->
  List.forallb (fun t => negb (search member t)) l = true ->
  List.existsb (String.eqb s) l = false.
Proof.
  intros S. induction l as [| t l IH]; [reflexivity |].
  cbn [List.forallb List.existsb]. intros [N A]%andb_true_iff.
  rewrite (IH A), orb_false_r. apply String.eqb_neq. intros ->.
  rewrite S in N. discriminate.
Qed.

Lemma email_chars_printable (c : ascii) :
  local_char c = true \/ domain_char c = true \/ letter c = true ->
  Csv.printable (lower_char c) = true.
Proof.
  destruct c as [[] [] [] [] [] [] [] []]; vm_compute; intuition discriminate.
Qed.

(** An email address the form lets through, in lower case, is a cell
    that is read back as written: it has an at sign. *)
Lemma valid_email_text (s : string) :
  valid_email s -> s = strip s -> Csv.text (lower s) = true.
Proof.
  intros (l & d & t & E & _ & Al & _ & Ad & _ & At) Hs.
  assert (At' : search (Ascii.eqb "@") (lower s) = true).
  { rewrite E, lower_append, search_append, append_cons. cbn [lower search].
    rewrite orb_true_r. reflexivity. }
  assert (P : all Csv.printable (lower s) = true).
  { rewrite E, !lower_append, !all_append.
    rewrite (all_lower local_char Csv.printable l) by
      (intros c H; apply email_chars_printable; auto) || exact Al.
    rewrite (all_lower domain_char Csv.printable d) by
      (intros c H; apply email_chars_printable; auto) || exact Ad.
    rewrite (all_lower letter Csv.printable t) by
      (intros c H; apply email_chars_printable; auto) || exact At.
    reflexivity. }
  unfold Csv.text. rewrite P.
  rewrite (search_not_all (Ascii.eqb "@") Csv.number_char (lower s)); [| | exact At'].
  2:{ intros c H. apply Ascii.eqb_eq in H as <-. reflexivity. }
  rewrite strip_lower, <- Hs, lower_idem.
  rewrite (search_not_in (Ascii.eqb "@") (lower s) Csv.tokens At' eq_refl).
  reflexivity.
Qed.

End EmailCells.

Section FormClaims.
Import Py Re Pandas AuthUtils AuthPage Spec AccountSpec FormSpec.

(** Logging in as the user of the last row, when no row before it has
    the same user name. *)
Lemma authenticate_user_last_row (hash_password : string -> string)
    (now password : string) (rows : list User.row) (new : User.row) :
  (forall v, In v rows -> User.username v <> User.username new) ->
  User.password_hash new = hash_password password ->
  exists file',
    authenticate_user hash_password now (User.username new) password
      (Some (rows ++ [new]))
    = (Some (session_of new), file').
Proof.
  intros Hname Hhash. unfold authenticate_user. rewrite read_csv_nonempty.
  unfold read_csv. rewrite enumerate_app, select_app.
  rewrite select_enumerate_none.
  - cbn [enumerate_from select List.filter snd app].
    rewrite String.eqb_refl, Hhash, String.eqb_refl. eexists. reflexivity.
  - intros v Hv. apply String.eqb_neq. exact (Hname v Hv).
Qed.

(** X25.  The registration form's checks pass, that is
    [validate_registration_data] returns no message, exactly when: the
    user name without surrounding white space has 3 to 50 characters (50
    included), all of them letters, digits, hyphens or underscores; the
    email without surrounding white space reads local@domain.tld with a
    local part that is not empty, of letters, digits and [._%+-], a
    domain that is not empty, of letters, digits, dots and hyphens, and
    at least two letters after its last dot; the password has at least 8
    characters, a letter and a digit among them, and equals its
    confirmation; and the terms are accepted. *)
Theorem validate_registration_data_accepts
    (username email password confirm_password : string) (terms_accepted : bool) :
  validate_registration_data username email password confirm_password terms_accepted
  = []
  <-> valid_username (strip username)
      /\ valid_email (strip email)
      /\ valid_password password
      /\ confirm_password = password
      /\ terms_accepted = true.
Proof.
  rewrite validation_checks.
  rewrite (username_pattern_valid _ (strip_no_final_newline username)).
  rewrite (email_pattern_valid _ (strip_no_final_newline email)).
  rewrite !search_contains, String.eqb_eq.
  unfold valid_username, valid_password.
  split.
  - intros ((_ & U2 & U3 & _ & U4) & (_ & E) & (_ & P2 & P3 & P4) & C & T).
    apply Nat.ltb_ge in U2, U3, P2.
    repeat split; try assumption. symmetry. exact C.
  - intros (([U1 U2] & U3) & E & (P1 & P2 & P3) & C & T).
    assert (Bu : blank (strip username) = false) by (apply blank_length; lia).
    assert (Bp : blank password = false) by (apply blank_length; lia).
    assert (Be : blank (strip email) = false).
    { destruct E as (l & d & t & -> & Nl & _). destruct l; [contradiction | reflexivity]. }
    repeat split; try assumption; try (apply Nat.ltb_ge; lia).
    + apply blank_false, Bu.
    + symmetry. exact C.
Qed.

(** X26.  A registration form submitted with a blank full name never
    creates an account: either the checks of the form fail, or
    [register_user] is called with [full_name] set to [None], returns
    false and leaves the users file as it is, with one of its three
    error messages. *)
Theorem blank_full_name_is_never_registered (hash_password : string -> string)
    (now username email password confirm_password full_name : string)
    (terms_accepted : bool) (file : users_file) :
  strip full_name = EmptyString ->
  match show_register_form hash_password now username email password
          confirm_password full_name terms_accepted file with
  | Invalid validation_errors => validation_errors <> []
  | Submitted outcome =>
      registered outcome = false
      /\ users_after outcome = file
      /\ (registration_error outcome = Some "Username already exists"%string
          \/ registration_error outcome = Some "Email already exists"%string
          \/ registration_error outcome
             = Some "Registration error: 'NoneType' object has no attribute 'strip'"%string)
  end.
Proof.
  intros Hblank. unfold show_register_form.
  destruct (validate_registration_data _ _ _ _ _); [| discriminate].
  rewrite Hblank. cbn [blank negb]. unfold register_user. cbn [UserData.full_name].
  destruct (_ && _); [cbn; auto |].
  destruct (_ && _); cbn; auto.
Qed.

Lemma blank_full_name_is_never_registered_witness :
  strip "  " = EmptyString
  /\ match show_register_form Sample.digest "2024-03-01 10:00:00" "alice_01"
             "Alice@Example.org" "passw0rd" "passw0rd" "  " true None with
     | Invalid validation_errors => validation_errors <> []
     | Submitted outcome =>
         registered outcome = false
         /\ users_after outcome = None
         /\ (registration_error outcome = Some "Username already exists"%string
             \/ registration_error outcome = Some "Email already exists"%string
             \/ registration_error outcome
                = Some "Registration error: 'NoneType' object has no attribute 'strip'"%string)
     end.
Proof.
  split; [reflexivity |].
  apply (blank_full_name_is_never_registered Sample.digest "2024-03-01 10:00:00"
           "alice_01" "Alice@Example.org" "passw0rd" "passw0rd" "  " true None).
  reflexivity.
Defined.

(** X27.  An account created through the registration form can be used
    in the login form: when the form registers a user, the users file
    gains one row, written with the typed user name and full name
    without surrounding white space (the full name is not blank) and the
    typed email without surrounding white space in lower case; and when
    the user name and the password hash are cells that are read back as
    written, the login form, given the user name and the password as
    typed at registration, opens a session with the id and the name of
    that row. *)
Theorem form_registration_then_login (hash_password : string -> string)
    (now now' username email password confirm_password full_name : string)
    (terms_accepted : bool) (file : users_file) (outcome : registration) :
  show_register_form hash_password now username email password confirm_password
    full_name terms_accepted file = Submitted outcome ->
  registered outcome = true ->
  Csv.text (strip username) = true ->
  Csv.text (hash_password password) = true ->
  exists (new : User.row) (session : Session.t) (file' : users_file),
    data_rows (users_after outcome) = data_rows file ++ [new]
    /\ User.username new = strip username
    /\ User.email new = lower (strip email)
    /\ User.full_name new = strip full_name
    /\ strip full_name <> EmptyString
    /\ show_login_form hash_password now' username password (users_after outcome)
       = (Some session, file')
    /\ Session.user_id session = User.user_id new
    /\ Session.username session = strip username.
Proof.
  unfold show_register_form.
  destruct (validate_registration_data _ _ _ _ _) eqn:V; [| discriminate].
  intros [= <-] Hreg _ _.
  apply validation_checks in V as ((Bu & _) & _ & (Bp & _) & _).
  set (user_data := {| UserData.username := strip username |}) in *.
  destruct (register_user_accepted_fresh _ _ _ _ Hreg) as [Hname _].
  rewrite (register_user_accepted _ _ _ _ Hreg).
  set (id := match data_rows file with
             | [] => 1%Z
             | _ :: _ => (max_user_id (read_csv (data_rows file)) + 1)%Z
             end).
  set (new := new_user hash_password now id user_data).
  assert (Un : User.username new = strip username) by apply strip_idem.
  assert (Ue : User.email new = lower (strip email)).
  { unfold new, new_user, user_data. cbn [User.email UserData.email].
    rewrite strip_lower, strip_idem, lower_idem. reflexivity. }
  assert (Nf : blank (strip full_name) = false).
  { destruct (blank (strip full_name)) eqn:B; [| reflexivity].
    exfalso. revert Hreg. unfold register_user, user_data.
    cbn [UserData.full_name UserData.username UserData.email].
    cbn [negb].
    destruct (_ && _); [discriminate |]. destruct (_ && _); discriminate. }
  assert (Uf : User.full_name new = strip full_name).
  { unfold new, new_user, user_data. cbn [User.full_name UserData.full_name].
    rewrite Nf. cbn [negb]. apply strip_idem. }
  destruct (authenticate_user_last_row hash_password now' password (data_rows file) new)
    as [file' A].
  { intros v Hv E. apply (Hname v Hv). rewrite E, Un. reflexivity. }
  { reflexivity. }
  exists new, (session_of new), file'.
  split; [reflexivity |]. split; [exact Un |]. split; [exact Ue |].
  split; [exact Uf |]. split; [apply blank_false, Nf |].
  split; [| split; [reflexivity | exact Un]].
  unfold show_login_form. rewrite Bu, Bp. cbn [orb]. rewrite <- Un. exact A.
Qed.

Lemma form_registration_then_login_witness :
  exists (new : User.row) (session : Session.t) (file' : users_file),
    User.username new = "alice_01"%string
    /\ User.email new = "alice@example.org"%string
    /\ show_login_form Sample.digest "2024-03-02 08:00:00" " alice_01 " "passw0rd"
         (Some [Sample.user 1 "bob" "bob@example.org" "sha256:hunter2"; new])
       = (Some session, file')
    /\ Session.username session = "alice_01"%string.
Proof.
  destruct (form_registration_then_login Sample.digest "2024-03-01 10:00:00"
              "2024-03-02 08:00:00" " alice_01 " " Alice@Example.org" "passw0rd"
              "passw0rd" "Alice" true
              (Some [Sample.user 1 "bob" "bob@example.org" "sha256:hunter2"])
              _ eq_refl eq_refl eq_refl eq_refl)
    as (new & session & file' & E & Un & Ue & _ & _ & L & _ & Us).
  exists new, session, file'. split; [exact Un |]. split; [exact Ue |].
  split; [| exact Us]. injection E as <-. exact L.
Defined.

(** X28.  Registration through the form keeps the stored user names
    pairwise distinct up to letter case, and likewise the stored emails:
    the form passes the names to [register_user] without surrounding
    white space, so that the name compared with the stored ones is the
    name stored.  This is stated for a user name that is a cell read
    back as written; the email address the form lets through always is
    one. *)
Theorem form_registration_keeps_names_distinct (hash_password : string -> string)
    (now username email password confirm_password full_name : string)
    (terms_accepted : bool) (file : users_file) (outcome : registration) :
  show_register_form hash_password now username email password confirm_password
    full_name terms_accepted file = Submitted outcome ->
  Csv.text (strip username) = true ->
  Csv.text (lower (strip email)) = true
  /\ (NoDup (lower_usernames file) -> NoDup (lower_usernames (users_after outcome)))
  /\ (NoDup (lower_emails file) -> NoDup (lower_emails (users_after outcome))).
Proof.
  unfold show_register_form.
  destruct (validate_registration_data _ _ _ _ _) eqn:V; [| discriminate].
  intros [= <-] _.
  split.
  { apply validation_checks in V as (_ & (_ & E) & _).
    apply (email_pattern_valid _ (strip_no_final_newline email)) in E.
    apply valid_email_text; [exact E | symmetry; apply strip_idem]. }
  set (user_data := {| UserData.username := strip username |}) in *.
  destruct (registered (register_user hash_password now user_data file)) eqn:Hreg.
  2:{ rewrite (register_user_rejected _ _ _ _ Hreg). split; intros N; exact N. }
  destruct (register_user_accepted_fresh _ _ _ _ Hreg) as [Hname Hmail].
  unfold lower_usernames, lower_emails.
  rewrite (register_user_accepted _ _ _ _ Hreg). cbn [data_rows].
  rewrite !fmap_app. cbn [fmap list_fmap new_user User.username User.email].
  cbn [UserData.username UserData.email user_data].
  split; intros N; apply NoDup_app; (split; [exact N |]);
    (split; [| apply NoDup_singleton]); intros x Hx Hin;
    apply list_elem_of_singleton in Hin; subst x;
    apply list_elem_of_fmap in Hx as (v & E & Hv); apply list_elem_of_In in Hv.
  - apply (Hname v Hv). rewrite <- E, strip_idem. reflexivity.
  - apply (Hmail v Hv). rewrite <- E. cbn [UserData.email user_data].
    rewrite strip_lower, strip_idem, !lower_idem. reflexivity.
Qed.

Lemma form_registration_keeps_names_distinct_witness :
  NoDup (lower_usernames
           (users_after
              (register_user Sample.digest "2024-03-01 10:00:00"
                 {| UserData.username := "Bob_2"; UserData.email := "bob2@example.org";
                    UserData.password := "passw0rd";
                    UserData.full_name := Some (Some "Bob"%string) |}
                 (Some [Sample.user 1 "bob" "bob@example.org" "sha256:hunter2"])))).
Proof.
  refine (proj1 (proj2 (form_registration_keeps_names_distinct Sample.digest
                          "2024-03-01 10:00:00" " Bob_2" "Bob2@example.org "
                          "passw0rd" "passw0rd" "Bob" true
                          (Some [Sample.user 1 "bob" "bob@example.org" "sha256:hunter2"])
                          _ eq_refl eq_refl)) _).
  apply NoDup_singleton.
Defined.

End FormClaims.
